(** * wokkel.pubsub: the XEP-0060 request codec, client and service handlers

    A shallow embedding of [src/wokkel/pubsub.py].  Python objects that
    the code mutates in place ([self], [verbElement], [info]) are passed
    explicitly; an exception is the [Raise] branch of [Result]; the
    collaborators that live outside the file (Twisted's JIDs, wokkel's
    data forms) are the methods of two type classes. *)

From Stdlib Require Import ZArith String Ascii List.
From Stdlib Require Import DecimalString DecimalPos DecimalZ.
From stdpp Require Import gmap strings list.

Local Open Scope string_scope.

(* ================================================================== *)
(** ** Wire vocabulary *)

Definition NS_PUBSUB : string := "http://jabber.org/protocol/pubsub".
Definition NS_PUBSUB_EVENT : string := NS_PUBSUB +:+ "#event".
Definition NS_PUBSUB_ERRORS : string := NS_PUBSUB +:+ "#errors".
Definition NS_PUBSUB_OWNER : string := NS_PUBSUB +:+ "#owner".
Definition NS_PUBSUB_NODE_CONFIG : string := NS_PUBSUB +:+ "#node_config".
Definition NS_PUBSUB_META_DATA : string := NS_PUBSUB +:+ "#meta-data".
Definition NS_PUBSUB_SUBSCRIBE_OPTIONS : string :=
  NS_PUBSUB +:+ "#subscribe_options".

(** [disco.NS_DISCO_ITEMS] and [shim.NS_SHIM], constants of the sibling
    modules. *)
Definition NS_DISCO_ITEMS : string := "http://jabber.org/protocol/disco#items".
Definition NS_SHIM : string := "http://jabber.org/protocol/shim".

(* ================================================================== *)
(** ** domish elements

    A [domish.Element] has a namespace ([uri], [None] for the stanza
    itself), a local name, a dict of attributes and an ordered list of
    children that are either character data or elements.  Every element
    built here has [defaultUri = uri], so a child added by bare name
    inherits the parent's [uri]. *)

Inductive Element : Type :=
  mkElement (uri : option string) (name : string)
            (attributes : gmap string string)
            (children : list Node)
with Node : Type :=
  | Text (content : string)
  | Child (element : Element).

Definition uri (e : Element) : option string :=
  match e with mkElement u _ _ _ => u end.
Definition name (e : Element) : string :=
  match e with mkElement _ n _ _ => n end.
Definition attributes (e : Element) : gmap string string :=
  match e with mkElement _ _ a _ => a end.
Definition children (e : Element) : list Node :=
  match e with mkElement _ _ _ c => c end.

(** [domish.Element((uri, name))] *)
Definition newElement (u : option string) (n : string) : Element :=
  mkElement u n ∅ [].

(** [element.getAttribute(key)], with [None] as the default. *)
Definition getAttribute (e : Element) (key : string) : option string :=
  attributes e !! key.

(** [element.getAttribute(key, default)] *)
Definition getAttributeDefault (e : Element) (key default : string) : string :=
  match attributes e !! key with
  | Some v => v
  | None => default
  end.

(** [element[key] = value] *)
Definition setAttribute (e : Element) (key value : string) : Element :=
  match e with mkElement u n a c => mkElement u n (<[key := value]> a) c end.

(** [element.elements()]: the children that are elements, in order. *)
Fixpoint elementsOf (l : list Node) : list Element :=
  match l with
  | [] => []
  | Text _ :: r => elementsOf r
  | Child e :: r => e :: elementsOf r
  end.
Definition elements (e : Element) : list Element := elementsOf (children e).

(** [element.addChild(node)] *)
Definition addChild (e : Element) (c : Element) : Element :=
  match e with mkElement u n a cs => mkElement u n a (cs ++ [Child c]) end.

(** [element.children = items] *)
Definition setChildren (e : Element) (cs : list Element) : Element :=
  match e with mkElement u n a _ => mkElement u n a (Child <$> cs) end.

(** [element.<key>] ([Element.__getattr__]): the first child element
    whose local name is [key], whatever its namespace; [None] if there
    is none. *)
Definition childNamed (e : Element) (key : string) : option Element :=
  List.find (fun c => bool_decide (name c = key)) (elements e).

(** Replace the first child element named [key] by [f] of it; used where
    the code mutates [element.<key>] through the alias. *)
Fixpoint updateFirstNamed (key : string) (f : Element -> Element)
    (l : list Node) : list Node :=
  match l with
  | [] => []
  | Text s :: r => Text s :: updateFirstNamed key f r
  | Child c :: r =>
      if bool_decide (name c = key) then Child (f c) :: r
      else Child c :: updateFirstNamed key f r
  end.
Definition updateChildNamed (e : Element) (key : string)
    (f : Element -> Element) : Element :=
  match e with
  | mkElement u n a cs => mkElement u n a (updateFirstNamed key f cs)
  end.

(* ================================================================== *)
(** ** Exceptions and results *)

(** The classes of stanza-error carriers of this module. *)
Inductive StanzaClass : Type :=
  | ClsStanzaError | ClsBadRequest | ClsPubSubError | ClsUnsupported.

Inductive exn : Type :=
  | StanzaError (cls : StanzaClass) (condition : string)
                (text : option string) (appCondition : option Element)
  | NotImplementedError
  | Exception (message : string)
  | AttributeError (attribute : string)
  | KeyError (key : string)
  | TypeError
  | ValueError
  | UnboundLocalError (variable : string)
  | InvalidFormat
  | SubscriptionPending
  | SubscriptionUnconfigured.

Inductive Result (A : Type) : Type :=
  | Ok (a : A)
  | Raise (e : exn).
Arguments Ok {A} a.
Arguments Raise {A} e.

#[global] Instance Result_ret : MRet Result := fun A a => Ok a.
#[global] Instance Result_bind : MBind Result := fun A B f m =>
  match m with Ok a => f a | Raise e => Raise e end.

(** [element[key]] as an expression: [KeyError] when the attribute is
    missing. *)
Definition getitem (e : Element) (key : string) : Result string :=
  match attributes e !! key with
  | Some v => Ok v
  | None => Raise (KeyError key)
  end.

(** Python truth values of the objects the code tests. *)
Definition truthy_str (s : string) : bool := negb (bool_decide (s = "")).
Definition truthy_ostr (o : option string) : bool :=
  match o with Some s => truthy_str s | None => false end.
Definition truthy_olist {A} (o : option (list A)) : bool :=
  match o with Some (_ :: _) => true | _ => false end.

(** [PubSubError.__init__] *)
Definition PubSubError_cls (cls : StanzaClass) (condition pubsubCondition : string)
    (feature text : option string) : exn :=
  let appCondition := newElement (Some NS_PUBSUB_ERRORS) pubsubCondition in
  let appCondition :=
    match feature with
    | Some f => if truthy_str f then setAttribute appCondition "feature" f
                else appCondition
    | None => appCondition
    end in
  StanzaError cls condition text (Some appCondition).
Definition PubSubError := PubSubError_cls ClsPubSubError.

(** [BadRequest.__init__] *)
Definition BadRequest (pubsubCondition text : option string) : exn :=
  let appCondition :=
    match pubsubCondition with
    | Some c => if truthy_str c then Some (newElement (Some NS_PUBSUB_ERRORS) c)
                else None
    | None => None
    end in
  StanzaError ClsBadRequest "bad-request" text appCondition.

(** [Unsupported.__init__] *)
Definition Unsupported (feature : string) : exn :=
  PubSubError_cls ClsUnsupported "feature-not-implemented" "unsupported"
                  (Some feature) None.

(** [isinstance(e, error.StanzaError)] *)
Definition isStanzaError (e : exn) : bool :=
  match e with StanzaError _ _ _ _ => true | _ => false end.
(** [isinstance(e, BadRequest)] *)
Definition isBadRequest (e : exn) : bool :=
  match e with StanzaError ClsBadRequest _ _ _ => true | _ => false end.

(* ================================================================== *)
(** ** Python builtins: [int(text)] and [unicode(number)]

    [int] of a string drops surrounding white space, takes an optional
    sign and then wants at least one decimal digit and nothing else;
    anything else is a [ValueError].  The model covers ASCII text: the
    white space and the digits are the ASCII ones.  On a [unicode] value
    Python also takes the white space and the decimal digits of the
    other scripts; a text that has those is outside the model, which
    answers [ValueError] for it. *)

Definition is_space (c : ascii) : bool :=
  let n := nat_of_ascii c in
  (n =? 32)%nat || ((9 <=? n)%nat && (n <=? 13)%nat).

Fixpoint lstrip (s : string) : string :=
  match s with
  | EmptyString => EmptyString
  | String c r => if is_space c then lstrip r else s
  end.

Fixpoint rstrip (s : string) : string :=
  match s with
  | EmptyString => EmptyString
  | String c r =>
      match rstrip r with
      | EmptyString => if is_space c then EmptyString else String c EmptyString
      | r' => String c r'
      end
  end.

Definition strip (s : string) : string := rstrip (lstrip s).

Definition digits (s : string) : option Z :=
  (fun d => Z.of_int (Decimal.Pos d)) <$> NilZero.uint_of_string s.

Definition int (s : string) : Result Z :=
  let parsed :=
    match strip s with
    | String "+" r => digits r
    | String "-" r => Z.opp <$> digits r
    | t => digits t
    end in
  match parsed with
  | Some n => Ok n
  | None => Raise ValueError
  end.

Definition unicode (n : Z) : string := NilZero.string_of_int (Z.to_int n).

(* ================================================================== *)
(** ** Collaborators

    [twisted.words.protocols.jabber.jid]: [internJID] parses and interns
    an address ([None] stands for [jid.InvalidFormat]) and [full] prints
    one. *)

Class Jabber : Type := {
  JID : Type;
  internJID : string -> option JID;
  full : JID -> string;
}.

(** A Data Form as this module reads it: the form type, the form
    namespace and the mapping [getValues()] returns, whose entries are a
    scalar or a list. *)

Inductive FieldValue : Type :=
  | Scalar (value : string)
  | Multi (values : list string).

#[global] Instance FieldValue_eq_dec : EqDecision FieldValue.
Proof. solve_decision. Defined.

Record Form : Type := mkForm {
  formType : option string;
  formNamespace : option string;
  getValues : gmap string FieldValue;
}.

(** [wokkel.data_form]: [Form_fromElement] is [data_form.Form.fromElement]
    ([None] stands for [data_form.Error]: the element is no Data Form).
    The other methods are what the service needs to compose and check
    configuration forms: [Field_fromDict] builds a field from its dict,
    [Field_set] assigns [field.value] or [field.values], [Field_typeCheck]
    validates (and may coerce) it, [Field_get] reads it back, and
    [Form_toElement] serialises a form given by its type, namespace and
    fields. *)

Class DataForms : Type := {
  Form_fromElement : Element -> option Form;
  Field : Type;
  Field_fromDict : gmap string FieldValue -> Field;
  Field_set : Field -> FieldValue -> Field;
  Field_typeCheck : Field -> Result Field;
  Field_get : Field -> bool -> FieldValue;
  Form_toElement : string -> string -> list Field -> Element;
}.

(** Python dicts with small literal contents, in iteration order. *)
Definition dict_get {K V : Type} `{EqDecision K}
    (d : list (K * V)) (k : K) : option V :=
  snd <$> List.find (fun kv => bool_decide (fst kv = k)) d.

Module Subscription.
(** [class Subscription]; the root node is [nodeIdentifier = None]. *)
Record t (JID : Type) : Type := mk {
  nodeIdentifier : option string;
  subscriber : JID;
  state : string;
  options : gmap string FieldValue;
}.
Arguments mk {JID}.
Arguments nodeIdentifier {JID}.
Arguments subscriber {JID}.
Arguments state {JID}.
Arguments options {JID}.
End Subscription.

(** [Item.__init__] with an element payload. *)
Definition Item (id : option string) (payload : option Element) : Element :=
  let self := newElement (Some NS_PUBSUB) "item" in
  let self := match id with Some i => setAttribute self "id" i | None => self end in
  match payload with Some p => addChild self p | None => self end.

(* ================================================================== *)
(** ** PubSubRequest *)

Section PubSub.

Context `{J : Jabber} `{D : DataForms}.

(** The instance variables of a request, those of [generic.Stanza]
    first; [None] is Python's [None]. *)
Record PubSubRequest : Type := mkRequest {
  stanzaType : option string;
  sender : option JID;
  recipient : option JID;
  verb : option string;
  affiliations : option (list (string * string));
  items : option (list Element);
  itemIdentifiers : option (list string);
  maxItems : option Z;
  nodeIdentifier : option string;
  nodeType : option FieldValue;
  options : option (gmap string FieldValue);
  subscriber : option JID;
  subscriptionIdentifier : option string;
  subscriptions : option (list (Subscription.t JID));
}.

(** [PubSubRequest.__init__] *)
Definition PubSubRequest_init (verb : option string) : PubSubRequest :=
  mkRequest None None None verb None None None None None None None None
            None None.

(** Attribute assignments [self.<field> = v]. *)
Definition set_stanzaType v (r : PubSubRequest) :=
  mkRequest v r.(sender) r.(recipient) r.(verb) r.(affiliations) r.(items)
    r.(itemIdentifiers) r.(maxItems) r.(nodeIdentifier) r.(nodeType)
    r.(options) r.(subscriber) r.(subscriptionIdentifier) r.(subscriptions).
Definition set_sender v (r : PubSubRequest) :=
  mkRequest r.(stanzaType) v r.(recipient) r.(verb) r.(affiliations) r.(items)
    r.(itemIdentifiers) r.(maxItems) r.(nodeIdentifier) r.(nodeType)
    r.(options) r.(subscriber) r.(subscriptionIdentifier) r.(subscriptions).
Definition set_recipient v (r : PubSubRequest) :=
  mkRequest r.(stanzaType) r.(sender) v r.(verb) r.(affiliations) r.(items)
    r.(itemIdentifiers) r.(maxItems) r.(nodeIdentifier) r.(nodeType)
    r.(options) r.(subscriber) r.(subscriptionIdentifier) r.(subscriptions).
Definition set_verb v (r : PubSubRequest) :=
  mkRequest r.(stanzaType) r.(sender) r.(recipient) v r.(affiliations)
    r.(items) r.(itemIdentifiers) r.(maxItems) r.(nodeIdentifier)
    r.(nodeType) r.(options) r.(subscriber) r.(subscriptionIdentifier)
    r.(subscriptions).
Definition set_items v (r : PubSubRequest) :=
  mkRequest r.(stanzaType) r.(sender) r.(recipient) r.(verb) r.(affiliations)
    v r.(itemIdentifiers) r.(maxItems) r.(nodeIdentifier) r.(nodeType)
    r.(options) r.(subscriber) r.(subscriptionIdentifier) r.(subscriptions).
Definition set_itemIdentifiers v (r : PubSubRequest) :=
  mkRequest r.(stanzaType) r.(sender) r.(recipient) r.(verb) r.(affiliations)
    r.(items) v r.(maxItems) r.(nodeIdentifier) r.(nodeType)
    r.(options) r.(subscriber) r.(subscriptionIdentifier) r.(subscriptions).
Definition set_maxItems v (r : PubSubRequest) :=
  mkRequest r.(stanzaType) r.(sender) r.(recipient) r.(verb) r.(affiliations)
    r.(items) r.(itemIdentifiers) v r.(nodeIdentifier) r.(nodeType)
    r.(options) r.(subscriber) r.(subscriptionIdentifier) r.(subscriptions).
Definition set_nodeIdentifier v (r : PubSubRequest) :=
  mkRequest r.(stanzaType) r.(sender) r.(recipient) r.(verb) r.(affiliations)
    r.(items) r.(itemIdentifiers) r.(maxItems) v r.(nodeType)
    r.(options) r.(subscriber) r.(subscriptionIdentifier) r.(subscriptions).
Definition set_nodeType v (r : PubSubRequest) :=
  mkRequest r.(stanzaType) r.(sender) r.(recipient) r.(verb) r.(affiliations)
    r.(items) r.(itemIdentifiers) r.(maxItems) r.(nodeIdentifier) v
    r.(options) r.(subscriber) r.(subscriptionIdentifier) r.(subscriptions).
Definition set_options v (r : PubSubRequest) :=
  mkRequest r.(stanzaType) r.(sender) r.(recipient) r.(verb) r.(affiliations)
    r.(items) r.(itemIdentifiers) r.(maxItems) r.(nodeIdentifier) r.(nodeType)
    v r.(subscriber) r.(subscriptionIdentifier) r.(subscriptions).
Definition set_subscriber v (r : PubSubRequest) :=
  mkRequest r.(stanzaType) r.(sender) r.(recipient) r.(verb) r.(affiliations)
    r.(items) r.(itemIdentifiers) r.(maxItems) r.(nodeIdentifier) r.(nodeType)
    r.(options) v r.(subscriptionIdentifier) r.(subscriptions).

(** Map request iq type and subelement name to request verb. *)
Definition _requestVerbMap : list ((string * string * string) * string) :=
  [ (("set", NS_PUBSUB, "publish"), "publish");
    (("set", NS_PUBSUB, "subscribe"), "subscribe");
    (("set", NS_PUBSUB, "unsubscribe"), "unsubscribe");
    (("get", NS_PUBSUB, "options"), "optionsGet");
    (("set", NS_PUBSUB, "options"), "optionsSet");
    (("get", NS_PUBSUB, "subscriptions"), "subscriptions");
    (("get", NS_PUBSUB, "affiliations"), "affiliations");
    (("set", NS_PUBSUB, "create"), "create");
    (("get", NS_PUBSUB_OWNER, "default"), "default");
    (("get", NS_PUBSUB_OWNER, "configure"), "configureGet");
    (("set", NS_PUBSUB_OWNER, "configure"), "configureSet");
    (("get", NS_PUBSUB, "items"), "items");
    (("set", NS_PUBSUB, "retract"), "retract");
    (("set", NS_PUBSUB_OWNER, "purge"), "purge");
    (("set", NS_PUBSUB_OWNER, "delete"), "delete");
    (("get", NS_PUBSUB_OWNER, "affiliations"), "affiliationsGet");
    (("set", NS_PUBSUB_OWNER, "affiliations"), "affiliationsSet");
    (("get", NS_PUBSUB_OWNER, "subscriptions"), "subscriptionsGet");
    (("set", NS_PUBSUB_OWNER, "subscriptions"), "subscriptionsSet") ].

(** Map request verb to request iq type and subelement name:
    [dict(((v, k) for k, v in _requestVerbMap.iteritems()))]. *)
Definition _verbRequestMap : list (string * (string * string * string)) :=
  (fun kv => (snd kv, fst kv)) <$> _requestVerbMap.

(** Map request verb to parameter handler names. *)
Definition _parameters : list (string * list string) :=
  [ ("publish", ["node"; "items"]);
    ("subscribe", ["nodeOrEmpty"; "jid"]);
    ("unsubscribe", ["nodeOrEmpty"; "jid"]);
    ("optionsGet", ["nodeOrEmpty"; "jid"]);
    ("optionsSet", ["nodeOrEmpty"; "jid"; "options"]);
    ("subscriptions", []);
    ("affiliations", []);
    ("create", ["nodeOrNone"]);
    ("default", ["default"]);
    ("configureGet", ["nodeOrEmpty"]);
    ("configureSet", ["nodeOrEmpty"; "configure"]);
    ("items", ["node"; "maxItems"; "itemIdentifiers"]);
    ("retract", ["node"; "itemIdentifiers"]);
    ("purge", ["node"]);
    ("delete", ["node"]);
    ("affiliationsGet", []);
    ("affiliationsSet", []);
    ("subscriptionsGet", []);
    ("subscriptionsSet", []) ].

(** [PubSubRequest._findForm].  An element is always true, so the guard
    [if not element] never returns.  The loop keeps in [form] the last
    child that read as a Data Form; both branches of the namespace test
    go on to the next child. *)
Definition _findForm (element : Element) (formNamespace_ : string)
    : option Form :=
  fold_left
    (fun form child =>
       match Form_fromElement child with
       | None => form
       | Some f =>
           if bool_decide (formNamespace f = Some NS_PUBSUB_NODE_CONFIG)
           then Some f
           else Some f
       end)
    (elements element) None.

Definition _parse_node (verbElement : Element) (self : PubSubRequest)
    : Result PubSubRequest :=
  match getitem verbElement "node" with
  | Ok v => Ok (set_nodeIdentifier (Some v) self)
  | Raise (KeyError _) => Raise (BadRequest (Some "nodeid-required") None)
  | Raise e => Raise e
  end.

Definition _render_node (self : PubSubRequest) (verbElement : Element)
    : Result Element :=
  match self.(nodeIdentifier) with
  | Some n =>
      if negb (truthy_str n) then
        Raise (Exception "Node identifier is required")
      else Ok (setAttribute verbElement "node" n)
  | None => Raise (Exception "Node identifier is required")
  end.

Definition _parse_nodeOrEmpty (verbElement : Element) (self : PubSubRequest)
    : Result PubSubRequest :=
  Ok (set_nodeIdentifier (Some (getAttributeDefault verbElement "node" ""))
                         self).

Definition _render_nodeOrEmpty (self : PubSubRequest) (verbElement : Element)
    : Result Element :=
  match self.(nodeIdentifier) with
  | Some n => if truthy_str n then Ok (setAttribute verbElement "node" n)
              else Ok verbElement
  | None => Ok verbElement
  end.

Definition _parse_nodeOrNone (verbElement : Element) (self : PubSubRequest)
    : Result PubSubRequest :=
  Ok (set_nodeIdentifier (getAttribute verbElement "node") self).

Definition _render_nodeOrNone (self : PubSubRequest) (verbElement : Element)
    : Result Element :=
  match self.(nodeIdentifier) with
  | Some n => if truthy_str n then Ok (setAttribute verbElement "node" n)
              else Ok verbElement
  | None => Ok verbElement
  end.

(** [element.uri == NS_PUBSUB and element.name == 'item'] *)
Definition isPubSubItem (element : Element) : bool :=
  bool_decide (uri element = Some NS_PUBSUB)
  && bool_decide (name element = "item").

Definition _parse_items (verbElement : Element) (self : PubSubRequest)
    : Result PubSubRequest :=
  Ok (set_items (Some (List.filter isPubSubItem (elements verbElement))) self).

Definition _render_items (self : PubSubRequest) (verbElement : Element)
    : Result Element :=
  match self.(items) with
  | Some l => Ok (fold_left addChild l verbElement)
  | None => Ok verbElement
  end.

Definition _parse_jid (verbElement : Element) (self : PubSubRequest)
    : Result PubSubRequest :=
  match getitem verbElement "jid" with
  | Ok v =>
      match internJID v with
      | Some j => Ok (set_subscriber (Some j) self)
      | None => Raise InvalidFormat
      end
  | Raise (KeyError _) => Raise (BadRequest (Some "jid-required") None)
  | Raise e => Raise e
  end.

Definition _render_jid (self : PubSubRequest) (verbElement : Element)
    : Result Element :=
  match self.(subscriber) with
  | Some j => Ok (setAttribute verbElement "jid" (full j))
  | None => Raise (AttributeError "full")
  end.

(** [values.get('pubsub#node_type', 'leaf')] *)
Definition _parse_default (verbElement : Element) (self : PubSubRequest)
    : Result PubSubRequest :=
  match _findForm verbElement NS_PUBSUB_NODE_CONFIG with
  | Some form =>
      if bool_decide (formType form = Some "submit") then
        let values := getValues form in
        Ok (set_nodeType
              (Some (default (Scalar "leaf") (values !! "pubsub#node_type")))
              self)
      else Ok (set_nodeType (Some (Scalar "leaf")) self)
  | None => Ok (set_nodeType (Some (Scalar "leaf")) self)
  end.

(** [%r] in ["Unexpected form type %r" % form.formType].  The form type
    is [None] or the [unicode] value of the [type] attribute, and
    Python 2 prints a [unicode] as [u], a quote, the escaped characters
    and the quote again.  The quote is the single one, unless the text
    has a single quote and no double quote.  A backslash and the quote
    in use get a backslash; tab, line feed and carriage return are
    [\t], [\n] and [\r]; any other character below 32 or from 127 to
    255 is [\x] and two hexadecimal digits, up to 65535 [\u] and four,
    beyond that [\U] and eight; the rest is printed as it is.

    A text is held as its UTF-8 bytes, so the characters are decoded
    first; a byte that starts no UTF-8 sequence counts as the character
    of its own number. *)
Definition backslash : ascii := "092"%char.
Definition squote : ascii := "039"%char.
Definition dquote : ascii := "034"%char.

Definition hexdigit (n : N) : ascii :=
  nth (N.to_nat n) (list_ascii_of_string "0123456789abcdef") "0"%char.

Fixpoint hex (width : nat) (n : N) : string :=
  match width with
  | O => EmptyString
  | S w => hex w (N.shiftr n 4) +:+ String (hexdigit (N.land n 15)) EmptyString
  end.

(** A continuation byte, [10xxxxxx]. *)
Definition continues (c : ascii) : bool :=
  let b := N_of_ascii c in (128 <=? b)%N && (b <? 192)%N.

Definition low6 (c : ascii) : N := N.land (N_of_ascii c) 63.

Fixpoint codepoints (s : string) : list N :=
  match s with
  | EmptyString => []
  | String c r =>
      let b := N_of_ascii c in
      let single := b :: codepoints r in
      if (b <? 192)%N then single
      else
        match r with
        | String c1 r1 =>
            if (b <? 224)%N then
              if continues c1 then
                N.lor (N.shiftl (N.land b 31) 6) (low6 c1) :: codepoints r1
              else single
            else
              match r1 with
              | String c2 r2 =>
                  if (b <? 240)%N then
                    if continues c1 && continues c2 then
                      N.lor (N.shiftl (N.land b 15) 12)
                            (N.lor (N.shiftl (low6 c1) 6) (low6 c2))
                      :: codepoints r2
                    else single
                  else
                    match r2 with
                    | String c3 r3 =>
                        if (b <? 248)%N && continues c1 && continues c2
                           && continues c3 then
                          N.lor (N.shiftl (N.land b 7) 18)
                                (N.lor (N.shiftl (low6 c1) 12)
                                       (N.lor (N.shiftl (low6 c2) 6)
                                              (low6 c3)))
                          :: codepoints r3
                        else single
                    | EmptyString => single
                    end
              | EmptyString => single
              end
        | EmptyString => single
        end
  end.

Definition escape (quote : ascii) (cp : N) : string :=
  let plain := String (ascii_of_N cp) EmptyString in
  if (cp =? N_of_ascii quote)%N || (cp =? N_of_ascii backslash)%N then
    String backslash plain
  else if (65536 <=? cp)%N then String backslash ("U" +:+ hex 8 cp)
  else if (256 <=? cp)%N then String backslash ("u" +:+ hex 4 cp)
  else if (cp =? 9)%N then String backslash "t"
  else if (cp =? 10)%N then String backslash "n"
  else if (cp =? 13)%N then String backslash "r"
  else if (cp <? 32)%N || (127 <=? cp)%N then
    String backslash ("x" +:+ hex 2 cp)
  else plain.

Definition repr_unicode (s : string) : string :=
  let cps := codepoints s in
  let has c := existsb (N.eqb (N_of_ascii c)) cps in
  let quote := if has squote && negb (has dquote) then dquote else squote in
  String "u"
    (String quote
       (fold_right (fun cp printed => escape quote cp +:+ printed)
                   (String quote EmptyString) cps)).

Definition repr (o : option string) : string :=
  match o with
  | Some s => repr_unicode s
  | None => "None"
  end.

Definition _parse_configure (verbElement : Element) (self : PubSubRequest)
    : Result PubSubRequest :=
  match _findForm verbElement NS_PUBSUB_NODE_CONFIG with
  | Some form =>
      if bool_decide (formType form = Some "submit") then
        Ok (set_options (Some (getValues form)) self)
      else if bool_decide (formType form = Some "cancel") then
        Ok (set_options (Some ∅) self)
      else
        Raise (BadRequest None
                 (Some ("Unexpected form type " +:+ repr (formType form))))
  | None => Raise (BadRequest None (Some "Missing configuration form"))
  end.

(** The loop of [_parse_itemIdentifiers]; [acc] is [self.itemIdentifiers]. *)
Fixpoint collectItemIdentifiers (l : list Element) (acc : list string)
    : Result (list string) :=
  match l with
  | [] => Ok acc
  | element :: r =>
      if isPubSubItem element then
        match getitem element "id" with
        | Ok i => collectItemIdentifiers r (acc ++ [i])
        | Raise (KeyError _) => Raise (BadRequest None None)
        | Raise e => Raise e
        end
      else collectItemIdentifiers r acc
  end.

Definition _parse_itemIdentifiers (verbElement : Element)
    (self : PubSubRequest) : Result PubSubRequest :=
  ids ← collectItemIdentifiers (elements verbElement) [];
  Ok (set_itemIdentifiers (Some ids) self).

(** [verbElement.addElement('item')] then [item['id'] = itemIdentifier] *)
Definition addItemIdentifier (verbElement : Element) (itemIdentifier : string)
    : Element :=
  addChild verbElement
           (setAttribute (newElement (uri verbElement) "item")
                         "id" itemIdentifier).

Definition _render_itemIdentifiers (self : PubSubRequest)
    (verbElement : Element) : Result Element :=
  match self.(itemIdentifiers) with
  | Some l => Ok (fold_left addItemIdentifier l verbElement)
  | None => Ok verbElement
  end.

Definition _parse_maxItems (verbElement : Element) (self : PubSubRequest)
    : Result PubSubRequest :=
  let value := getAttribute verbElement "max_items" in
  match value with
  | Some v =>
      if truthy_str v then
        match int v with
        | Ok n => Ok (set_maxItems (Some n) self)
        | Raise ValueError =>
            Raise (BadRequest None
                     (Some ("Field max_items requires a positive " +:+
                            "integer value")))
        | Raise e => Raise e
        end
      else Ok self
  | None => Ok self
  end.

Definition _render_maxItems (self : PubSubRequest) (verbElement : Element)
    : Result Element :=
  match self.(maxItems) with
  | Some n => if negb (n =? 0)%Z
              then Ok (setAttribute verbElement "max_items" (unicode n))
              else Ok verbElement
  | None => Ok verbElement
  end.

Definition _parse_options (verbElement : Element) (self : PubSubRequest)
    : Result PubSubRequest :=
  match _findForm verbElement NS_PUBSUB_SUBSCRIBE_OPTIONS with
  | Some form =>
      if bool_decide (formType form = Some "submit") then
        Ok (set_options (Some (getValues form)) self)
      else if bool_decide (formType form = Some "cancel") then
        Ok (set_options (Some ∅) self)
      else
        Raise (BadRequest None
                 (Some ("Unexpected form type " +:+ repr (formType form))))
  | None => Raise (BadRequest None (Some "Missing options form"))
  end.

(** [getattr(self, '_parse_%s' % parameter)]: the parse methods the
    class defines. *)
Definition _parse_ (parameter : string)
    : Result (Element -> PubSubRequest -> Result PubSubRequest) :=
  match parameter with
  | "node" => Ok _parse_node
  | "nodeOrEmpty" => Ok _parse_nodeOrEmpty
  | "nodeOrNone" => Ok _parse_nodeOrNone
  | "items" => Ok _parse_items
  | "jid" => Ok _parse_jid
  | "default" => Ok _parse_default
  | "configure" => Ok _parse_configure
  | "itemIdentifiers" => Ok _parse_itemIdentifiers
  | "maxItems" => Ok _parse_maxItems
  | "options" => Ok _parse_options
  | _ => Raise (AttributeError ("_parse_" +:+ parameter))
  end.

(** [getattr(self, '_render_%s' % parameter)]: the class has no
    [_render_default], [_render_configure] or [_render_options]. *)
Definition _render_ (parameter : string)
    : Result (PubSubRequest -> Element -> Result Element) :=
  match parameter with
  | "node" => Ok _render_node
  | "nodeOrEmpty" => Ok _render_nodeOrEmpty
  | "nodeOrNone" => Ok _render_nodeOrNone
  | "items" => Ok _render_items
  | "jid" => Ok _render_jid
  | "itemIdentifiers" => Ok _render_itemIdentifiers
  | "maxItems" => Ok _render_maxItems
  | _ => Raise (AttributeError ("_render_" +:+ parameter))
  end.

(** Modelled from the spec: [generic.Stanza.parseElement], of
    wokkel/generic.py, which is not among the sources.  The spec gives a
    request its [sender] and [recipient] as JIDs and resolves the verb
    with the IQ type: the addresses are read from [from] and [to] when
    the stanza has them, the type from [type]. *)
Definition Stanza_parseElement (element : Element) (self : PubSubRequest)
    : Result PubSubRequest :=
  self ← match getAttribute element "from" with
         | Some a => match internJID a with
                     | Some j => Ok (set_sender (Some j) self)
                     | None => Raise InvalidFormat
                     end
         | None => Ok self
         end;
  self ← match getAttribute element "to" with
         | Some a => match internJID a with
                     | Some j => Ok (set_recipient (Some j) self)
                     | None => Raise InvalidFormat
                     end
         | None => Ok self
         end;
  Ok (set_stanzaType (getAttribute element "type") self).

(** [self._requestVerbMap[key]] for [key = (self.stanzaType, child.uri,
    child.name)]; a key with a [None] in it is in no table. *)
Definition lookupVerb (stanzaType_ : option string) (child : Element)
    : option string :=
  match stanzaType_, uri child with
  | Some t, Some u => dict_get _requestVerbMap (t, u, name child)
  | _, _ => None
  end.

(** The verb loop of [parseElement]: the first child with a key in the
    table, and its verb. *)
Fixpoint resolveVerb (stanzaType_ : option string) (l : list Element)
    : option (string * Element) :=
  match l with
  | [] => None
  | child :: r =>
      match lookupVerb stanzaType_ child with
      | Some verb_ => Some (verb_, child)
      | None => resolveVerb stanzaType_ r
      end
  end.

(** The loop [for parameter in ...: getattr(self, '_parse_...')(child)]. *)
Fixpoint parseParameters (parameters : list string) (child : Element)
    (self : PubSubRequest) : Result PubSubRequest :=
  match parameters with
  | [] => Ok self
  | parameter :: r =>
      handler ← _parse_ parameter;
      self ← handler child self;
      parseParameters r child self
  end.

(** [PubSubRequest.parseElement].  When no child matches and
    [self.verb] was already set, the local [verb] is unbound at the
    parameter loop. *)
Definition parseElement (element : Element) (self : PubSubRequest)
    : Result PubSubRequest :=
  self ← Stanza_parseElement element self;
  match childNamed element "pubsub" with
  | None => Raise (AttributeError "elements")
  | Some pubsub =>
      let found := resolveVerb self.(stanzaType) (elements pubsub) in
      let self := match found with
                  | Some (verb_, _) => set_verb (Some verb_) self
                  | None => self
                  end in
      if negb (truthy_ostr self.(verb)) then Raise NotImplementedError
      else
        match found with
        | None => Raise (UnboundLocalError "verb")
        | Some (verb_, child) =>
            match dict_get _parameters verb_ with
            | None => Raise (KeyError verb_)
            | Some parameters => parseParameters parameters child self
            end
        end
  end.

(** [generic.Stanza.fromElement]: [Class()] then [parseElement]. *)
Definition fromElement (element : Element) : Result PubSubRequest :=
  parseElement element (PubSubRequest_init None).

(** The loop [for parameter in ...: getattr(self, '_render_...')(verbElement)]. *)
Fixpoint renderParameters (parameters : list string) (self : PubSubRequest)
    (verbElement : Element) : Result Element :=
  match parameters with
  | [] => Ok verbElement
  | parameter :: r =>
      handler ← _render_ parameter;
      verbElement ← handler self verbElement;
      renderParameters r self verbElement
  end.

(** [PubSubRequest.send] up to, and without, the final [iq.send()]: the
    request as [send] leaves it ([stanzaType] assigned) and the stanza.
    [xmlstream.IQ] is an element [iq] with the [type]; Twisted also
    stamps a fresh [id], which nothing here reads. *)
Definition render (self : PubSubRequest) : Result (PubSubRequest * Element) :=
  match self.(verb) ≫= dict_get _verbRequestMap with
  | None => Raise NotImplementedError
  | Some (stanzaType_, childURI, childName) =>
      let self := set_stanzaType (Some stanzaType_) self in
      let iq := setAttribute (newElement None "iq") "type" stanzaType_ in
      let pubsub := newElement (Some childURI) "pubsub" in
      let verbElement := newElement (uri pubsub) childName in
      let iq := match self.(sender) with
                | Some j => setAttribute iq "from" (full j)
                | None => iq
                end in
      let iq := match self.(recipient) with
                | Some j => setAttribute iq "to" (full j)
                | None => iq
                end in
      match self.(verb) ≫= dict_get _parameters with
      | None => Raise (KeyError "verb")
      | Some parameters =>
          verbElement ← renderParameters parameters self verbElement;
          Ok (self, addChild iq (addChild pubsub verbElement))
      end
  end.

(** The stream, as the list of the stanzas shipped on it so far. *)
Definition XmlStream : Type := list Element.

(** [PubSubRequest.send]: [iq.send()] ships the stanza; an exception
    before it leaves the stream as it was. *)
Definition send (self : PubSubRequest) (xs : XmlStream)
    : XmlStream * Result (PubSubRequest * Element) :=
  match render self with
  | Ok (self, iq) => ((xs ++ [iq])%list, Ok (self, iq))
  | Raise e => (xs, Raise e)
  end.

End PubSub.

(* ================================================================== *)
(** ** PubSubClient *)

Module PubSubClient.
Section Client.

Context `{J : Jabber}.

(** The callback [cb] of [PubSubClient.subscribe]:
    [iq.pubsub.subscription["subscription"]], then the three cases.
    [Ok tt] is the return of [None]. *)
Definition subscribe_cb (iq : Element) : Result unit :=
  match childNamed iq "pubsub" with
  | None => Raise (AttributeError "subscription")
  | Some pubsub =>
      match childNamed pubsub "subscription" with
      | None => Raise TypeError
      | Some element =>
          subscription ← getitem element "subscription";
          if bool_decide (subscription = "pending") then
            Raise SubscriptionPending
          else if bool_decide (subscription = "unconfigured") then
            Raise SubscriptionUnconfigured
          else Ok tt
      end
  end.

(** A deferred with one callback: the request is sent now, and the
    response ([Raise] for an error stanza) goes through the callback
    when it arrives. *)
Definition addCallback {A B : Type} (cb : A -> Result B) (d : Result A)
    : Result B := d ≫= cb.

(** [PubSubClient.subscribe]: the stream after the call, and the outcome
    of the returned deferred once [response] has come in.  An exception
    of [send] is raised by the call itself. *)
Definition subscribe (service : JID) (nodeIdentifier_ : option string)
    (subscriber_ : JID) (sender_ : option JID) (xs : XmlStream)
    (response : Result Element) : XmlStream * Result unit :=
  let request := PubSubRequest_init (Some "subscribe") in
  let request := set_recipient (Some service) request in
  let request := set_nodeIdentifier nodeIdentifier_ request in
  let request := set_subscriber (Some subscriber_) request in
  let request := set_sender sender_ request in
  match send request xs with
  | (xs, Ok _) => (xs, addCallback subscribe_cb response)
  | (xs, Raise e) => (xs, Raise e)
  end.

(** [PubSubClient.unsubscribe] *)
Definition unsubscribe (service : JID) (nodeIdentifier_ : option string)
    (subscriber_ : JID) (sender_ : option JID) (xs : XmlStream)
    (response : Result Element) : XmlStream * Result Element :=
  let request := PubSubRequest_init (Some "unsubscribe") in
  let request := set_recipient (Some service) request in
  let request := set_nodeIdentifier nodeIdentifier_ request in
  let request := set_subscriber (Some subscriber_) request in
  let request := set_sender sender_ request in
  match send request xs with
  | (xs, Ok _) => (xs, response)
  | (xs, Raise e) => (xs, Raise e)
  end.

(** [PubSubClient.deleteNode] *)
Definition deleteNode (service : JID) (nodeIdentifier_ : option string)
    (sender_ : option JID) (xs : XmlStream) (response : Result Element)
    : XmlStream * Result Element :=
  let request := PubSubRequest_init (Some "delete") in
  let request := set_recipient (Some service) request in
  let request := set_nodeIdentifier nodeIdentifier_ request in
  let request := set_sender sender_ request in
  match send request xs with
  | (xs, Ok _) => (xs, response)
  | (xs, Raise e) => (xs, Raise e)
  end.

(** [PubSubClient.publish] *)
Definition publish (service : JID) (nodeIdentifier_ : option string)
    (items_ : option (list Element)) (sender_ : option JID)
    (xs : XmlStream) (response : Result Element)
    : XmlStream * Result Element :=
  let request := PubSubRequest_init (Some "publish") in
  let request := set_recipient (Some service) request in
  let request := set_nodeIdentifier nodeIdentifier_ request in
  let request := set_items items_ request in
  let request := set_sender sender_ request in
  match send request xs with
  | (xs, Ok _) => (xs, response)
  | (xs, Raise e) => (xs, Raise e)
  end.

End Client.
End PubSubClient.

(* ================================================================== *)
(** ** The backend of a service

    The methods of [PubSubService] that a service overrides.  A backend
    operation either yields a value or fails, by raising or through its
    deferred; the request handlers treat both failures alike.
    [getNodeInfo] is called outside a handler, where it matters whether
    it raised, returned [None] or returned a deferred. *)

Inductive Returned (A : Type) : Type :=
  | ReturnsNone
  | ReturnsDeferred (d : Result A)
  | Raises (e : exn).
Arguments ReturnsNone {A}.
Arguments ReturnsDeferred {A} d.
Arguments Raises {A} e.

(** The dict a backend returns from [getNodeInfo]. *)
Record NodeInfo : Type := mkNodeInfo {
  nodeInfo_type : string;
  nodeInfo_metaData : list (gmap string FieldValue);
}.

Module Backend.
Section Backend.
Context `{J : Jabber}.
Record t : Type := mk {
  getNodeInfo : option JID -> option JID -> string
                -> Returned (option NodeInfo);
  getNodes : option JID -> option JID -> Result (list string);
  publish : option JID -> option JID -> option string
            -> option (list Element) -> Result unit;
  subscribe : option JID -> option JID -> option string -> option JID
              -> Result (Subscription.t JID);
  unsubscribe : option JID -> option JID -> option string -> option JID
                -> Result unit;
  subscriptions : option JID -> option JID
                  -> Result (list (Subscription.t JID));
  affiliations : option JID -> option JID
                 -> Result (list (string * string));
  create : option JID -> option JID -> option string -> Result string;
  getConfigurationOptions : gmap string (gmap string FieldValue);
  getDefaultConfiguration : option JID -> option JID -> option FieldValue
                            -> Result (gmap string FieldValue);
  getConfiguration : option JID -> option JID -> option string
                     -> Result (gmap string FieldValue);
  setConfiguration : option JID -> option JID -> option string
                     -> gmap string FieldValue -> Result unit;
  items : option JID -> option JID -> option string -> option Z
          -> option (list string) -> Result (list Element);
  retract : option JID -> option JID -> option string
            -> option (list string) -> Result unit;
  purge : option JID -> option JID -> option string -> Result unit;
  delete : option JID -> option JID -> option string -> Result unit;
}.

(** The methods as [PubSubService] itself defines them. *)
Definition default : t := {|
  getNodeInfo := fun _ _ _ => ReturnsNone;
  getNodes := fun _ _ => Ok [];
  publish := fun _ _ _ _ => Raise (Unsupported "publish");
  subscribe := fun _ _ _ _ => Raise (Unsupported "subscribe");
  unsubscribe := fun _ _ _ _ => Raise (Unsupported "subscribe");
  subscriptions := fun _ _ => Raise (Unsupported "retrieve-subscriptions");
  affiliations := fun _ _ => Raise (Unsupported "retrieve-affiliations");
  create := fun _ _ _ => Raise (Unsupported "create-nodes");
  getConfigurationOptions := ∅;
  getDefaultConfiguration := fun _ _ _ =>
    Raise (Unsupported "retrieve-default");
  getConfiguration := fun _ _ _ => Raise (Unsupported "config-node");
  setConfiguration := fun _ _ _ _ => Raise (Unsupported "config-node");
  items := fun _ _ _ _ _ => Raise (Unsupported "retrieve-items");
  retract := fun _ _ _ _ => Raise (Unsupported "retract-items");
  purge := fun _ _ _ => Raise (Unsupported "purge-nodes");
  delete := fun _ _ _ => Raise (Unsupported "delete-nodes");
|}.
End Backend.
End Backend.

(** The backend operations a handler has called, in order. *)
Inductive BackendOp : Type :=
  | OpPublish | OpSubscribe | OpUnsubscribe | OpSubscriptions
  | OpAffiliations | OpCreate | OpGetConfigurationOptions
  | OpGetDefaultConfiguration | OpGetConfiguration | OpSetConfiguration
  | OpItems | OpRetract | OpPurge | OpDelete.

(** Entries of a disco#info reply: [disco.DiscoIdentity],
    [disco.DiscoFeature] and a [data_form.Form] given by its type,
    namespace and fields. *)
Inductive DiscoInfo (Field : Type) : Type :=
  | DiscoIdentity (category idType : string) (name : option string)
  | DiscoFeature (var : string)
  | InfoForm (formType formNamespace : string) (fields : list Field).
Arguments DiscoIdentity {Field}.
Arguments DiscoFeature {Field}.
Arguments InfoForm {Field}.

(** What the IQ layer answers: a result with an optional payload, or an
    error with its condition, text and application condition. *)
Inductive Reply : Type :=
  | ResultReply (payload : option Element)
  | ErrorReply (condition : string) (text : option string)
               (appCondition : option Element).

(** Modelled from the spec: [shim.Headers], of wokkel/shim.py, which is
    not among the sources.  The glossary gives the shape: a [headers]
    element in the SHIM namespace with a [header] child per (name,
    value) pair, the name in the attribute [name], the value as the
    content. *)
Definition Headers (headers : list (string * option string)) : Element :=
  mkElement (Some NS_SHIM) "headers" ∅
    ((fun nv =>
        Child (mkElement (Some NS_SHIM) "header" {[ "name" := fst nv ]}
                 match snd nv with Some v => [Text v] | None => [] end))
     <$> headers).

(* ================================================================== *)
(** ** PubSubService *)

Module PubSubService.
Section Service.

Context `{J : Jabber} `{D : DataForms}.

(** The state of a service: the two fields [__init__] sets and the
    backend methods.  [discoIdentity] is a dict, here in the order its
    iteration yields the keys. *)
Record t : Type := mk {
  discoIdentity : list (string * string);
  pubSubFeatures : list string;
  backend : Backend.t;
}.

(** [PubSubService.__init__]; the order of the three keys is the dict's
    to choose. *)
Definition init (b : Backend.t) : t := {|
  discoIdentity := [ ("category", "pubsub");
                     ("type", "generic");
                     ("name", "Generic Publish-Subscribe Service") ];
  pubSubFeatures := [];
  backend := b;
|}.

Variable self : t.

Definition Handled : Type := list BackendOp * Result (option Element).

(** An attribute assigned a value that may be [None]: the stanza cannot
    be written out then, which is reported at the assignment. *)
Definition setAttributeO (e : Element) (key : string) (v : option string)
    : Result Element :=
  match v with
  | Some s => Ok (setAttribute e key s)
  | None => Raise TypeError
  end.

Definition _on_publish (request : PubSubRequest) : Handled :=
  ([OpPublish],
   Backend.publish self.(backend) request.(sender) request.(recipient)
     request.(nodeIdentifier) request.(items) ≫= fun _ => Ok None).

Definition _on_subscribe (request : PubSubRequest) : Handled :=
  let toResponse (result : Subscription.t JID) : Result (option Element) :=
    let response := newElement (Some NS_PUBSUB) "pubsub" in
    let subscription := newElement (uri response) "subscription" in
    let subscription :=
      match Subscription.nodeIdentifier result with
      | Some n => if truthy_str n then setAttribute subscription "node" n
                  else subscription
      | None => subscription
      end in
    let subscription :=
      setAttribute subscription "jid" (full (Subscription.subscriber result)) in
    let subscription :=
      setAttribute subscription "subscription" (Subscription.state result) in
    Ok (Some (addChild response subscription)) in
  ([OpSubscribe],
   Backend.subscribe self.(backend) request.(sender) request.(recipient)
     request.(nodeIdentifier) request.(subscriber) ≫= toResponse).

Definition _on_unsubscribe (request : PubSubRequest) : Handled :=
  ([OpUnsubscribe],
   Backend.unsubscribe self.(backend) request.(sender) request.(recipient)
     request.(nodeIdentifier) request.(subscriber) ≫= fun _ => Ok None).

Definition _on_optionsGet (request : PubSubRequest) : Handled :=
  ([], Raise (Unsupported "subscription-options")).

Definition _on_optionsSet (request : PubSubRequest) : Handled :=
  ([], Raise (Unsupported "subscription-options")).

Fixpoint addSubscriptions (l : list (Subscription.t JID))
    (subscriptions_ : Element) : Result Element :=
  match l with
  | [] => Ok subscriptions_
  | subscription :: r =>
      let item := newElement (uri subscriptions_) "subscription" in
      item ← setAttributeO item "node" (Subscription.nodeIdentifier subscription);
      let item :=
        setAttribute item "jid" (full (Subscription.subscriber subscription)) in
      let item :=
        setAttribute item "subscription" (Subscription.state subscription) in
      addSubscriptions r (addChild subscriptions_ item)
  end.

Definition _on_subscriptions (request : PubSubRequest) : Handled :=
  let toResponse (result : list (Subscription.t JID))
      : Result (option Element) :=
    let response := newElement (Some NS_PUBSUB) "pubsub" in
    subscriptions_ ←
      addSubscriptions result (newElement (uri response) "subscriptions");
    Ok (Some (addChild response subscriptions_)) in
  ([OpSubscriptions],
   Backend.subscriptions self.(backend) request.(sender) request.(recipient)
     ≫= toResponse).

Definition _on_affiliations (request : PubSubRequest) : Handled :=
  let toResponse (result : list (string * string)) : Result (option Element) :=
    let response := newElement (Some NS_PUBSUB) "pubsub" in
    let affiliations_ :=
      fold_left
        (fun affiliations_ na =>
           let item := newElement (uri affiliations_) "affiliation" in
           let item := setAttribute item "node" (fst na) in
           let item := setAttribute item "affiliation" (snd na) in
           addChild affiliations_ item)
        result (newElement (uri response) "affiliations") in
    Ok (Some (addChild response affiliations_)) in
  ([OpAffiliations],
   Backend.affiliations self.(backend) request.(sender) request.(recipient)
     ≫= toResponse).

(** The callback [toResponse] of [_on_create]. *)
Definition create_toResponse (request : PubSubRequest) (result : string)
    : option Element :=
  if negb (truthy_ostr request.(nodeIdentifier))
     || negb (bool_decide (request.(nodeIdentifier) = Some result))
  then
    let response := newElement (Some NS_PUBSUB) "pubsub" in
    let create := newElement (uri response) "create" in
    let create := setAttribute create "node" result in
    Some (addChild response create)
  else None.

Definition _on_create (request : PubSubRequest) : Handled :=
  ([OpCreate],
   Backend.create self.(backend) request.(sender) request.(recipient)
     request.(nodeIdentifier) ≫= fun result =>
   Ok (create_toResponse request result)).

(** [option = {'var': name}; option.update(options[name])] and the
    value under ['values'] or ['value']. *)
Definition fieldDict (options_ : gmap string FieldValue) (name_ : string)
    (value : FieldValue) : gmap string FieldValue :=
  let option := options_ ∪ {[ "var" := Scalar name_ ]} in
  match value with
  | Multi _ => <[ "values" := value ]> option
  | Scalar _ => <[ "value" := value ]> option
  end.

Definition isList (value : FieldValue) : bool :=
  match value with Multi _ => true | Scalar _ => false end.

(** [_makeFields]; [values.iteritems()] is [map_to_list]. *)
Definition _makeFields (options_ : gmap string (gmap string FieldValue))
    (values : gmap string FieldValue) : list Field :=
  fold_left
    (fun fields nv =>
       match options_ !! fst nv with
       | None => fields
       | Some o => fields ++ [Field_fromDict (fieldDict o (fst nv) (snd nv))]
       end)%list
    (map_to_list values) [].

Definition _formFromConfiguration (values : gmap string FieldValue)
    : list BackendOp * Element :=
  let options_ := Backend.getConfigurationOptions self.(backend) in
  let fields := _makeFields options_ values in
  ([OpGetConfigurationOptions],
   Form_toElement "form" NS_PUBSUB_NODE_CONFIG fields).

Fixpoint checkValues (options_ : gmap string (gmap string FieldValue))
    (l : list (string * FieldValue)) (processedValues : gmap string FieldValue)
    : Result (gmap string FieldValue) :=
  match l with
  | [] => Ok processedValues
  | (key, value) :: r =>
      match options_ !! key with
      | None => checkValues options_ r processedValues
      | Some o =>
          let field := Field_fromDict (o ∪ {[ "var" := Scalar key ]}) in
          let field := Field_set field value in
          field ← Field_typeCheck field;
          checkValues options_ r
            (<[ key := Field_get field (isList value) ]> processedValues)
      end
  end.

Definition _checkConfiguration (values : gmap string FieldValue)
    : list BackendOp * Result (gmap string FieldValue) :=
  let options_ := Backend.getConfigurationOptions self.(backend) in
  ([OpGetConfigurationOptions], checkValues options_ (map_to_list values) ∅).

Definition _on_default (request : PubSubRequest) : Handled :=
  if negb (bool_decide (request.(nodeType) = Some (Scalar "leaf"))
           || bool_decide (request.(nodeType) = Some (Scalar "collection")))
  then ([], Raise (StanzaError ClsStanzaError "not-acceptable" None None))
  else
    match Backend.getDefaultConfiguration self.(backend) request.(sender)
            request.(recipient) request.(nodeType) with
    | Raise e => ([OpGetDefaultConfiguration], Raise e)
    | Ok options_ =>
        let response := newElement (Some NS_PUBSUB_OWNER) "pubsub" in
        let default_ := newElement (uri response) "default" in
        let '(ops, form) := _formFromConfiguration options_ in
        let default_ := addChild default_ form in
        ((OpGetDefaultConfiguration :: ops)%list,
         Ok (Some (addChild response default_)))
    end.

Definition _on_configureGet (request : PubSubRequest) : Handled :=
  match Backend.getConfiguration self.(backend) request.(sender)
          request.(recipient) request.(nodeIdentifier) with
  | Raise e => ([OpGetConfiguration], Raise e)
  | Ok options_ =>
      let response := newElement (Some NS_PUBSUB_OWNER) "pubsub" in
      let configure := newElement (uri response) "configure" in
      let '(ops, form) := _formFromConfiguration options_ in
      let configure := addChild configure form in
      let configure :=
        match request.(nodeIdentifier) with
        | Some n => if truthy_str n then setAttribute configure "node" n
                    else configure
        | None => configure
        end in
      ((OpGetConfiguration :: ops)%list,
       Ok (Some (addChild response configure)))
  end.

Definition _on_configureSet (request : PubSubRequest) : Handled :=
  match request.(options) with
  | Some o =>
      if bool_decide (o = ∅) then ([], Ok None)
      else
        match _checkConfiguration o with
        | (ops, Raise e) => (ops, Raise e)
        | (ops, Ok o) =>
            ((ops ++ [OpSetConfiguration])%list,
             Backend.setConfiguration self.(backend) request.(sender)
               request.(recipient) request.(nodeIdentifier) o
             ≫= fun _ => Ok None)
        end
  | None => ([], Ok None)
  end.

Definition _on_items (request : PubSubRequest) : Handled :=
  let toResponse (result : list Element) : Result (option Element) :=
    let response := newElement (Some NS_PUBSUB) "pubsub" in
    let items_ := newElement (uri response) "items" in
    items_ ← setAttributeO items_ "node" request.(nodeIdentifier);
    let items_ := fold_left addChild result items_ in
    Ok (Some (addChild response items_)) in
  ([OpItems],
   Backend.items self.(backend) request.(sender) request.(recipient)
     request.(nodeIdentifier) request.(maxItems) request.(itemIdentifiers)
   ≫= toResponse).

Definition _on_retract (request : PubSubRequest) : Handled :=
  ([OpRetract],
   Backend.retract self.(backend) request.(sender) request.(recipient)
     request.(nodeIdentifier) request.(itemIdentifiers) ≫= fun _ => Ok None).

Definition _on_purge (request : PubSubRequest) : Handled :=
  ([OpPurge],
   Backend.purge self.(backend) request.(sender) request.(recipient)
     request.(nodeIdentifier) ≫= fun _ => Ok None).

Definition _on_delete (request : PubSubRequest) : Handled :=
  ([OpDelete],
   Backend.delete self.(backend) request.(sender) request.(recipient)
     request.(nodeIdentifier) ≫= fun _ => Ok None).

Definition _on_affiliationsGet (iq : PubSubRequest) : Handled :=
  ([], Raise (Unsupported "modify-affiliations")).

Definition _on_affiliationsSet (iq : PubSubRequest) : Handled :=
  ([], Raise (Unsupported "modify-affiliations")).

Definition _on_subscriptionsGet (iq : PubSubRequest) : Handled :=
  ([], Raise (Unsupported "manage-subscriptions")).

Definition _on_subscriptionsSet (iq : PubSubRequest) : Handled :=
  ([], Raise (Unsupported "manage-subscriptions")).

(** [getattr(self, '_on_%s' % request.verb)] *)
Definition _on_ (verb_ : option string)
    : Result (PubSubRequest -> Handled) :=
  match verb_ with
  | Some "publish" => Ok _on_publish
  | Some "subscribe" => Ok _on_subscribe
  | Some "unsubscribe" => Ok _on_unsubscribe
  | Some "optionsGet" => Ok _on_optionsGet
  | Some "optionsSet" => Ok _on_optionsSet
  | Some "subscriptions" => Ok _on_subscriptions
  | Some "affiliations" => Ok _on_affiliations
  | Some "create" => Ok _on_create
  | Some "default" => Ok _on_default
  | Some "configureGet" => Ok _on_configureGet
  | Some "configureSet" => Ok _on_configureSet
  | Some "items" => Ok _on_items
  | Some "retract" => Ok _on_retract
  | Some "purge" => Ok _on_purge
  | Some "delete" => Ok _on_delete
  | Some "affiliationsGet" => Ok _on_affiliationsGet
  | Some "affiliationsSet" => Ok _on_affiliationsSet
  | Some "subscriptionsGet" => Ok _on_subscriptionsGet
  | Some "subscriptionsSet" => Ok _on_subscriptionsSet
  | Some v => Raise (AttributeError ("_on_" +:+ v))
  | None => Raise (AttributeError "_on_None")
  end.

Definition _onPubSubRequest (iq : Element) : Handled :=
  match fromElement iq with
  | Raise e => ([], Raise e)
  | Ok request =>
      match _on_ request.(verb) with
      | Raise e => ([], Raise e)
      | Ok handler => handler request
      end
  end.

(** Modelled from the spec: [IQHandlerMixin.handleRequest], of
    wokkel/subprotocols.py, which is not among the sources.  The spec's
    error taxonomy: a request with no recognised verb (the handler
    raised "not implemented") gets the stanza-level
    [feature-not-implemented] reply, a stanza-error carrier is rendered
    as the IQ error it describes, anything else becomes
    [internal-server-error]; a success is the IQ result with the
    handler's payload, if any. *)
Definition handleRequest (iq : Element) : list BackendOp * Reply :=
  let '(ops, outcome) := _onPubSubRequest iq in
  (ops,
   match outcome with
   | Ok payload => ResultReply payload
   | Raise NotImplementedError =>
       ErrorReply "feature-not-implemented" None None
   | Raise (StanzaError _ condition text appCondition) =>
       ErrorReply condition text appCondition
   | Raise _ => ErrorReply "internal-server-error" None None
   end).

(** The header loop of [_createNotification]. *)
Definition collectionHeaders (nodeIdentifier_ : string)
    (subscriptions_ : option (list (Subscription.t JID)))
    : list (string * option string) :=
  if truthy_olist subscriptions_ then
    fold_left
      (fun headers subscription =>
         if negb (bool_decide
                    (Some nodeIdentifier_
                     = Subscription.nodeIdentifier subscription))
         then (headers
               ++ [("Collection", Subscription.nodeIdentifier subscription)])%list
         else headers)
      (default [] subscriptions_) []
  else [].

Definition _createNotification (eventType : string) (service : JID)
    (nodeIdentifier_ : string) (subscriber_ : JID)
    (subscriptions_ : option (list (Subscription.t JID))) : Element :=
  let headers := collectionHeaders nodeIdentifier_ subscriptions_ in
  let message := newElement None "message" in
  let message := setAttribute message "from" (full service) in
  let message := setAttribute message "to" (full subscriber_) in
  let event := newElement (Some NS_PUBSUB_EVENT) "event" in
  let element := newElement (uri event) eventType in
  let element := setAttribute element "node" nodeIdentifier_ in
  let message := addChild message (addChild event element) in
  match headers with
  | _ :: _ => addChild message (Headers headers)
  | [] => message
  end.

(** [message.event.items.children = items] *)
Definition setEventItems (message : Element) (items_ : list Element)
    : Element :=
  updateChildNamed message "event" (fun event =>
    updateChildNamed event "items" (fun element =>
      setChildren element items_)).

(** [notifyPublish]: one message per notification, shipped in order. *)
Fixpoint notifyPublish (service : JID) (nodeIdentifier_ : string)
    (notifications :
       list (JID * option (list (Subscription.t JID)) * list Element))
    (xs : XmlStream) : XmlStream :=
  match notifications with
  | [] => xs
  | (subscriber_, subscriptions_, items_) :: r =>
      let message := _createNotification "items" service nodeIdentifier_
                       subscriber_ subscriptions_ in
      let message := setEventItems message items_ in
      notifyPublish service nodeIdentifier_ r (xs ++ [message])%list
  end.

(** [notifyDelete] *)
Fixpoint notifyDelete (service : JID) (nodeIdentifier_ : string)
    (subscribers : list JID) (redirectURI : option string)
    (xs : XmlStream) : XmlStream :=
  match subscribers with
  | [] => xs
  | subscriber_ :: r =>
      let message := _createNotification "delete" service nodeIdentifier_
                       subscriber_ None in
      let message :=
        match redirectURI with
        | Some u =>
            if truthy_str u then
              updateChildNamed message "event" (fun event =>
                updateChildNamed event "delete" (fun element =>
                  addChild element
                    (setAttribute (newElement (uri element) "redirect")
                                  "uri" u)))
            else message
        | None => message
        end in
      notifyDelete service nodeIdentifier_ r redirectURI (xs ++ [message])%list
  end.

(** The callback [toInfo] of [getDiscoInfo]; [data_form.Field(var=...,
    value=..., label=...)] is the field of that dict. *)
Definition toInfo (info : list (DiscoInfo Field)) (nodeInfo : option NodeInfo)
    : list (DiscoInfo Field) :=
  match nodeInfo with
  | None => info
  | Some nodeInfo =>
      let nodeType_ := nodeInfo_type nodeInfo in
      let metaData := nodeInfo_metaData nodeInfo in
      let info := (info ++ [DiscoIdentity "pubsub" nodeType_ None])%list in
      match metaData with
      | [] => info
      | _ :: _ =>
          let fields :=
            [ Field_fromDict
                (<[ "var" := Scalar "pubsub#node_type" ]>
                 (<[ "value" := Scalar nodeType_ ]>
                  {[ "label" :=
                       Scalar "The type of node (collection or leaf)" ]})) ] in
          let fields := (fields ++ (Field_fromDict <$> metaData))%list in
          (info ++ [InfoForm "result" NS_PUBSUB_META_DATA fields])%list
      end
  end.

(** [category, idType, name = self.discoIdentity]: unpacking a dict
    iterates over it, which yields its keys. *)
Definition unpack3 (d : list (string * string))
    : Result (string * string * string) :=
  match fst <$> d with
  | [a; b; c] => Ok (a, b, c)
  | _ => Raise ValueError
  end.

(** [getDiscoInfo].  The deferred of [getNodeInfo] ends with
    [addBoth(lambda result: info)], so it fires with the list whether
    the backend failed or not. *)
Definition getDiscoInfo (requestor target : option JID)
    (nodeIdentifier_ : option string) : Result (list (DiscoInfo Field)) :=
  let info := [] in
  info ←
    (if negb (truthy_ostr nodeIdentifier_) then
       '(category, idType, name_) ← unpack3 self.(discoIdentity);
       let info := (info ++ [DiscoIdentity category idType (Some name_)])%list in
       let info := (info ++ [DiscoFeature NS_DISCO_ITEMS])%list in
       Ok (info ++ ((fun feature =>
                       DiscoFeature (NS_PUBSUB +:+ "#" +:+ feature))
                    <$> self.(pubSubFeatures)))%list
     else Ok info);
  match Backend.getNodeInfo self.(backend) requestor target
          (if truthy_ostr nodeIdentifier_ then default "" nodeIdentifier_
           else "") with
  | Raises e => Raise e
  | ReturnsNone => Raise (AttributeError "addCallback")
  | ReturnsDeferred (Ok nodeInfo) => Ok (toInfo info nodeInfo)
  | ReturnsDeferred (Raise _) => Ok info
  end.

End Service.
End PubSubService.

(* ================================================================== *)
(** ** A concrete setting for the examples

    Addresses kept as their text, and a small reader and writer of
    [jabber:x:data] forms: [<x type=...>] with [<field var=...>]
    children holding [<value>] children; the hidden field [FORM_TYPE]
    names the form namespace.  A field is its dict. *)

Module Examples.

Definition NS_X_DATA : string := "jabber:x:data".

#[export] Instance textJabber : Jabber :=
  {| JID := string; internJID := Some; full := fun j => j |}.

Definition textOf (e : Element) : string :=
  match children e with
  | Text s :: _ => s
  | _ => ""
  end.

Definition valuesOf (field : Element) : list string :=
  textOf <$> List.filter (fun c => bool_decide (name c = "value"))
                         (elements field).

Definition fieldsOf (x : Element) : list (string * list string) :=
  omap (fun c =>
          if bool_decide (name c = "field")
          then (fun var => (var, valuesOf c)) <$> getAttribute c "var"
          else None)
       (elements x).

Definition fieldValue (vs : list string) : FieldValue :=
  match vs with
  | [v] => Scalar v
  | _ => Multi vs
  end.

Definition readForm (x : Element) : option Form :=
  if bool_decide (uri x = Some NS_X_DATA) && bool_decide (name x = "x") then
    let fields := fieldsOf x in
    Some {| formType := getAttribute x "type";
            formNamespace :=
              dict_get fields "FORM_TYPE" ≫= head;
            getValues :=
              list_to_map
                ((fun f => (fst f, fieldValue (snd f)))
                 <$> List.filter
                       (fun f => negb (bool_decide (fst f = "FORM_TYPE")))
                       fields) |}
  else None.

Definition valueElement (v : string) : Element :=
  mkElement (Some NS_X_DATA) "value" ∅ [Text v].

Definition fieldElement (var : string) (vs : list string) : Element :=
  mkElement (Some NS_X_DATA) "field" {[ "var" := var ]}
            (Child <$> (valueElement <$> vs)).

Definition dictValues (d : gmap string FieldValue) : list string :=
  match d !! "values", d !! "value" with
  | Some (Multi vs), _ => vs
  | _, Some (Scalar v) => [v]
  | _, _ => []
  end.

Definition writeField (d : gmap string FieldValue) : Element :=
  fieldElement (match d !! "var" with Some (Scalar v) => v | _ => "" end)
               (dictValues d).

Definition writeForm (formType_ formNamespace_ : string)
    (fields : list (gmap string FieldValue)) : Element :=
  mkElement (Some NS_X_DATA) "x" {[ "type" := formType_ ]}
    (Child <$> (fieldElement "FORM_TYPE" [formNamespace_]
                :: (writeField <$> fields))).

#[export] Instance xData : DataForms :=
  {| Form_fromElement := readForm;
     Field := gmap string FieldValue;
     Field_fromDict := fun d => d;
     Field_set := fun d v =>
       match v with
       | Multi _ => <[ "values" := v ]> d
       | Scalar _ => <[ "value" := v ]> d
       end;
     Field_typeCheck := Ok;
     Field_get := fun d asList =>
       if asList then Multi (dictValues d)
       else Scalar (default "" (head (dictValues d)));
     Form_toElement := writeForm |}.

(** A backend that accepts a creation under the name it is given and
    has nothing to say about nodes. *)
Definition quietBackend : Backend.t :=
  {| Backend.getNodeInfo := fun _ _ _ => ReturnsDeferred (Ok None);
     Backend.getNodes := fun _ _ => Ok [];
     Backend.publish := fun _ _ _ _ => Ok tt;
     Backend.subscribe := fun _ _ n s =>
       Ok (Subscription.mk n (default "" s) "subscribed" ∅);
     Backend.unsubscribe := fun _ _ _ _ => Ok tt;
     Backend.subscriptions := fun _ _ => Ok [];
     Backend.affiliations := fun _ _ => Ok [];
     Backend.create := fun _ _ n => Ok (default "" n);
     Backend.getConfigurationOptions := ∅;
     Backend.getDefaultConfiguration := fun _ _ _ => Ok ∅;
     Backend.getConfiguration := fun _ _ _ => Ok ∅;
     Backend.setConfiguration := fun _ _ _ _ => Ok tt;
     Backend.items := fun _ _ _ _ _ => Ok [];
     Backend.retract := fun _ _ _ _ => Ok tt;
     Backend.purge := fun _ _ _ => Ok tt;
     Backend.delete := fun _ _ _ => Ok tt |}.

(** [<iq type=... from=user@example/home to=pubsub.example>] around one
    [<pubsub>] element with the given children. *)
Definition iqWith (type_ : string) (ns : string) (verbElements : list Element)
    : Element :=
  mkElement None "iq"
    (<[ "type" := type_ ]>
     (<[ "from" := "user@example/home" ]> {[ "to" := "pubsub.example" ]}))
    [Child (mkElement (Some ns) "pubsub" ∅ (Child <$> verbElements))].

(** [<publish/>], without a node. *)
Definition publishNoNode : Element :=
  iqWith "set" NS_PUBSUB [newElement (Some NS_PUBSUB) "publish"].

(** [<frobnicate/>], which is in no table. *)
Definition unknownVerb : Element :=
  iqWith "set" NS_PUBSUB [newElement (Some NS_PUBSUB) "frobnicate"].

(** [<items node="news" max_items=.../>] *)
Definition itemsRequest (max_items : string) : Element :=
  iqWith "get" NS_PUBSUB
    [mkElement (Some NS_PUBSUB) "items"
       (<[ "node" := "news" ]> {[ "max_items" := max_items ]}) []].

(** [<options node="news" jid="user@example">] holding a submitted form
    of the given form namespace with one field. *)
Definition optionsSetRequest (formNamespace_ : string) : Element :=
  iqWith "set" NS_PUBSUB
    [mkElement (Some NS_PUBSUB) "options"
       (<[ "node" := "news" ]> {[ "jid" := "user@example" ]})
       [Child (writeForm "submit" formNamespace_
                 [ <[ "var" := Scalar "pubsub#title" ]>
                   {[ "value" := Scalar "News" ]} ])]].

(** A result to a subscribe request, with the given state. *)
Definition subscribeResponse (state : string) : Element :=
  mkElement None "iq" {[ "type" := "result" ]}
    [Child (mkElement (Some NS_PUBSUB) "pubsub" ∅
       [Child (mkElement (Some NS_PUBSUB) "subscription"
                 (<[ "node" := "news" ]>
                  (<[ "jid" := "user@example" ]>
                   {[ "subscription" := state ]})) [])])].

End Examples.

(* ================================================================== *)
(** ** Observations and predicates of the statements *)

(** The addresses of a stanza, where it has them, are ones [internJID]
    accepts. *)
Definition wellAddressed `{J : Jabber} (iq : Element) : Prop :=
  (forall a, getAttribute iq "from" = Some a -> is_Some (internJID a))
  /\ (forall a, getAttribute iq "to" = Some a -> is_Some (internJID a)).

(** [<items .../>] as a verb element with the given [max_items]. *)
Definition itemsElement (max_items : string) : Element :=
  mkElement (Some NS_PUBSUB) "items" {[ "max_items" := max_items ]} [].

(** [<pubsub><create node=assigned/></pubsub>] *)
Definition createPayload (assigned : string) : Element :=
  mkElement (Some NS_PUBSUB) "pubsub" ∅
    [Child (mkElement (Some NS_PUBSUB) "create" {[ "node" := assigned ]} [])].

(** What a message carries: its SHIM [headers] elements, and the (name,
    value) entries of one. *)
Definition shimHeaders (message : Element) : list Element :=
  List.filter (fun c => bool_decide (uri c = Some NS_SHIM)
                        && bool_decide (name c = "headers"))
              (elements message).

Definition headerEntries (headers : Element)
    : list (option string * option string) :=
  (fun header =>
     (getAttribute header "name",
      match children header with
      | [Text value] => Some value
      | _ => None
      end)) <$> elements headers.

(** The subscriptions of a notification that are for another node than
    the event's. *)
Definition differing {JID : Type} (nodeIdentifier_ : string)
    (subscriptions_ : option (list (Subscription.t JID)))
    : list (Subscription.t JID) :=
  List.filter
    (fun subscription =>
       negb (bool_decide (Some nodeIdentifier_
                          = Subscription.nodeIdentifier subscription)))
    (default [] subscriptions_).

(** The characters of a string, all of them no white space. *)
Fixpoint noSpace (s : string) : bool :=
  match s with
  | EmptyString => true
  | String c r => negb (is_space c) && noSpace r
  end.

(** What it takes for a request to be valid for its verb: each
    parameter of the verb finds its field populated as the renderer
    and the parser of that parameter expect it ([validParameter]), and
    the fields no parameter of the verb populates are [None]
    ([unusedAbsent]).

    A field counts as populated only with a value the renderer writes
    out and the parser gives back.  The renderers take a value that is
    false in Python for an absent one, so these are left out: an empty
    node identifier under [node] and [nodeOrNone], no node identifier
    at all under [nodeOrEmpty] (it is parsed back as the empty one), a
    [maxItems] of zero, and, as a request whose [maxItems] was parsed is
    meant to have a positive one, a negative [maxItems] too; the items
    of [items] are pubsub items, the only children the parser keeps. *)
Definition validParameter `{J : Jabber} (r : PubSubRequest)
    (parameter : string) : Prop :=
  match parameter with
  | "node" => exists n, nodeIdentifier r = Some n /\ n <> ""
  | "nodeOrEmpty" => is_Some (nodeIdentifier r)
  | "nodeOrNone" => nodeIdentifier r <> Some ""
  | "items" =>
      exists l, items r = Some l /\ Forall (fun e => isPubSubItem e = true) l
  | "jid" => is_Some (subscriber r)
  | "maxItems" => forall n, maxItems r = Some n -> (0 < n)%Z
  | "itemIdentifiers" => is_Some (itemIdentifiers r)
  | "default" =>
      nodeType r = Some (Scalar "leaf")
      \/ nodeType r = Some (Scalar "collection")
  | "configure" => is_Some (options r)
  | "options" => is_Some (options r)
  | _ => False
  end.

(** Whether one of the parameters [names] is among [parameters]. *)
Definition hasParameter (names parameters : list string) : bool :=
  existsb (fun p => existsb (String.eqb p) names) parameters.

Definition unusedAbsent `{J : Jabber} (r : PubSubRequest)
    (parameters : list string) : Prop :=
  (hasParameter ["node"; "nodeOrEmpty"; "nodeOrNone"] parameters = false
   -> nodeIdentifier r = None)
  /\ (hasParameter ["items"] parameters = false -> items r = None)
  /\ (hasParameter ["itemIdentifiers"] parameters = false
      -> itemIdentifiers r = None)
  /\ (hasParameter ["maxItems"] parameters = false -> maxItems r = None)
  /\ (hasParameter ["default"] parameters = false -> nodeType r = None)
  /\ (hasParameter ["configure"; "options"] parameters = false
      -> options r = None)
  /\ (hasParameter ["jid"] parameters = false -> subscriber r = None)
  /\ affiliations r = None
  /\ subscriptionIdentifier r = None
  /\ subscriptions r = None.

Definition valid_request `{J : Jabber} (r : PubSubRequest) : Prop :=
  exists verb_ parameters,
    verb r = Some verb_
    /\ dict_get _parameters verb_ = Some parameters
    /\ Forall (validParameter r) parameters
    /\ unusedAbsent r parameters.

(** [parse(render(r)) == r]: [send] renders the request into a stanza,
    and a fresh request parsed from that stanza equals the request as
    [send] left it, which is [r] with the IQ type of its verb. *)
Definition roundTrips `{J : Jabber} `{D : DataForms} (r : PubSubRequest)
    : Prop :=
  exists stanzaType_ iq,
    render r = Ok (set_stanzaType (Some stanzaType_) r, iq)
    /\ fromElement iq = Ok (set_stanzaType (Some stanzaType_) r).

(** The stanza [render] builds around a rendered verb element. *)
Definition stanzaAttributes `{J : Jabber} (stanzaType_ : string)
    (sender_ recipient_ : option JID) : gmap string string :=
  let a := <[ "type" := stanzaType_ ]> ∅ in
  let a := match sender_ with
           | Some j => <[ "from" := full j ]> a
           | None => a
           end in
  match recipient_ with
  | Some j => <[ "to" := full j ]> a
  | None => a
  end.

Definition stanza `{J : Jabber} (stanzaType_ : string)
    (sender_ recipient_ : option JID) (childURI : string)
    (verbElement : Element) : Element :=
  mkElement None "iq" (stanzaAttributes stanzaType_ sender_ recipient_)
    [Child (mkElement (Some childURI) "pubsub" ∅ [Child verbElement])].

(** [<item id=.../>], as [_render_itemIdentifiers] adds it. *)
Definition itemWithId (u : option string) (itemIdentifier : string) : Element :=
  mkElement u "item" (<[ "id" := itemIdentifier ]> ∅) [].

(* ================================================================== *)
(** ** PubSubClient: events and the other callbacks *)

(** [wokkel.shim.extractHeaders]: the SHIM headers of a message, as a
    mapping from header name to the values given for it. *)
Class Shim : Type := {
  extractHeaders : Element -> gmap string (list string);
}.

Module PubSubEvent.
(** [ItemsEvent], [DeleteEvent] and [PurgeEvent], with the fields of
    [PubSubEvent] in the order of the constructors' arguments;
    [redirectURI] is the attribute [DeleteEvent] adds. *)
Inductive t (JID : Type) : Type :=
  | ItemsEvent (sender recipient : JID) (nodeIdentifier : string)
               (items : list Element) (headers : gmap string (list string))
  | DeleteEvent (sender recipient : JID) (nodeIdentifier : string)
                (headers : gmap string (list string))
                (redirectURI : option string)
  | PurgeEvent (sender recipient : JID) (nodeIdentifier : string)
               (headers : gmap string (list string)).
Arguments ItemsEvent {JID}.
Arguments DeleteEvent {JID}.
Arguments PurgeEvent {JID}.
End PubSubEvent.

Module PubSubClientEvents.
Section Events.

Context `{J : Jabber} `{S : Shim}.

(** [jid.JID(element[key])]: the address under [key], parsed as
    [internJID] parses it. *)
Definition addressOf (element : Element) (key : string) : Result JID :=
  a ← getitem element key;
  match internJID a with
  | Some j => Ok j
  | None => Raise InvalidFormat
  end.

(** [element.name in ('item', 'retract')] *)
Definition isItemOrRetract (element : Element) : bool :=
  bool_decide (name element = "item") || bool_decide (name element = "retract").

(** The three event handlers.  What each hands to its callback
    ([itemsReceived], [deleteReceived], [purgeReceived]) is the result. *)
Definition _onEvent_items (sender_ recipient_ : JID) (action : Element)
    (headers : gmap string (list string)) : Result (PubSubEvent.t JID) :=
  nodeIdentifier_ ← getitem action "node";
  let items_ := List.filter isItemOrRetract (elements action) in
  Ok (PubSubEvent.ItemsEvent sender_ recipient_ nodeIdentifier_ items_ headers).

Definition _onEvent_delete (sender_ recipient_ : JID) (action : Element)
    (headers : gmap string (list string)) : Result (PubSubEvent.t JID) :=
  nodeIdentifier_ ← getitem action "node";
  let redirectURI :=
    match childNamed action "redirect" with
    | Some redirect => getAttribute redirect "uri"
    | None => None
    end in
  Ok (PubSubEvent.DeleteEvent sender_ recipient_ nodeIdentifier_ headers
        redirectURI).

Definition _onEvent_purge (sender_ recipient_ : JID) (action : Element)
    (headers : gmap string (list string)) : Result (PubSubEvent.t JID) :=
  nodeIdentifier_ ← getitem action "node";
  Ok (PubSubEvent.PurgeEvent sender_ recipient_ nodeIdentifier_ headers).

(** [getattr(self, "_onEvent_%s" % actionElement.name, None)] *)
Definition _onEvent_ (actionName : string)
    : option (JID -> JID -> Element -> gmap string (list string)
              -> Result (PubSubEvent.t JID)) :=
  match actionName with
  | "items" => Some _onEvent_items
  | "delete" => Some _onEvent_delete
  | "purge" => Some _onEvent_purge
  | _ => None
  end.

(** The loop of [_onEvent]: the last child in the event namespace. *)
Definition findAction (l : list Element) : option Element :=
  fold_left
    (fun actionElement element =>
       if bool_decide (uri element = Some NS_PUBSUB_EVENT) then Some element
       else actionElement)
    l None.

(** [PubSubClient._onEvent].  [Ok (Some event)]: a handler ran, gave
    [event] to its callback, and the message was marked handled.
    [Ok None]: the method returned without doing anything. *)
Definition _onEvent (message : Element) : Result (option (PubSubEvent.t JID)) :=
  match (sender_ ← addressOf message "from";
         recipient_ ← addressOf message "to";
         Ok (sender_, recipient_)) with
  | Raise (KeyError _) => Ok None
  | Raise e => Raise e
  | Ok (sender_, recipient_) =>
      match childNamed message "event" with
      | None => Raise (AttributeError "elements")
      | Some event =>
          match findAction (elements event) with
          | None => Ok None
          | Some actionElement =>
              match _onEvent_ (name actionElement) with
              | None => Ok None
              | Some eventHandler =>
                  let headers := extractHeaders message in
                  event_ ← eventHandler sender_ recipient_ actionElement
                             headers;
                  Ok (Some event_)
              end
          end
      end
  end.

(** The callback [cb] of [PubSubClient.createNode]; the [AttributeError]
    of [None.create] is the one the [try] catches. *)
Definition createNode_cb (nodeIdentifier_ : option string) (iq : Element)
    : Result (option string) :=
  match childNamed iq "pubsub" with
  | None => Ok nodeIdentifier_
  | Some pubsub =>
      match childNamed pubsub "create" with
      | None => Raise TypeError
      | Some create =>
          new_node ← getitem create "node";
          Ok (Some new_node)
      end
  end.

(** [PubSubClient.createNode] *)
Definition createNode (service : JID) (nodeIdentifier_ : option string)
    (sender_ : option JID) (xs : XmlStream) (response : Result Element)
    : XmlStream * Result (option string) :=
  let request := PubSubRequest_init (Some "create") in
  let request := set_recipient (Some service) request in
  let request := set_nodeIdentifier nodeIdentifier_ request in
  let request := set_sender sender_ request in
  match send request xs with
  | (xs, Ok _) =>
      (xs, PubSubClient.addCallback (createNode_cb nodeIdentifier_) response)
  | (xs, Raise e) => (xs, Raise e)
  end.

(** The callback [cb] of [PubSubClient.items]. *)
Definition items_cb (iq : Element) : Result (list Element) :=
  match childNamed iq "pubsub" with
  | None => Raise (AttributeError "items")
  | Some pubsub =>
      match childNamed pubsub "items" with
      | None => Raise (AttributeError "elements")
      | Some items_ => Ok (List.filter isPubSubItem (elements items_))
      end
  end.

End Events.
End PubSubClientEvents.

(* ================================================================== *)
(** ** Further observations *)

(** The children of a stanza made of a handler's payload, if any. *)
Definition payloadChildren (payload : option Element) : list Element :=
  match payload with
  | Some p => [p]
  | None => []
  end.

(** What the callback of [subscribe] makes of a subscription state. *)
Definition subscribeOutcome (state : string) : Result unit :=
  if bool_decide (state = "pending") then Raise SubscriptionPending
  else if bool_decide (state = "unconfigured")
       then Raise SubscriptionUnconfigured
       else Ok tt.

(** The feature each verb's handler names when the backend methods are
    those of [PubSubService] itself. *)
Definition refusedFeature : list (string * string) :=
  [ ("publish", "publish");
    ("subscribe", "subscribe");
    ("unsubscribe", "subscribe");
    ("optionsGet", "subscription-options");
    ("optionsSet", "subscription-options");
    ("subscriptions", "retrieve-subscriptions");
    ("affiliations", "retrieve-affiliations");
    ("create", "create-nodes");
    ("default", "retrieve-default");
    ("configureGet", "config-node");
    ("configureSet", "config-node");
    ("items", "retrieve-items");
    ("retract", "retract-items");
    ("purge", "purge-nodes");
    ("delete", "delete-nodes");
    ("affiliationsGet", "modify-affiliations");
    ("affiliationsSet", "modify-affiliations");
    ("subscriptionsGet", "manage-subscriptions");
    ("subscriptionsSet", "manage-subscriptions") ].

(** The names of the parameters that have a parser. *)
Definition parsedParameters : list string :=
  [ "node"; "nodeOrEmpty"; "nodeOrNone"; "items"; "jid"; "default";
    "configure"; "itemIdentifiers"; "maxItems"; "options" ].

(** The message [notifyDelete] ships to one subscriber. *)
Definition deleteMessage `{J : Jabber} (service : JID)
    (nodeIdentifier_ : string) (subscriber_ : JID)
    (redirectURI : option string) : Element :=
  mkElement None "message"
    (<[ "to" := full subscriber_ ]> (<[ "from" := full service ]> ∅))
    [ Child (mkElement (Some NS_PUBSUB_EVENT) "event" ∅
        [ Child (mkElement (Some NS_PUBSUB_EVENT) "delete"
                   (<[ "node" := nodeIdentifier_ ]> ∅)
                   (if truthy_ostr redirectURI then
                      [ Child (mkElement (Some NS_PUBSUB_EVENT) "redirect"
                                 (<[ "uri" := default "" redirectURI ]> ∅) []) ]
                    else [])) ]) ].

(** The message [notifyPublish] ships for one notification. *)
Definition publishMessage `{J : Jabber} (service : JID)
    (nodeIdentifier_ : string)
    (notification : JID * option (list (Subscription.t JID)) * list Element)
    : Element :=
  mkElement None "message"
    (<[ "to" := full (fst (fst notification)) ]>
     (<[ "from" := full service ]> ∅))
    (Child (mkElement (Some NS_PUBSUB_EVENT) "event" ∅
        [ Child (mkElement (Some NS_PUBSUB_EVENT) "items"
                   (<[ "node" := nodeIdentifier_ ]> ∅)
                   (Child <$> snd notification)) ])
     :: match PubSubService.collectionHeaders nodeIdentifier_
                (snd (fst notification)) with
        | [] => []
        | headers => [Child (Headers headers)]
        end).

(** The item identifiers [_parse_itemIdentifiers] reads from a list of
    children: [None] when a pubsub item among them has no [id]. *)
Fixpoint identifiersOf (l : list Element) : option (list string) :=
  match l with
  | [] => Some []
  | element :: r =>
      if isPubSubItem element then
        match getAttribute element "id" with
        | Some i => cons i <$> identifiersOf r
        | None => None
        end
      else identifiersOf r
  end.

(** What [send] needs of a request: a verb of the table none of whose
    parameters is one of the three without a renderer, a node
    identifier that is not empty when the verb has the [node]
    parameter, and a subscriber when it has the [jid] parameter. *)
Definition sendable `{J : Jabber} (r : PubSubRequest) : Prop :=
  exists verb_ parameters,
    verb r = Some verb_
    /\ dict_get _parameters verb_ = Some parameters
    /\ hasParameter ["default"; "configure"; "options"] parameters = false
    /\ (hasParameter ["node"] parameters = true
        -> truthy_ostr (nodeIdentifier r) = true)
    /\ (hasParameter ["jid"] parameters = true -> is_Some (subscriber r)).

Module MoreExamples.
Import Examples.

(** No headers are read from any message. *)
#[export] Instance noHeaders : Shim := {| extractHeaders := fun _ => ∅ |}.

(** [<subscribe node="news"/>], without a [jid]. *)
Definition subscribeNoJid : Element :=
  Examples.iqWith "set" NS_PUBSUB
    [mkElement (Some NS_PUBSUB) "subscribe" {[ "node" := "news" ]} []].

(** [<publish node="news"><item id="1"/></publish>] *)
Definition publishRequest : Element :=
  Examples.iqWith "set" NS_PUBSUB
    [mkElement (Some NS_PUBSUB) "publish" {[ "node" := "news" ]}
       [Child (Item (Some "1") None)]].

(** A backend whose option schema knows one name, [pubsub#title]. *)
Definition titledBackend : Backend.t :=
  {| Backend.getNodeInfo := fun _ _ _ => ReturnsDeferred (Ok None);
     Backend.getNodes := fun _ _ => Ok [];
     Backend.publish := fun _ _ _ _ => Ok tt;
     Backend.subscribe := fun _ _ n s =>
       Ok (Subscription.mk n (default "" s) "pending" ∅);
     Backend.unsubscribe := fun _ _ _ _ => Ok tt;
     Backend.subscriptions := fun _ _ => Ok [];
     Backend.affiliations := fun _ _ => Ok [];
     Backend.create := fun _ _ _ => Ok "auto-42";
     Backend.getConfigurationOptions :=
       {[ "pubsub#title" := {[ "type" := Scalar "text-single" ]} ]};
     Backend.getDefaultConfiguration := fun _ _ _ => Ok ∅;
     Backend.getConfiguration := fun _ _ _ => Ok ∅;
     Backend.setConfiguration := fun _ _ _ _ => Ok tt;
     Backend.items := fun _ _ _ _ _ =>
       Ok [Item (Some "1") None; Item (Some "2") None];
     Backend.retract := fun _ _ _ _ => Ok tt;
     Backend.purge := fun _ _ _ => Ok tt;
     Backend.delete := fun _ _ _ => Ok tt |}.

Definition titledService : PubSubService.t := PubSubService.init titledBackend.

(** A subscribe request as parsed, and the subscription [titledBackend]
    answers it with. *)
Definition subscribeNews : PubSubRequest :=
  set_subscriber (Some "user@example")
    (set_nodeIdentifier (Some "news") (PubSubRequest_init (Some "subscribe"))).

Definition pendingSubscription : Subscription.t string :=
  Subscription.mk (Some "news") "user@example" "pending" ∅.

(** One notification, to a subscriber of the node itself. *)
Definition aliceNotified
    : list (string * option (list (Subscription.t string)) * list Element) :=
  [ ("alice@example", None,
     [Item (Some "1") None; newElement (Some NS_PUBSUB) "other"]) ].

(** [<default>] in the owner namespace, holding a submitted node
    configuration form that asks for the given node type. *)
Definition defaultRequest (nodeType_ : string) : Element :=
  iqWith "get" NS_PUBSUB_OWNER
    [mkElement (Some NS_PUBSUB_OWNER) "default" ∅
       [Child (writeForm "submit" NS_PUBSUB_NODE_CONFIG
                 [ <[ "var" := Scalar "pubsub#node_type" ]>
                   {[ "value" := Scalar nodeType_ ]} ])]].

(** [<configure node="news">] in the owner namespace, holding a node
    configuration form of the given type without fields. *)
Definition configureRequest (formType_ : string) : Element :=
  iqWith "set" NS_PUBSUB_OWNER
    [mkElement (Some NS_PUBSUB_OWNER) "configure" {[ "node" := "news" ]}
       [Child (writeForm formType_ NS_PUBSUB_NODE_CONFIG [])]].

(** An IQ whose [<pubsub>] holds a child of no table, then
    [<purge node="news"/>], then [<delete/>]. *)
Definition purgeAmongOthers : Element :=
  iqWith "set" NS_PUBSUB_OWNER
    [ newElement (Some NS_PUBSUB_OWNER) "frobnicate";
      mkElement (Some NS_PUBSUB_OWNER) "purge" {[ "node" := "news" ]} [];
      newElement (Some NS_PUBSUB_OWNER) "delete" ].

End MoreExamples.

(* ================================================================== *)
(** * Properties *)

(** ** Tables and lookups *)

Lemma dict_get_In {K V : Type} `{EqDecision K} (d : list (K * V)) k v :
  dict_get d k = Some v -> In (k, v) d.
Proof.
  unfold dict_get. intros Hget.
  destruct (List.find _ d) as [[k' v']|] eqn:Hfind; simplify_eq/=.
  apply find_some in Hfind as [Hin Hk].
  apply bool_decide_eq_true in Hk. simpl in Hk. by subst.
Qed.

(** Case analysis on an entry of a literal table. *)
Ltac table_cases H :=
  apply dict_get_In in H; simpl in H;
  repeat (destruct H as [H | H]); try contradiction; simplify_eq.

(** The verbs whose parameter list starts with [node]. *)
Lemma node_first_verbs `{J : Jabber} verb_ parameters :
  dict_get _parameters verb_ = Some ("node" :: parameters) ->
  In verb_ ["publish"; "items"; "retract"; "purge"; "delete"].
Proof.
  intros Hp. table_cases Hp; simpl; tauto.
Qed.

(** ** Parsing: the stanza level *)

Lemma Stanza_parseElement_ok `{J : Jabber} iq self :
  wellAddressed iq ->
  exists r, Stanza_parseElement iq self = Ok r
            /\ stanzaType r = getAttribute iq "type"
            /\ verb r = verb self.
Proof.
  intros [Hfrom Hto]. unfold Stanza_parseElement.
  destruct (getAttribute iq "from") as [a|] eqn:Ea.
  - destruct (Hfrom a eq_refl) as [j ->].
    destruct (getAttribute iq "to") as [b|] eqn:Eb.
    + destruct (Hto b eq_refl) as [k ->]. eexists; split; [reflexivity|done].
    + eexists; split; [reflexivity|done].
  - destruct (getAttribute iq "to") as [b|] eqn:Eb.
    + destruct (Hto b eq_refl) as [k ->]. eexists; split; [reflexivity|done].
    + eexists; split; [reflexivity|done].
Qed.

Lemma resolveVerb_None `{J : Jabber} stanzaType_ l :
  Forall (fun child => lookupVerb stanzaType_ child = None) l ->
  resolveVerb stanzaType_ l = None.
Proof.
  induction 1 as [|child l Hc _ IH]; simpl; [done|]. by rewrite Hc.
Qed.

(** A request that lacks the [node] attribute on the element of a verb
    whose parameters start with [node] is refused before any other
    parameter is read. *)
Lemma parseElement_node_missing `{J : Jabber} `{D : DataForms}
    (iq pubsub child : Element) (verb_ : string) (parameters : list string) :
  wellAddressed iq ->
  childNamed iq "pubsub" = Some pubsub ->
  resolveVerb (getAttribute iq "type") (elements pubsub) = Some (verb_, child) ->
  dict_get _parameters verb_ = Some ("node" :: parameters) ->
  getAttribute child "node" = None ->
  fromElement iq = Raise (BadRequest (Some "nodeid-required") None).
Proof.
  intros Hw Hp Hv Hps Hn. unfold fromElement, parseElement.
  destruct (Stanza_parseElement_ok iq (PubSubRequest_init None) Hw)
    as (r & -> & Ht & _).
  cbn [mbind Result_bind]. rewrite Hp, Ht, Hv.
  assert (Htrue : truthy_str verb_ = true).
  { pose proof (node_first_verbs _ _ Hps) as Hin. simpl in Hin.
    repeat (destruct Hin as [<- | Hin]); try done. }
  cbn [verb set_verb truthy_ostr]. rewrite Htrue. cbn [negb].
  rewrite Hps. cbn [parseParameters]. 
  change (_parse_ "node") with (Ok (A:=Element -> PubSubRequest -> Result PubSubRequest) _parse_node).
  cbn [mbind Result_bind]. unfold _parse_node, getitem.
  unfold getAttribute in Hn. by rewrite Hn.
Qed.

(** ** Node-required enforcement on parse *)

(** C3.  For a verb whose parameter list begins with [node] (publish,
    items, retract, purge, delete: see [node_first_verbs]), an inbound
    IQ whose verb element has no [node] attribute is refused by the
    parser with [BadRequest('nodeid-required')], the bad-request error
    whose application condition is [nodeid-required] in the
    pubsub-errors namespace; the service handler then calls no backend
    operation, and the reply is that error. *)
Theorem node_required_on_parse `{J : Jabber} `{D : DataForms}
    (iq pubsub child : Element) (verb_ : string) (parameters : list string) :
  wellAddressed iq ->
  childNamed iq "pubsub" = Some pubsub ->
  resolveVerb (getAttribute iq "type") (elements pubsub) = Some (verb_, child) ->
  dict_get _parameters verb_ = Some ("node" :: parameters) ->
  getAttribute child "node" = None ->
  fromElement iq = Raise (BadRequest (Some "nodeid-required") None)
  /\ BadRequest (Some "nodeid-required") None
     = StanzaError ClsBadRequest "bad-request" None
         (Some (newElement (Some NS_PUBSUB_ERRORS) "nodeid-required"))
  /\ forall self,
       PubSubService._onPubSubRequest self iq
       = ([], Raise (BadRequest (Some "nodeid-required") None))
       /\ PubSubService.handleRequest self iq
          = ([], ErrorReply "bad-request" None
                   (Some (newElement (Some NS_PUBSUB_ERRORS)
                                     "nodeid-required"))).
Proof.
  intros Hw Hp Hv Hps Hn.
  pose proof (parseElement_node_missing iq pubsub child verb_ parameters
                Hw Hp Hv Hps Hn) as Hparse.
  split; [exact Hparse|]. split; [reflexivity|].
  intros self. unfold PubSubService.handleRequest,
    PubSubService._onPubSubRequest. rewrite Hparse. split; reflexivity.
Qed.

Lemma node_required_on_parse_witness :
  fromElement (J:=Examples.textJabber) (D:=Examples.xData)
    Examples.publishNoNode
  = Raise (BadRequest (Some "nodeid-required") None)
  /\ PubSubService.handleRequest (D:=Examples.xData)
       (PubSubService.init Examples.quietBackend) Examples.publishNoNode
     = ([], ErrorReply "bad-request" None
              (Some (newElement (Some NS_PUBSUB_ERRORS) "nodeid-required"))).
Proof.
  destruct (node_required_on_parse (J:=Examples.textJabber)
              (D:=Examples.xData) Examples.publishNoNode
              (mkElement (Some NS_PUBSUB) "pubsub" ∅
                 [Child (newElement (Some NS_PUBSUB) "publish")])
              (newElement (Some NS_PUBSUB) "publish") "publish" ["items"])
    as (Hparse & _ & Hservice).
  - split; intros a _; exists a; reflexivity.
  - vm_compute; reflexivity.
  - vm_compute; reflexivity.
  - vm_compute; reflexivity.
  - vm_compute; reflexivity.
  - split; [exact Hparse|].
    exact (proj2 (Hservice (PubSubService.init Examples.quietBackend))).
Defined.

(** ** Unknown verbs *)

(** C4.  When no child of the [<pubsub>] element gives a triple (iq
    type, namespace, local name) that is in the verb table, parsing a
    fresh request from the IQ fails with [NotImplementedError]; the
    dispatcher answers [feature-not-implemented] and has called no
    backend operation. *)
Theorem unknown_verb_not_implemented `{J : Jabber} `{D : DataForms}
    (iq pubsub : Element) :
  wellAddressed iq ->
  childNamed iq "pubsub" = Some pubsub ->
  Forall (fun child => lookupVerb (getAttribute iq "type") child = None)
         (elements pubsub) ->
  fromElement iq = Raise NotImplementedError
  /\ forall self,
       PubSubService.handleRequest self iq
       = ([], ErrorReply "feature-not-implemented" None None).
Proof.
  intros Hw Hp Hall.
  assert (Hparse : fromElement iq = Raise NotImplementedError).
  { unfold fromElement, parseElement.
    destruct (Stanza_parseElement_ok iq (PubSubRequest_init None) Hw)
      as (r & -> & Ht & Hverb).
    cbn [mbind Result_bind]. rewrite Hp, Ht, (resolveVerb_None _ _ Hall).
    rewrite Hverb. reflexivity. }
  split; [exact Hparse|]. intros self.
  unfold PubSubService.handleRequest, PubSubService._onPubSubRequest.
  rewrite Hparse. reflexivity.
Qed.

Lemma unknown_verb_not_implemented_witness :
  fromElement (J:=Examples.textJabber) (D:=Examples.xData)
    Examples.unknownVerb = Raise NotImplementedError
  /\ PubSubService.handleRequest (D:=Examples.xData)
       (PubSubService.init Examples.quietBackend) Examples.unknownVerb
     = ([], ErrorReply "feature-not-implemented" None None).
Proof.
  destruct (unknown_verb_not_implemented (J:=Examples.textJabber)
              (D:=Examples.xData) Examples.unknownVerb
              (mkElement (Some NS_PUBSUB) "pubsub" ∅
                 [Child (newElement (Some NS_PUBSUB) "frobnicate")]))
    as (Hparse & Hservice).
  - split; intros a _; exists a; reflexivity.
  - vm_compute; reflexivity.
  - repeat constructor.
  - split; [exact Hparse|].
    exact (Hservice (PubSubService.init Examples.quietBackend)).
Defined.

(** ** Node-required enforcement on send *)

Lemma node_parameter_first `{J : Jabber} verb_ parameters :
  dict_get _parameters verb_ = Some parameters ->
  In "node" parameters ->
  exists rest key,
    parameters = "node" :: rest /\ dict_get _verbRequestMap verb_ = Some key.
Proof.
  intros Hp Hin. table_cases Hp; simpl in Hin;
    repeat (destruct Hin as [Hin | Hin]); try discriminate; try contradiction;
    eexists _, _; (split; [reflexivity | vm_compute; reflexivity]).
Qed.

(** C10.  For a request whose verb has the [node] parameter (publish,
    items, retract, purge, delete), [send] with a node identifier that
    is [None] or the empty string raises the plain
    [Exception("Node identifier is required")], which is no stanza
    error and so no [BadRequest], and the stream is left as it was: no
    IQ has been shipped. *)
Theorem send_requires_node `{J : Jabber} (r : PubSubRequest) (verb_ : string)
    (parameters : list string) (xs : XmlStream) :
  verb r = Some verb_ ->
  dict_get _parameters verb_ = Some parameters ->
  In "node" parameters ->
  nodeIdentifier r = None \/ nodeIdentifier r = Some "" ->
  send r xs = (xs, Raise (Exception "Node identifier is required"))
  /\ isStanzaError (Exception "Node identifier is required") = false
  /\ isBadRequest (Exception "Node identifier is required") = false.
Proof.
  intros Hv Hp Hin Hnode.
  destruct (node_parameter_first _ _ Hp Hin) as (rest & [[t u] n] & -> & Hk).
  split; [|split; reflexivity].
  unfold send, render. rewrite Hv. cbn [mbind option_bind].
  rewrite Hk. cbn [verb set_stanzaType]. rewrite Hv. cbn [mbind option_bind].
  rewrite Hp. cbn [renderParameters].
  change (_render_ "node")
    with (Ok (A:=PubSubRequest -> Element -> Result Element) _render_node).
  cbn [mbind Result_bind]. unfold _render_node.
  cbn [nodeIdentifier set_stanzaType].
  destruct Hnode as [-> | ->]; reflexivity.
Qed.

Lemma send_requires_node_witness :
  send (PubSubRequest_init (J:=Examples.textJabber) (Some "purge")) []
  = ([], Raise (Exception "Node identifier is required")).
Proof.
  apply (send_requires_node (J:=Examples.textJabber)
           (PubSubRequest_init (Some "purge")) "purge" ["node"] []).
  - reflexivity.
  - vm_compute; reflexivity.
  - simpl; tauto.
  - left; reflexivity.
Defined.

(** ** max_items *)

(** C5.  [_parse_maxItems] on the two values the specification names and
    on three more: ["abc"] is refused with a [BadRequest] and ["10"]
    gives the integer 10, but ["-5"] and ["0"] are accepted, so a
    parsed [maxItems] need not be positive, and the empty value is
    skipped without an error. *)
Theorem max_items_not_checked_positive `{J : Jabber} (self : PubSubRequest) :
  _parse_maxItems (itemsElement "abc") self
  = Raise (BadRequest None
             (Some "Field max_items requires a positive integer value"))
  /\ _parse_maxItems (itemsElement "10") self
     = Ok (set_maxItems (Some 10%Z) self)
  /\ _parse_maxItems (itemsElement "-5") self
     = Ok (set_maxItems (Some (-5)%Z) self)
  /\ _parse_maxItems (itemsElement "0") self
     = Ok (set_maxItems (Some 0%Z) self)
  /\ _parse_maxItems (itemsElement "") self = Ok self.
Proof. repeat split. Qed.

(** A value that is not empty is refused exactly when [int] refuses
    it, and is otherwise stored as [int] reads it. *)
Lemma _parse_maxItems_value `{J : Jabber} (verbElement : Element)
    (self : PubSubRequest) (value : string) :
  getAttribute verbElement "max_items" = Some value ->
  value <> "" ->
  _parse_maxItems verbElement self
  = match int value with
    | Ok n => Ok (set_maxItems (Some n) self)
    | Raise _ =>
        Raise (BadRequest None
                 (Some "Field max_items requires a positive integer value"))
    end.
Proof.
  intros Hv Hne. unfold _parse_maxItems. rewrite Hv.
  unfold truthy_str. rewrite bool_decide_eq_false_2 by done. simpl.
  unfold int. by destruct (match strip value with
                           | EmptyString => _ | String _ _ => _ end).
Qed.

(** ** The response to create *)

(** C7, as stated, fails for a request whose node identifier is present
    but empty when the backend assigns the empty name: the identifier
    is present and equal to the assigned one, and the response still
    carries the [<create>] payload. *)
Lemma create_empty_identifier_has_payload :
  let request :=
    set_nodeIdentifier (J:=Examples.textJabber) (Some "")
      (PubSubRequest_init (Some "create")) in
  let self := PubSubService.init Examples.quietBackend in
  nodeIdentifier request = Some ""
  /\ Backend.create (PubSubService.backend self) (sender request)
       (recipient request) (nodeIdentifier request) = Ok ""
  /\ PubSubService._on_create self request
     = ([OpCreate], Ok (Some (createPayload "")))
  /\ ~ (nodeIdentifier request = Some ""
        -> snd (PubSubService._on_create self request) = Ok None).
Proof.
  repeat split. intros Hno. specialize (Hno eq_refl). discriminate.
Qed.

(** C7, amended.  When the backend's create yields [assigned], the
    handler has called create and nothing else, and its response is
    [<pubsub><create node=assigned/></pubsub>] exactly when the
    request's node identifier is absent, empty, or differs from
    [assigned]; when it is present, not empty and equal to [assigned],
    the response has no payload. *)
Theorem create_response `{J : Jabber} (self : PubSubService.t)
    (request : PubSubRequest) (assigned : string) :
  Backend.create (PubSubService.backend self) (sender request)
    (recipient request) (nodeIdentifier request) = Ok assigned ->
  (nodeIdentifier request = None \/ nodeIdentifier request = Some ""
   \/ nodeIdentifier request <> Some assigned
   <-> PubSubService._on_create self request
       = ([OpCreate], Ok (Some (createPayload assigned))))
  /\ (nodeIdentifier request <> None /\ nodeIdentifier request <> Some ""
      /\ nodeIdentifier request = Some assigned
      <-> PubSubService._on_create self request = ([OpCreate], Ok None)).
Proof.
  intros Hcreate. unfold PubSubService._on_create. rewrite Hcreate.
  cbn [mbind Result_bind]. unfold PubSubService.create_toResponse.
  destruct (nodeIdentifier request) as [n|]; cbn [truthy_ostr negb orb].
  - unfold truthy_str. destruct (decide (n = "")) as [-> | Hn].
    + rewrite (bool_decide_eq_true_2 ("" = "")) by done. cbn [negb orb].
      split; split; intuition congruence.
    + rewrite (bool_decide_eq_false_2 (n = "")) by done. cbn [negb orb].
      destruct (decide (Some n = Some assigned)) as [Heq | Hne].
      * rewrite bool_decide_eq_true_2 by done. cbn [negb].
        split; split; intuition congruence.
      * rewrite bool_decide_eq_false_2 by done. cbn [negb].
        split; split; intuition congruence.
  - split; split; intuition congruence.
Qed.

Lemma create_response_witness :
  PubSubService._on_create (J:=Examples.textJabber)
    (PubSubService.init Examples.quietBackend)
    (set_nodeIdentifier (Some "news") (PubSubRequest_init (Some "create")))
  = ([OpCreate], Ok None).
Proof.
  apply (create_response (J:=Examples.textJabber)
           (PubSubService.init Examples.quietBackend)
           (set_nodeIdentifier (Some "news")
              (PubSubRequest_init (Some "create")))
           "news").
  - reflexivity.
  - repeat split; discriminate.
Defined.

(** ** The client's subscribe *)

Lemma render_subscribe `{J : Jabber} (r : PubSubRequest) j :
  verb r = Some "subscribe" -> subscriber r = Some j ->
  exists out, render r = Ok out.
Proof.
  intros Hv Hs. unfold render. rewrite Hv. cbn [mbind option_bind].
  change (dict_get _verbRequestMap "subscribe")
    with (Some ("set", NS_PUBSUB, "subscribe")).
  cbn [verb set_stanzaType]. rewrite Hv. cbn [mbind option_bind].
  change (dict_get _parameters "subscribe") with (Some ["nodeOrEmpty"; "jid"]).
  cbn [renderParameters].
  change (_render_ "nodeOrEmpty")
    with (Ok (A:=PubSubRequest -> Element -> Result Element)
            _render_nodeOrEmpty).
  change (_render_ "jid")
    with (Ok (A:=PubSubRequest -> Element -> Result Element) _render_jid).
  cbn [mbind Result_bind]. unfold _render_nodeOrEmpty, _render_jid.
  cbn [nodeIdentifier subscriber set_stanzaType]. rewrite Hs.
  destruct (nodeIdentifier r) as [n|]; [destruct (truthy_str n)|];
    cbn [mbind Result_bind]; eexists; reflexivity.
Qed.

(** C8.  Once the response to a subscribe request has come in, the
    deferred of [PubSubClient.subscribe] fails with
    [SubscriptionPending] when the [subscription] attribute of the
    response's [<subscription>] element is ["pending"], fails with
    [SubscriptionUnconfigured] when it is ["unconfigured"], and in every
    other case succeeds with no value. *)
Theorem subscribe_post_processing `{J : Jabber} (service subscriber_ : JID)
    (nodeIdentifier_ : option string) (sender_ : option JID)
    (xs : XmlStream) (iq pubsub element : Element) (state : string) :
  childNamed iq "pubsub" = Some pubsub ->
  childNamed pubsub "subscription" = Some element ->
  getAttribute element "subscription" = Some state ->
  snd (PubSubClient.subscribe service nodeIdentifier_ subscriber_ sender_ xs
         (Ok iq))
  = if bool_decide (state = "pending") then Raise SubscriptionPending
    else if bool_decide (state = "unconfigured")
         then Raise SubscriptionUnconfigured
         else Ok tt.
Proof.
  intros Hp He Hs. unfold PubSubClient.subscribe, send.
  match goal with |- context [render ?r] =>
    destruct (render_subscribe r subscriber_ eq_refl eq_refl) as [[r' q] ->]
  end.
  cbn [snd]. unfold PubSubClient.addCallback. cbn [mbind Result_bind].
  unfold PubSubClient.subscribe_cb. rewrite Hp, He.
  unfold getitem. unfold getAttribute in Hs. rewrite Hs.
  reflexivity.
Qed.

Lemma subscribe_post_processing_witness :
  snd (PubSubClient.subscribe (J:=Examples.textJabber) "pubsub.example"
         (Some "news") "user@example" None []
         (Ok (Examples.subscribeResponse "unconfigured")))
  = Raise SubscriptionUnconfigured.
Proof.
  apply (subscribe_post_processing (J:=Examples.textJabber) "pubsub.example"
           "user@example" (Some "news") None []
           (Examples.subscribeResponse "unconfigured")
           (mkElement (Some NS_PUBSUB) "pubsub" ∅
              [Child (mkElement (Some NS_PUBSUB) "subscription"
                        (<[ "node" := "news" ]>
                         (<[ "jid" := "user@example" ]>
                          {[ "subscription" := "unconfigured" ]})) [])])
           (mkElement (Some NS_PUBSUB) "subscription"
              (<[ "node" := "news" ]>
               (<[ "jid" := "user@example" ]>
                {[ "subscription" := "unconfigured" ]})) [])
           "unconfigured").
  - vm_compute; reflexivity.
  - vm_compute; reflexivity.
  - vm_compute; reflexivity.
Defined.

(** ** Finding the form *)

(** [_findForm] yields the last child that reads as a Data Form; the
    form namespace asked for plays no part. *)
Lemma _findForm_last `{J : Jabber} `{D : DataForms} (element : Element)
    (formNamespace_ : string) :
  _findForm element formNamespace_
  = last (omap Form_fromElement (elements element)).
Proof.
  unfold _findForm.
  assert (Hgen : forall l acc,
            fold_left
              (fun form child =>
                 match Form_fromElement child with
                 | None => form
                 | Some f =>
                     if bool_decide (formNamespace f = Some NS_PUBSUB_NODE_CONFIG)
                     then Some f else Some f
                 end) l acc
            = match last (omap Form_fromElement l) with
              | Some f => Some f
              | None => acc
              end).
  { induction l as [|child l IH]; intros acc; simpl; [done|].
    rewrite IH. destruct (Form_fromElement child) as [f|]; [|done].
    change (list_omap _ _ Form_fromElement l) with (omap Form_fromElement l).
    rewrite last_cons. destruct (last (omap Form_fromElement l)); [done|].
    by destruct (bool_decide _). }
  rewrite Hgen. by destruct (last _).
Qed.

(** C2.  Whatever reads the Data Forms: when the last child of the
    [<options>] element that reads as a form is a submitted form in the
    node-config namespace, which is not the subscribe-options
    namespace, [_parse_options] does not report a missing form; the
    values of that form become the options. *)
Theorem options_form_namespace_ignored `{J : Jabber} `{D : DataForms}
    (verbElement : Element) (self : PubSubRequest) (form : Form) :
  last (omap Form_fromElement (elements verbElement)) = Some form ->
  formType form = Some "submit" ->
  formNamespace form = Some NS_PUBSUB_NODE_CONFIG ->
  formNamespace form <> Some NS_PUBSUB_SUBSCRIBE_OPTIONS
  /\ _parse_options verbElement self
     = Ok (set_options (Some (getValues form)) self).
Proof.
  intros Hlast Htype Hns. split.
  - rewrite Hns. discriminate.
  - unfold _parse_options. rewrite _findForm_last, Hlast, Htype.
    reflexivity.
Qed.

Lemma options_form_namespace_ignored_witness :
  _parse_options (J:=Examples.textJabber) (D:=Examples.xData)
    (mkElement (Some NS_PUBSUB) "options"
       (<[ "node" := "news" ]> {[ "jid" := "user@example" ]})
       [Child (Examples.writeForm "submit" NS_PUBSUB_NODE_CONFIG
                 [ <[ "var" := Scalar "pubsub#title" ]>
                   {[ "value" := Scalar "News" ]} ])])
    (PubSubRequest_init None)
  = Ok (set_options (Some {[ "pubsub#title" := Scalar "News" ]})
          (PubSubRequest_init None)).
Proof.
  refine (proj2 (options_form_namespace_ignored (J:=Examples.textJabber)
                   (D:=Examples.xData) _ (PubSubRequest_init None)
                   (mkForm (Some "submit") (Some NS_PUBSUB_NODE_CONFIG)
                      {[ "pubsub#title" := Scalar "News" ]}) _ _ _)).
  - vm_compute; reflexivity.
  - reflexivity.
  - reflexivity.
Defined.

(** The same form inside a whole optionsSet request. *)
Example parse_options_set_node_config :
  fromElement (J:=Examples.textJabber) (D:=Examples.xData)
    (Examples.optionsSetRequest NS_PUBSUB_NODE_CONFIG)
  = Ok (mkRequest (J:=Examples.textJabber)
          (Some "set") (Some "user@example/home") (Some "pubsub.example")
          (Some "optionsSet") None None None None (Some "news") None
          (Some {[ "pubsub#title" := Scalar "News" ]})
          (Some "user@example") None None).
Proof. vm_compute; reflexivity. Qed.

(** ** Service discovery *)

(** [toInfo] only appends, and what it appends is an identity without
    a name and, at most, a form. *)
Lemma toInfo_appends `{J : Jabber} `{D : DataForms}
    (info : list (DiscoInfo Field)) (nodeInfo : option NodeInfo) :
  exists extra,
    PubSubService.toInfo info nodeInfo = (info ++ extra)%list
    /\ forall category idType name_,
         DiscoIdentity category idType (Some name_) ∉ extra.
Proof.
  unfold PubSubService.toInfo. destruct nodeInfo as [nodeInfo|].
  - destruct (nodeInfo_metaData nodeInfo) as [|m ms].
    + eexists; split; [reflexivity|]. intros c t n.
      rewrite not_elem_of_cons. split; [congruence | apply not_elem_of_nil].
    + eexists; split; [symmetry; apply app_assoc|]. intros c t n.
      cbn [app]. rewrite !not_elem_of_cons.
      repeat split; try congruence. apply not_elem_of_nil.
  - exists []. split; [by rewrite app_nil_r|]. intros c t n.
    apply not_elem_of_nil.
Qed.

(** C9.  With the three entries of the configured identity in whatever
    order the dict yields them, [getDiscoInfo] for an empty node
    identifier builds its identity from the keys of the mapping: the
    identity that heads the list is made of ["category"], ["type"] and
    ["name"] themselves, and the identity of the values stored under
    them is not in the list at all. *)
Theorem disco_identity_from_keys `{J : Jabber} `{D : DataForms}
    (self : PubSubService.t) (requestor target : option JID)
    (d : Result (option NodeInfo)) (info : list (DiscoInfo Field)) :
  Permutation (PubSubService.discoIdentity self)
    [ ("category", "pubsub"); ("type", "generic");
      ("name", "Generic Publish-Subscribe Service") ] ->
  Backend.getNodeInfo (PubSubService.backend self) requestor target ""
  = ReturnsDeferred d ->
  PubSubService.getDiscoInfo self requestor target None = Ok info ->
  (exists category idType name_ rest,
     info = DiscoIdentity category idType (Some name_) :: rest
     /\ Permutation [category; idType; name_] ["category"; "type"; "name"])
  /\ DiscoIdentity "pubsub" "generic"
       (Some "Generic Publish-Subscribe Service") ∉ info.
Proof.
  intros Hperm Hnode. unfold PubSubService.getDiscoInfo.
  cbn [truthy_ostr negb]. rewrite Hnode.
  assert (Hkeys : Permutation (fst <$> PubSubService.discoIdentity self)
                    ["category"; "type"; "name"]).
  { by rewrite Hperm. }
  unfold PubSubService.unpack3.
  pose proof (Permutation_length Hkeys) as Hlen.
  destruct (fst <$> PubSubService.discoIdentity self)
    as [|k1 [|k2 [|k3 [|]]]]; try discriminate.
  cbn [mbind Result_bind app].
  set (features := _ <$> PubSubService.pubSubFeatures self).
  assert (Hk1 : k1 ∈ ["category"; "type"; "name"]).
  { rewrite <- Hkeys. apply list_elem_of_here. }
  assert (Hne : k1 <> "pubsub").
  { intros ->. rewrite !elem_of_cons in Hk1.
    destruct Hk1 as [? | [? | [? | Hk1]]]; try discriminate.
    by apply elem_of_nil in Hk1. }
  set (base := DiscoIdentity k1 k2 (Some k3)
               :: DiscoFeature NS_DISCO_ITEMS :: features).
  assert (Hbase : DiscoIdentity (Field:=Field) "pubsub" "generic"
                    (Some "Generic Publish-Subscribe Service") ∉ base).
  { unfold base. rewrite !not_elem_of_cons. repeat split; try congruence.
    unfold features. rewrite list_elem_of_fmap. by intros (? & ? & _). }
  assert (Hshape : forall extra,
            (forall c t n, DiscoIdentity (Field:=Field) c t (Some n) ∉ extra) ->
            (exists category idType name_ rest,
               (base ++ extra)%list
               = DiscoIdentity category idType (Some name_) :: rest
               /\ Permutation [category; idType; name_]
                     ["category"; "type"; "name"])
            /\ DiscoIdentity "pubsub" "generic"
                 (Some "Generic Publish-Subscribe Service")
               ∉ (base ++ extra)%list).
  { intros extra Hextra. split.
    - exists k1, k2, k3. eexists. split; [reflexivity | exact Hkeys].
    - rewrite not_elem_of_app. split; [exact Hbase | apply Hextra]. }
  destruct d as [nodeInfo|e]; intros [= <-].
  - destruct (toInfo_appends base nodeInfo) as (extra & -> & Hextra).
    by apply Hshape.
  - rewrite <- (app_nil_r base). apply Hshape. intros c t n.
    apply not_elem_of_nil.
Qed.

Lemma disco_identity_from_keys_witness :
  DiscoIdentity "pubsub" "generic" (Some "Generic Publish-Subscribe Service")
  ∉ [ DiscoIdentity (Field:=Field (DataForms:=Examples.xData))
        "category" "type" (Some "name");
      DiscoFeature NS_DISCO_ITEMS ].
Proof.
  apply (disco_identity_from_keys (J:=Examples.textJabber)
           (D:=Examples.xData) (PubSubService.init Examples.quietBackend)
           None None (Ok None)).
  - reflexivity.
  - reflexivity.
  - vm_compute; reflexivity.
Defined.

(** ** Notifications *)

Lemma elementsOf_Child (l : list Element) : elementsOf (Child <$> l) = l.
Proof. induction l as [|e l IH]; [done|]. cbn. f_equal. exact IH. Qed.

Lemma collectionHeaders_differing `{J : Jabber} (nodeIdentifier_ : string)
    (subscriptions_ : option (list (Subscription.t JID))) :
  PubSubService.collectionHeaders nodeIdentifier_ subscriptions_
  = (fun s : Subscription.t JID =>
       ("Collection", Subscription.nodeIdentifier s))
    <$> differing nodeIdentifier_ subscriptions_.
Proof.
  unfold PubSubService.collectionHeaders, differing.
  assert (Hgen : forall l acc,
            fold_left
              (fun headers subscription =>
                 if negb (bool_decide
                            (Some nodeIdentifier_
                             = Subscription.nodeIdentifier subscription))
                 then (headers
                       ++ [("Collection",
                            Subscription.nodeIdentifier subscription)])%list
                 else headers) l acc
            = (acc ++ ((fun s : Subscription.t JID =>
                          ("Collection", Subscription.nodeIdentifier s))
                       <$> List.filter
                             (fun subscription =>
                                negb (bool_decide
                                        (Some nodeIdentifier_
                                         = Subscription.nodeIdentifier
                                             subscription))) l))%list).
  { induction l as [|s l IH]; intros acc; simpl; [by rewrite app_nil_r|].
    rewrite IH. destruct (negb _); [|done].
    by rewrite <- app_assoc. }
  destruct subscriptions_ as [[|s l]|]; try reflexivity.
  cbn [truthy_olist default]. by rewrite Hgen.
Qed.

Lemma headerEntries_Headers (headers : list (string * option string)) :
  headerEntries (Headers headers)
  = (fun nv => (Some (fst nv), snd nv)) <$> headers.
Proof.
  unfold headerEntries, Headers, elements. cbn [children].
  induction headers as [|[n v] headers IH]; [reflexivity|].
  cbn [fmap list_fmap elementsOf]. cbn [fmap] in IH. rewrite IH.
  f_equal. unfold getAttribute. cbn [attributes children fst snd].
  rewrite lookup_singleton_eq. by destruct v.
Qed.

Lemma headerEntries_Collection {JID : Type} (l : list (Subscription.t JID)) :
  headerEntries
    (Headers ((fun s : Subscription.t JID =>
                 ("Collection", Subscription.nodeIdentifier s)) <$> l))
  = (fun s : Subscription.t JID =>
       (Some "Collection", Subscription.nodeIdentifier s)) <$> l.
Proof.
  rewrite headerEntries_Headers, <- list_fmap_compose. reflexivity.
Qed.

(** The message of one notification: the event, then the headers
    element if there are headers. *)
Lemma notification_children `{J : Jabber} (service subscriber_ : JID)
    (nodeIdentifier_ : string)
    (subscriptions_ : option (list (Subscription.t JID)))
    (items_ : list Element) :
  exists event,
    uri event = Some NS_PUBSUB_EVENT
    /\ elements
         (PubSubService.setEventItems
            (PubSubService._createNotification "items" service nodeIdentifier_
               subscriber_ subscriptions_) items_)
       = event
         :: match PubSubService.collectionHeaders nodeIdentifier_
                    subscriptions_ with
            | [] => []
            | headers => [Headers headers]
            end.
Proof.
  unfold PubSubService._createNotification.
  destruct (PubSubService.collectionHeaders nodeIdentifier_ subscriptions_)
    as [|h hs]; eexists; (split; [|reflexivity]); reflexivity.
Qed.

(** C6.  [notifyPublish] ships one message per (subscriber,
    subscriptions, items) triple, after what the stream already holds.
    The message of a triple has no SHIM [headers] element when none of
    its subscriptions is for another node than the event's (in
    particular when it has no subscriptions); otherwise it has exactly
    one, whose entries are one [Collection] header per such
    subscription, in order, each with that subscription's node
    identifier as its value. *)
Theorem collection_headers `{J : Jabber} (service : JID)
    (nodeIdentifier_ : string)
    (notifications :
       list (JID * option (list (Subscription.t JID)) * list Element))
    (xs : XmlStream) :
  exists messages,
    PubSubService.notifyPublish service nodeIdentifier_ notifications xs
    = (xs ++ messages)%list
    /\ Forall2
         (fun notification message =>
            match differing nodeIdentifier_ (snd (fst notification)) with
            | [] => shimHeaders message = []
            | others =>
                exists headers,
                  shimHeaders message = [headers]
                  /\ headerEntries headers
                     = (fun s : Subscription.t JID =>
                          (Some "Collection", Subscription.nodeIdentifier s))
                       <$> others
            end)
         notifications messages.
Proof.
  revert xs. induction notifications as [|[[subscriber_ subscriptions_] items_] r IH];
    intros xs.
  - exists []. split; [by rewrite app_nil_r | constructor].
  - cbn [PubSubService.notifyPublish].
    destruct (IH (xs ++ [PubSubService.setEventItems
                           (PubSubService._createNotification "items" service
                              nodeIdentifier_ subscriber_ subscriptions_)
                           items_])%list) as (messages & -> & Hall).
    eexists (_ :: messages). split; [by rewrite <- app_assoc|].
    constructor; [|exact Hall]. cbn [fst snd].
    destruct (notification_children service subscriber_ nodeIdentifier_
                subscriptions_ items_) as (event & Hu & Hel).
    rewrite collectionHeaders_differing in Hel.
    assert (Hev : bool_decide (Some NS_PUBSUB_EVENT = Some NS_SHIM) = false)
      by reflexivity.
    unfold shimHeaders. rewrite Hel.
    destruct (differing nodeIdentifier_ subscriptions_) as [|s others];
      cbn [fmap list_fmap List.filter]; rewrite Hu, Hev; cbn [andb];
      [reflexivity|].
    eexists. split; [reflexivity|].
    exact (headerEntries_Collection (s :: others)).
Qed.

(** ** Printing and reading integers *)

Lemma lstrip_no_space c s : is_space c = false -> lstrip (String c s) = String c s.
Proof. intros Hc. simpl. by rewrite Hc. Qed.

Lemma rstrip_no_space s : noSpace s = true -> rstrip s = s.
Proof.
  induction s as [|c r IH]; [done|]. cbn [noSpace rstrip].
  intros [Hc Hr]%andb_true_iff. rewrite (IH Hr).
  destruct r; [|done]. apply negb_true_iff in Hc. by rewrite Hc.
Qed.

Lemma noSpace_digits d : noSpace (NilEmpty.string_of_uint d) = true.
Proof. induction d; simpl; auto. Qed.

Lemma strip_no_space s : noSpace s = true -> strip s = s.
Proof.
  intros Hs. unfold strip. destruct s as [|c r]; [done|].
  cbn [noSpace] in Hs. apply andb_true_iff in Hs as Hs'.
  destruct Hs' as [Hc _]. apply negb_true_iff in Hc.
  rewrite (lstrip_no_space _ _ Hc). by apply rstrip_no_space.
Qed.

(** [int(unicode(n)) == n] *)
Lemma int_unicode (n : Z) : int (unicode n) = Ok n.
Proof.
  unfold int, unicode. rewrite strip_no_space.
  - destruct n as [|p|p]; [reflexivity| |].
    + cbn [Z.to_int NilZero.string_of_int]. unfold digits.
      pose proof (DecimalPos.Unsigned.to_uint_nonnil p) as Hnil.
      pose proof (NilZero.usu _ Hnil) as Husu.
      pose proof (DecimalZ.of_to (Z.pos p)) as Hz. cbn [Z.to_int Z.of_int] in Hz.
      destruct (NilZero.string_of_uint (Pos.to_uint p)) as [|c r] eqn:Hs.
      { by destruct (Pos.to_uint p). }
      assert (Hc : c <> "+"%char /\ c <> "-"%char).
      { destruct (Pos.to_uint p); simplify_eq/=; split; discriminate. }
      destruct Hc as [Hplus Hminus].
      assert (Hgoal : (match String c r with
                       | String "+" r0 => digits r0
                       | String "-" r0 => Z.opp <$> digits r0
                       | t => digits t
                       end) = digits (String c r)).
      { destruct c as [[|] [|] [|] [|] [|] [|] [|] [|]]; try reflexivity;
          congruence. }
      unfold digits in Hgoal. rewrite Hgoal, Husu. cbn [fmap option_fmap option_map Z.of_int].
      by rewrite Hz.
    + cbn [Z.to_int NilZero.string_of_int]. unfold digits.
      pose proof (DecimalPos.Unsigned.to_uint_nonnil p) as Hnil.
      rewrite (NilZero.usu _ Hnil).
      pose proof (DecimalZ.of_to (Z.neg p)) as Hz. cbn [Z.to_int Z.of_int] in Hz.
      cbn [fmap option_fmap option_map Z.of_int]. by rewrite Hz.
  - destruct n as [|p|p]; [reflexivity| |];
      cbn [Z.to_int NilZero.string_of_int]; unfold NilZero.string_of_uint.
    + destruct (Pos.to_uint p) eqn:Hp; try apply (noSpace_digits (Pos.to_uint p));
        try (rewrite <- Hp; apply noSpace_digits). reflexivity.
    + cbn [noSpace]. destruct (Pos.to_uint p) eqn:Hp; try reflexivity;
        rewrite <- Hp; apply (noSpace_digits (Pos.to_uint p)).
Qed.

(** ** The round trip of a request *)

Lemma render_stanza `{J : Jabber} (r : PubSubRequest) verb_ t u n
    parameters verbElement :
  verb r = Some verb_ ->
  dict_get _verbRequestMap verb_ = Some (t, u, n) ->
  dict_get _parameters verb_ = Some parameters ->
  renderParameters parameters (set_stanzaType (Some t) r)
    (newElement (Some u) n) = Ok verbElement ->
  render r
  = Ok (set_stanzaType (Some t) r,
        stanza t (sender r) (recipient r) u verbElement).
Proof.
  intros Hv Hk Hp Hr. unfold render. rewrite Hv. cbn [mbind option_bind].
  rewrite Hk. cbn [verb set_stanzaType]. rewrite Hv. cbn [mbind option_bind].
  rewrite Hp. cbn [uri newElement]. rewrite Hr. cbn [mbind Result_bind].
  cbn [sender recipient set_stanzaType]. unfold stanza, stanzaAttributes.
  by destruct (sender r), (recipient r).
Qed.

Lemma parse_stanza `{J : Jabber} `{D : DataForms} t sender_ recipient_ u
    verbElement verb_ parameters :
  (forall j, internJID (full j) = Some j) ->
  lookupVerb (Some t) verbElement = Some verb_ ->
  verb_ <> "" ->
  dict_get _parameters verb_ = Some parameters ->
  fromElement (stanza t sender_ recipient_ u verbElement)
  = parseParameters parameters verbElement
      (mkRequest (Some t) sender_ recipient_ (Some verb_) None None None None
                 None None None None None None).
Proof.
  intros Hjid Hv Hne Hp. unfold fromElement, parseElement, Stanza_parseElement.
  unfold stanza at 1 2 3, getAttribute, stanzaAttributes. cbn [attributes].
  assert (Hparsed :
    forall a : gmap string string,
      a !! "from" = full <$> sender_ -> a !! "to" = full <$> recipient_ ->
      a !! "type" = Some t ->
      (match a !! "from" with
       | Some a0 => match internJID a0 with
                    | Some j => Ok (set_sender (Some j) (PubSubRequest_init None))
                    | None => Raise InvalidFormat
                    end
       | None => Ok (PubSubRequest_init None)
       end ≫= fun self =>
       match a !! "to" with
       | Some a0 => match internJID a0 with
                    | Some j => Ok (set_recipient (Some j) self)
                    | None => Raise InvalidFormat
                    end
       | None => Ok self
       end ≫= fun self => Ok (set_stanzaType (a !! "type") self))
      = Ok (mkRequest (Some t) sender_ recipient_ None None None None None
                      None None None None None None)).
  { intros a -> -> ->.
    destruct sender_ as [j|], recipient_ as [k|]; cbn [fmap option_fmap option_map];
      rewrite ?Hjid; reflexivity. }
  rewrite Hparsed; cycle 1.
  { destruct sender_, recipient_; cbn [fmap option_fmap option_map];
      rewrite ?lookup_insert_eq, ?lookup_insert_ne, ?lookup_insert_eq,
        ?lookup_empty by done; try done;
      rewrite ?lookup_insert_ne, ?lookup_insert_eq, ?lookup_empty by done; done. }
  { destruct sender_, recipient_; cbn [fmap option_fmap option_map];
      rewrite ?lookup_insert_eq, ?lookup_insert_ne, ?lookup_empty by done; done. }
  { destruct sender_, recipient_;
      rewrite ?lookup_insert_ne, ?lookup_insert_eq by done; done. }
  cbn [mbind Result_bind]. unfold childNamed, elements, stanza.
  cbn [children elementsOf List.find name stanzaType].
  rewrite (bool_decide_eq_true_2 ("pubsub" = "pubsub")) by done.
  cbn [children elementsOf resolveVerb]. rewrite Hv.
  cbn [verb set_verb truthy_ostr]. unfold truthy_str.
  rewrite (bool_decide_eq_false_2 (verb_ = "")) by done. cbn [negb].
  rewrite Hp. reflexivity.
Qed.

Lemma truthy_str_true (s : string) : s <> "" -> truthy_str s = true.
Proof. intros Hs. unfold truthy_str. by rewrite bool_decide_eq_false_2. Qed.

Lemma fold_addChild (l : list Element) u n a cs :
  fold_left addChild l (mkElement u n a cs)
  = mkElement u n a (cs ++ (Child <$> l)).
Proof.
  revert cs. induction l as [|e l IH]; intros cs; cbn [fold_left addChild].
  - by rewrite app_nil_r.
  - rewrite IH, <- app_assoc. reflexivity.
Qed.

Lemma fold_addItemIdentifier (l : list string) u n a cs :
  fold_left addItemIdentifier l (mkElement u n a cs)
  = mkElement u n a (cs ++ (Child <$> (itemWithId u <$> l))).
Proof.
  revert cs. induction l as [|i l IH]; intros cs; cbn [fold_left].
  - by rewrite app_nil_r.
  - unfold addItemIdentifier at 2. cbn [addChild uri setAttribute newElement].
    rewrite IH, <- app_assoc. reflexivity.
Qed.

Lemma filter_all {A : Type} (p : A -> bool) (l : list A) :
  Forall (fun x => p x = true) l -> List.filter p l = l.
Proof.
  induction 1 as [|x l Hx _ IH]; cbn [List.filter]; [done|].
  by rewrite Hx, IH.
Qed.

Lemma collectItemIdentifiers_rendered `{J : Jabber} `{D : DataForms}
    (l acc : list string) :
  collectItemIdentifiers (itemWithId (Some NS_PUBSUB) <$> l) acc
  = Ok (acc ++ l)%list.
Proof.
  revert acc. induction l as [|i l IH]; intros acc.
  - by rewrite app_nil_r.
  - cbn [fmap list_fmap collectItemIdentifiers]. cbn [fmap] in IH.
    assert (Hitem : isPubSubItem (itemWithId (Some NS_PUBSUB) i) = true)
      by reflexivity.
    rewrite Hitem. unfold getitem, itemWithId at 1. cbn [attributes].
    rewrite lookup_insert_eq, IH, <- app_assoc. reflexivity.
Qed.

Lemma truthy_str_empty : truthy_str "" = false.
Proof. reflexivity. Qed.

Lemma unicode_nonempty (n : Z) : unicode n <> "".
Proof.
  intros Hempty. pose proof (int_unicode n) as Hint.
  rewrite Hempty in Hint. discriminate Hint.
Qed.

(** Decide which fields the parameters of a verb leave unused. *)
Ltac use_unused H :=
  first [ specialize (H eq_refl); subst | clear H ].

(** One step of running the renderers or the parsers on a request. *)
Ltac codec_step :=
  first
    [ progress cbn [renderParameters parseParameters _render_ _parse_ mbind
                    Result_bind attributes children uri name setAttribute
                    newElement nodeIdentifier items itemIdentifiers maxItems
                    subscriber set_stanzaType set_nodeIdentifier set_items
                    set_itemIdentifiers set_maxItems set_subscriber negb app]
    | progress unfold _render_node, _render_nodeOrEmpty, _render_nodeOrNone,
        _render_items, _render_jid, _render_itemIdentifiers, _render_maxItems,
        _parse_node, _parse_nodeOrEmpty, _parse_nodeOrNone, _parse_items,
        _parse_jid, _parse_itemIdentifiers, _parse_maxItems, getitem,
        getAttribute, getAttributeDefault, elements
    | rewrite fold_addChild
    | rewrite fold_addItemIdentifier
    | rewrite lookup_insert_eq
    | rewrite lookup_insert_ne by done
    | rewrite lookup_empty
    | rewrite elementsOf_Child
    | rewrite filter_all by assumption
    | rewrite collectItemIdentifiers_rendered
    | rewrite int_unicode
    | rewrite truthy_str_empty
    | rewrite truthy_str_true by assumption
    | rewrite truthy_str_true by apply unicode_nonempty
    | match goal with
      | Hjid : forall j, internJID (full j) = Some j |- _ => rewrite Hjid
      | Hm : (0 < ?m)%Z |- context [(?m =? 0)%Z] =>
          rewrite (proj2 (Z.eqb_neq m 0)) by lia
      end ].

(** The round trip for the request in the goal, once its fields are
    known as far as the renderers look at them. *)
Ltac round_trip verb_ Hp :=
  unfold roundTrips;
  lazymatch type of Hp with
  | _ = Some ?ps =>
      lazymatch eval vm_compute in (dict_get _verbRequestMap verb_) with
      | Some (?t, ?u, ?n) =>
          exists t; eexists; split;
          [ eapply (render_stanza _ verb_ t u n ps);
            [ reflexivity | vm_compute; reflexivity | exact Hp
            | repeat codec_step; reflexivity ]
          | cbn [sender recipient set_stanzaType];
            rewrite (parse_stanza t _ _ u _ verb_ ps);
            [ repeat codec_step; reflexivity
            | assumption
            | vm_compute; reflexivity
            | discriminate
            | exact Hp ] ]
      end
  end.

(** A valid [default] request is not rendered at all: [send] stops at
    the missing [_render_default]. *)
Lemma default_request_not_rendered :
  let r := set_nodeType (J:=Examples.textJabber) (Some (Scalar "leaf"))
             (PubSubRequest_init (Some "default")) in
  valid_request r
  /\ render r = Raise (AttributeError "_render_default")
  /\ ~ roundTrips (D:=Examples.xData) r.
Proof.
  cbv zeta. split; [|split].
  - exists "default", ["default"]. split; [reflexivity|].
    split; [vm_compute; reflexivity|]. split.
    + constructor; [left; reflexivity | constructor].
    + repeat split; try reflexivity; intros Hf; vm_compute in Hf;
        discriminate Hf.
  - vm_compute; reflexivity.
  - intros (t & iq & Hr & _). vm_compute in Hr. discriminate Hr.
Qed.

(** Where the renderers exist the round trip holds.  Provided printing
    an address and interning it again gives the address back, every
    valid request whose verb is not [optionsSet], [default] or
    [configureSet] (the three verbs with a parameter that has no
    renderer) makes the round trip: [send] renders it into a stanza,
    leaving the request with the IQ type of its verb, and a fresh
    request parsed from that stanza is equal to it. *)
Theorem request_round_trip `{J : Jabber} `{D : DataForms} (r : PubSubRequest) :
  (forall j, internJID (full j) = Some j) ->
  valid_request r ->
  verb r <> Some "optionsSet" ->
  verb r <> Some "default" ->
  verb r <> Some "configureSet" ->
  roundTrips r.
Proof.
  intros Hjid (verb_ & parameters & Hv & Hp & Hvalid & Hunused) H1 H2 H3.
  destruct r as [st sd rc vb af it ii mx nd nt op sb si ss].
  cbn [verb] in Hv, H1, H2, H3. subst vb.
  unfold unusedAbsent in Hunused.
  cbn [nodeIdentifier items itemIdentifiers maxItems nodeType options
       subscriber affiliations subscriptionIdentifier subscriptions]
    in Hunused.
  destruct Hunused as (Und & Uit & Uii & Umx & Unt & Uop & Usb & -> & -> & ->).
  pose proof Hp as Hp'.
  table_cases Hp'; try congruence; clear H1 H2 H3.
  all: use_unused Und; use_unused Uit; use_unused Uii; use_unused Umx;
       use_unused Unt; use_unused Uop; use_unused Usb.
  all: repeat match goal with
       | H : Forall _ (_ :: _) |- _ => apply Forall_cons in H as [? H]
       | H : Forall _ [] |- _ => clear H
       end.
  all: unfold validParameter in *;
       cbn [nodeIdentifier items itemIdentifiers maxItems subscriber] in *.
  all: repeat match goal with
       | H : exists _, _ |- _ => destruct H
       | H : _ /\ _ |- _ => destruct H
       | H : is_Some _ |- _ => destruct H
       end; subst.
  all: try match goal with
       | H : forall n, ?mx = Some n -> _ |- _ =>
           destruct mx as [m|]; [specialize (H m eq_refl)|clear H]
       end.
  all: try match goal with
       | H : ?nd <> Some "" |- _ =>
           destruct nd as [n|]; [assert (n <> "") by congruence|]; clear H
       end.
  all: try match goal with
       | |- roundTrips (mkRequest _ _ _ _ _ _ _ _ (Some ?n) _ _ _ _ _) =>
           lazymatch goal with
           | _ : n <> "" |- _ => idtac
           | _ => destruct (decide (n = "")) as [-> | ?]
           end
       end.
  all: match goal with
       | |- roundTrips (mkRequest _ _ _ (Some ?v) _ _ _ _ _ _ _ _ _ _) =>
           round_trip v Hp
       end.
Qed.

Lemma request_round_trip_witness :
  roundTrips (D:=Examples.xData)
    (mkRequest (J:=Examples.textJabber) None (Some "user@example/home") (Some "pubsub.example")
       (Some "items") None None (Some ["a"; "b"]) (Some 10%Z) (Some "news")
       None None None None None).
Proof.
  apply (request_round_trip (J:=Examples.textJabber) (D:=Examples.xData)).
  - intros j; reflexivity.
  - exists "items", ["node"; "maxItems"; "itemIdentifiers"].
    split; [reflexivity|]. split; [vm_compute; reflexivity|]. split.
    + repeat constructor.
      * exists "news". split; [reflexivity | discriminate].
      * intros n [= <-]. reflexivity.
      * exists ["a"; "b"]. reflexivity.
    + repeat split; try reflexivity; intros Hf; vm_compute in Hf;
        discriminate Hf.
  - discriminate.
  - discriminate.
  - discriminate.
Defined.

(** A value the renderers take for an absent one does not come back: a
    [create] request with the empty node identifier is rendered without
    [node], and parsed back with no node identifier. *)
Lemma create_empty_identifier_not_round_tripped :
  let r := set_nodeIdentifier (J:=Examples.textJabber) (Some "")
             (PubSubRequest_init (Some "create")) in
  (exists iq r',
     render r = Ok (set_stanzaType (Some "set") r, iq)
     /\ fromElement (D:=Examples.xData) iq = Ok r'
     /\ nodeIdentifier (J:=Examples.textJabber) r' = None)
  /\ ~ roundTrips (D:=Examples.xData) r.
Proof.
  cbv zeta. split.
  - eexists _, _. split; [vm_compute; reflexivity|].
    split; [vm_compute; reflexivity | reflexivity].
  - intros (t & iq & Hr & Hf). vm_compute in Hr.
    injection Hr as <- <-. vm_compute in Hf. discriminate Hf.
Qed.

(** C1.  The round trip fails for the verbs of the parameter table that
    have a parameter without a renderer, which are [default],
    [configureSet] and [optionsSet]: whatever the fields of the request,
    [send] raises an [AttributeError] and writes nothing to the stream,
    so there is no stanza to parse back, although [parseElement] has a
    parser for each of these parameters. *)
Theorem send_fails_without_renderer `{J : Jabber} `{D : DataForms}
    (r : PubSubRequest) (xs : XmlStream) (verb_ : string)
    (parameters : list string) :
  verb r = Some verb_ ->
  dict_get _parameters verb_ = Some parameters ->
  hasParameter ["default"; "configure"; "options"] parameters = true ->
  In verb_ ["default"; "configureSet"; "optionsSet"]
  /\ (forall parameter,
        In parameter ["default"; "configure"; "options"] ->
        (exists handler, _parse_ parameter = Ok handler)
        /\ _render_ parameter
           = Raise (AttributeError ("_render_" +:+ parameter)))
  /\ (exists attribute, send r xs = (xs, Raise (AttributeError attribute)))
  /\ ~ roundTrips r.
Proof.
  intros Hv Hp Hh.
  assert (Hr : In verb_ ["default"; "configureSet"; "optionsSet"]
               /\ exists attribute, render r = Raise (AttributeError attribute)).
  { destruct r as [st sd rc vb af it ii mx nd nt op sb si ss].
    cbn [verb] in Hv. subst vb.
    table_cases Hp; try (vm_compute in Hh; discriminate Hh);
      (split; [cbn [In]; tauto|]);
      destruct nd as [[|c n]|], sb as [j|]; vm_compute; eexists; reflexivity. }
  destruct Hr as [Hin [attribute Hr]].
  split; [exact Hin|]. split; [|split].
  - intros parameter Hparameter. cbn [In] in Hparameter.
    repeat (destruct Hparameter as [<- | Hparameter]); try contradiction;
      (split; [eexists|]; reflexivity).
  - exists attribute. unfold send. by rewrite Hr.
  - intros (t & iq & Hok & _). rewrite Hr in Hok. discriminate Hok.
Qed.

Lemma send_fails_without_renderer_witness :
  let r := set_nodeType (J:=Examples.textJabber) (Some (Scalar "leaf"))
             (PubSubRequest_init (Some "default")) in
  (exists attribute, send r [] = ([], Raise (AttributeError attribute)))
  /\ ~ roundTrips (D:=Examples.xData) r.
Proof.
  cbv zeta.
  refine (proj2 (proj2 (send_fails_without_renderer (J:=Examples.textJabber)
                          (D:=Examples.xData) _ [] "default" ["default"]
                          _ _ _))).
  - reflexivity.
  - vm_compute; reflexivity.
  - reflexivity.
Defined.

(** The stanza of a [default] request is parsed, and the request the
    parser returns is one [send] cannot render. *)
Example parsed_default_request_not_sent :
  exists r,
    fromElement (J:=Examples.textJabber) (D:=Examples.xData)
      (MoreExamples.defaultRequest "leaf") = Ok r
    /\ verb (J:=Examples.textJabber) r = Some "default"
    /\ nodeType r = Some (Scalar "leaf")
    /\ send r [] = ([], Raise (AttributeError "_render_default")).
Proof.
  eexists. split; [vm_compute; reflexivity|].
  split; [reflexivity|]. split; [reflexivity | vm_compute; reflexivity].
Qed.

(** The stanza of the request above, and a notification to a subscriber
    of a collection. *)
Example render_items_request :
  snd <$> (match render
                   (mkRequest (J:=Examples.textJabber) None None (Some "pubsub.example") (Some "items")
                      None None (Some ["a"]) (Some 10%Z) (Some "news")
                      None None None None None) with
           | Ok out => Some out
           | Raise _ => None
           end)
  = Some (mkElement None "iq"
            (<[ "type" := "get" ]> {[ "to" := "pubsub.example" ]})
            [Child (mkElement (Some NS_PUBSUB) "pubsub" ∅
               [Child (mkElement (Some NS_PUBSUB) "items"
                         (<[ "node" := "news" ]> {[ "max_items" := "10" ]})
                         [Child (mkElement (Some NS_PUBSUB) "item"
                                   {[ "id" := "a" ]} [])])])]).
Proof. vm_compute. reflexivity. Qed.

Example notify_collection_subscriber :
  PubSubService.notifyPublish (J:=Examples.textJabber) "pubsub.example" "news"
    [ ("alice@example",
       Some [ Subscription.mk (Some "news") "alice@example" "subscribed" ∅;
              Subscription.mk (Some "all") "alice@example" "subscribed" ∅ ],
       [ Item (Some "1") None ]) ] []
  = [ mkElement None "message"
        (<[ "from" := "pubsub.example" ]> {[ "to" := "alice@example" ]})
        [ Child (mkElement (Some NS_PUBSUB_EVENT) "event" ∅
            [Child (mkElement (Some NS_PUBSUB_EVENT) "items"
                      {[ "node" := "news" ]}
                      [Child (mkElement (Some NS_PUBSUB) "item"
                                {[ "id" := "1" ]} [])])]);
          Child (mkElement (Some NS_SHIM) "headers" ∅
            [Child (mkElement (Some NS_SHIM) "header"
                      {[ "name" := "Collection" ]} [Text "all"])]) ] ].
Proof. vm_compute. reflexivity. Qed.

(* ================================================================== *)
(** * Further properties *)

(** ** Parsing *)

(** X1.  For a verb whose parameters are [nodeOrEmpty] then [jid]
    (subscribe, unsubscribe, optionsGet, optionsSet), an inbound IQ
    whose verb element has no [jid] attribute is refused with
    [BadRequest('jid-required')], whether it names a node or not, and
    the service handler calls no backend operation. *)
Theorem jid_required_on_parse `{J : Jabber} `{D : DataForms}
    (iq pubsub child : Element) (verb_ : string) (parameters : list string) :
  wellAddressed iq ->
  childNamed iq "pubsub" = Some pubsub ->
  resolveVerb (getAttribute iq "type") (elements pubsub) = Some (verb_, child) ->
  dict_get _parameters verb_ = Some ("nodeOrEmpty" :: "jid" :: parameters) ->
  getAttribute child "jid" = None ->
  fromElement iq = Raise (BadRequest (Some "jid-required") None)
  /\ forall self,
       PubSubService._onPubSubRequest self iq
       = ([], Raise (BadRequest (Some "jid-required") None)).
Proof.
  intros Hw Hp Hv Hps Hn.
  assert (Hparse : fromElement iq
                   = Raise (BadRequest (Some "jid-required") None)).
  { unfold fromElement, parseElement.
    destruct (Stanza_parseElement_ok iq (PubSubRequest_init None) Hw)
      as (r & -> & Ht & _).
    cbn [mbind Result_bind]. rewrite Hp, Ht, Hv.
    assert (Htrue : truthy_str verb_ = true).
    { pose proof Hps as Hps'. table_cases Hps'; reflexivity. }
    cbn [verb set_verb truthy_ostr]. rewrite Htrue. cbn [negb].
    rewrite Hps. cbn [parseParameters _parse_ mbind Result_bind].
    unfold _parse_nodeOrEmpty. cbn [mbind Result_bind].
    unfold _parse_jid, getitem. unfold getAttribute in Hn. by rewrite Hn. }
  split; [exact Hparse|]. intros self.
  unfold PubSubService._onPubSubRequest. by rewrite Hparse.
Qed.

Lemma jid_required_on_parse_witness :
  fromElement (J:=Examples.textJabber) (D:=Examples.xData)
    MoreExamples.subscribeNoJid
  = Raise (BadRequest (Some "jid-required") None).
Proof.
  refine (proj1 (jid_required_on_parse (J:=Examples.textJabber)
                   (D:=Examples.xData) MoreExamples.subscribeNoJid
                   (mkElement (Some NS_PUBSUB) "pubsub" ∅
                      [Child (mkElement (Some NS_PUBSUB) "subscribe"
                                {[ "node" := "news" ]} [])])
                   (mkElement (Some NS_PUBSUB) "subscribe"
                      {[ "node" := "news" ]} [])
                   "subscribe" [] _ _ _ _ _)).
  - split; intros a _; exists a; reflexivity.
  - vm_compute; reflexivity.
  - vm_compute; reflexivity.
  - vm_compute; reflexivity.
  - vm_compute; reflexivity.
Defined.

(** ** What a parsed request looks like *)

Lemma Stanza_parseElement_fields `{J : Jabber} iq self r :
  Stanza_parseElement iq self = Ok r ->
  verb r = verb self /\ stanzaType r = getAttribute iq "type".
Proof.
  unfold Stanza_parseElement. intros Hr.
  repeat match type of Hr with
         | context [match ?x with _ => _ end] => destruct x
         end; simplify_eq/=; done.
Qed.

Lemma resolveVerb_Some `{J : Jabber} stanzaType_ l verb_ child :
  resolveVerb stanzaType_ l = Some (verb_, child) ->
  lookupVerb stanzaType_ child = Some verb_ /\ In child l.
Proof.
  induction l as [|c l IH]; [done|]. cbn [resolveVerb].
  destruct (lookupVerb stanzaType_ c) as [v|] eqn:Hc.
  - intros [= <- <-]. split; [done | by left].
  - intros Hl. destruct (IH Hl). split; [done | by right].
Qed.

(** No parser of a parameter touches the verb or the IQ type. *)
Lemma _parse_keeps_verb `{J : Jabber} `{D : DataForms} parameter handler
    child self self' :
  In parameter parsedParameters ->
  _parse_ parameter = Ok handler ->
  handler child self = Ok self' ->
  verb self' = verb self /\ stanzaType self' = stanzaType self.
Proof.
  intros Hin. unfold parsedParameters in Hin. cbn [In] in Hin.
  repeat (destruct Hin as [<- | Hin]); try contradiction;
    intros [= <-]; intros Hh;
    [ unfold _parse_node, getitem in Hh
    | unfold _parse_nodeOrEmpty in Hh
    | unfold _parse_nodeOrNone in Hh
    | unfold _parse_items in Hh
    | unfold _parse_jid, getitem in Hh
    | unfold _parse_default in Hh
    | unfold _parse_configure in Hh
    | unfold _parse_itemIdentifiers in Hh
    | unfold _parse_maxItems in Hh
    | unfold _parse_options in Hh ];
    repeat match type of Hh with
           | context [match ?x with _ => _ end] => destruct x
           end; simplify_eq/=; try done.
  destruct (collectItemIdentifiers (elements child) []); simplify_eq/=; done.
Qed.

Lemma parseParameters_keeps_verb `{J : Jabber} `{D : DataForms} parameters
    child self self' :
  Forall (fun p => In p parsedParameters) parameters ->
  parseParameters parameters child self = Ok self' ->
  verb self' = verb self /\ stanzaType self' = stanzaType self.
Proof.
  intros Hall. revert self. induction Hall as [|p ps Hp _ IH]; intros self.
  - intros [= <-]. done.
  - cbn [parseParameters]. destruct (_parse_ p) as [handler|e] eqn:Hh; [|done].
    cbn [mbind Result_bind].
    destruct (handler child self) as [self1|e] eqn:H1; [|done].
    cbn [mbind Result_bind]. intros Hrest.
    destruct (IH _ Hrest) as [Hv Ht].
    destruct (_parse_keeps_verb p handler child self self1 Hp Hh H1) as [Hv1 Ht1].
    split; congruence.
Qed.

(** Every parameter of the table has a parser. *)
Lemma table_parameters_parsed `{J : Jabber} verb_ parameters :
  dict_get _parameters verb_ = Some parameters ->
  Forall (fun p => In p parsedParameters) parameters.
Proof.
  intros Hp.
  assert (Hb : forallb (fun p => existsb (String.eqb p) parsedParameters)
                 parameters = true)
    by (table_cases Hp; vm_compute; reflexivity).
  clear Hp. induction parameters as [|p ps IH]; [constructor|].
  cbn [forallb] in Hb. apply andb_prop in Hb as [Hp Hps].
  constructor; [|by apply IH].
  apply existsb_exists in Hp as (q & Hq & Heq).
  by apply String.eqb_eq in Heq as ->.
Qed.

(** The verb loop stops at the first child with a key in the table. *)
Lemma resolveVerb_first `{J : Jabber} stanzaType_ before child after verb_ :
  Forall (fun c => lookupVerb stanzaType_ c = None) before ->
  lookupVerb stanzaType_ child = Some verb_ ->
  resolveVerb stanzaType_ (before ++ child :: after)%list
  = Some (verb_, child).
Proof.
  intros Hbefore Hchild.
  induction Hbefore as [|c before Hc _ IH]; cbn [app resolveVerb].
  - by rewrite Hchild.
  - by rewrite Hc.
Qed.

(** A verb of the table is not the empty string and has parameters. *)
Lemma lookupVerb_table `{J : Jabber} stanzaType_ child verb_ :
  lookupVerb stanzaType_ child = Some verb_ ->
  truthy_str verb_ = true /\ is_Some (dict_get _parameters verb_).
Proof.
  unfold lookupVerb. destruct stanzaType_ as [t|]; [|done].
  destruct (uri child) as [u|]; [|done].
  intros Hlook. table_cases Hlook; (split; [reflexivity|]);
    vm_compute; eexists; reflexivity.
Qed.

(** X2.  The verb is that of the first child of [<pubsub>] whose triple
    is in the table.  When the children are some that are in no table,
    then a child whose triple has the verb [verb_], then any others,
    the parse is the stanza-level parse followed by the parsers of the
    parameters of [verb_], run on that child, from a request whose verb
    is [verb_]; and every request that comes out has the verb [verb_].
    The children before and after play no part. *)
Theorem first_verb_wins `{J : Jabber} `{D : DataForms}
    (iq pubsub : Element) (before after : list Element) (child : Element)
    (verb_ : string) :
  childNamed iq "pubsub" = Some pubsub ->
  elements pubsub = (before ++ child :: after)%list ->
  Forall (fun c => lookupVerb (getAttribute iq "type") c = None) before ->
  lookupVerb (getAttribute iq "type") child = Some verb_ ->
  exists parameters,
    dict_get _parameters verb_ = Some parameters
    /\ fromElement iq
       = (self ← Stanza_parseElement iq (PubSubRequest_init None);
          parseParameters parameters child (set_verb (Some verb_) self))
    /\ forall r, fromElement iq = Ok r -> verb r = Some verb_.
Proof.
  intros Hp Hchildren Hbefore Hchild.
  destruct (lookupVerb_table _ _ _ Hchild) as [Htrue [parameters Hps]].
  exists parameters. split; [exact Hps|].
  assert (Hparse :
            fromElement iq
            = (self ← Stanza_parseElement iq (PubSubRequest_init None);
               parseParameters parameters child (set_verb (Some verb_) self))).
  { unfold fromElement, parseElement.
    destruct (Stanza_parseElement iq (PubSubRequest_init None))
      as [r0|e] eqn:Hr0; [|reflexivity].
    destruct (Stanza_parseElement_fields _ _ _ Hr0) as [_ Ht].
    cbn [mbind Result_bind].
    rewrite Hp, Hchildren, Ht, (resolveVerb_first _ _ _ _ _ Hbefore Hchild).
    cbn [verb set_verb truthy_ostr]. rewrite Htrue. cbn [negb].
    by rewrite Hps. }
  split; [exact Hparse|]. intros r. rewrite Hparse.
  destruct (Stanza_parseElement iq (PubSubRequest_init None)) as [r0|e];
    [|done].
  cbn [mbind Result_bind]. intros Hr.
  by destruct (parseParameters_keeps_verb _ _ _ _
                 (table_parameters_parsed _ _ Hps) Hr) as [-> _].
Qed.

Lemma first_verb_wins_witness :
  exists parameters,
    dict_get _parameters "purge" = Some parameters
    /\ fromElement (J:=Examples.textJabber) (D:=Examples.xData)
         MoreExamples.purgeAmongOthers
       = (self ← Stanza_parseElement MoreExamples.purgeAmongOthers
                   (PubSubRequest_init None);
          parseParameters (D:=Examples.xData) parameters
            (mkElement (Some NS_PUBSUB_OWNER) "purge" {[ "node" := "news" ]} [])
            (set_verb (Some "purge") self))
    /\ forall r,
         fromElement (J:=Examples.textJabber) (D:=Examples.xData)
           MoreExamples.purgeAmongOthers = Ok r ->
         verb r = Some "purge".
Proof.
  apply (first_verb_wins (J:=Examples.textJabber) (D:=Examples.xData)
           MoreExamples.purgeAmongOthers
           (mkElement (Some NS_PUBSUB_OWNER) "pubsub" ∅
              (Child <$> [ newElement (Some NS_PUBSUB_OWNER) "frobnicate";
                           mkElement (Some NS_PUBSUB_OWNER) "purge"
                             {[ "node" := "news" ]} [];
                           newElement (Some NS_PUBSUB_OWNER) "delete" ]))
           [newElement (Some NS_PUBSUB_OWNER) "frobnicate"]
           [newElement (Some NS_PUBSUB_OWNER) "delete"]
           (mkElement (Some NS_PUBSUB_OWNER) "purge" {[ "node" := "news" ]} [])
           "purge").
  - reflexivity.
  - reflexivity.
  - repeat constructor.
  - vm_compute; reflexivity.
Defined.

(** The request that comes out of that stanza: the purge of [news]. *)
Example purge_among_others_parsed :
  fromElement (J:=Examples.textJabber) (D:=Examples.xData)
    MoreExamples.purgeAmongOthers
  = Ok (mkRequest (J:=Examples.textJabber) (Some "set")
          (Some "user@example/home") (Some "pubsub.example") (Some "purge")
          None None None None (Some "news") None None None None None).
Proof. vm_compute; reflexivity. Qed.

(** X3.  A request that parses has a verb of the table, an IQ type that
    is the one the table gives for that verb, and a handler in the
    service: dispatching a parsed request never fails for want of a
    method. *)
Theorem parsed_request_dispatches `{J : Jabber} `{D : DataForms}
    (iq : Element) (r : PubSubRequest) :
  fromElement iq = Ok r ->
  exists verb_ stanzaType_ childURI childName,
    verb r = Some verb_
    /\ stanzaType r = Some stanzaType_
    /\ dict_get _verbRequestMap verb_ = Some (stanzaType_, childURI, childName)
    /\ forall self, exists handler,
         PubSubService._on_ self (Some verb_) = Ok handler
         /\ PubSubService._onPubSubRequest self iq = handler r.
Proof.
  unfold fromElement. intros Hparse. pose proof Hparse as Hparse'.
  unfold parseElement in Hparse.
  destruct (Stanza_parseElement iq (PubSubRequest_init None))
    as [r0|e] eqn:Hr0; [|done].
  destruct (Stanza_parseElement_fields _ _ _ Hr0) as [Hv0 Ht0].
  cbn [mbind Result_bind] in Hparse.
  destruct (childNamed iq "pubsub") as [pubsub|]; [|done].
  destruct (resolveVerb (stanzaType r0) (elements pubsub))
    as [[verb_ child]|] eqn:Hres.
  - destruct (resolveVerb_Some _ _ _ _ Hres) as [Hlook _].
    unfold lookupVerb in Hlook.
    destruct (stanzaType r0) as [t|] eqn:Ht; [|done].
    destruct (uri child) as [u|]; [|done].
    cbn [verb set_verb truthy_ostr] in Hparse.
    assert (Hkeep : forall parameters,
              Forall (fun p => In p parsedParameters) parameters ->
              parseParameters parameters child (set_verb (Some verb_) r0) = Ok r ->
              verb r = Some verb_ /\ stanzaType r = Some t).
    { intros ps Hps Hpp.
      destruct (parseParameters_keeps_verb _ _ _ _ Hps Hpp) as [Hv Hty].
      cbn [verb stanzaType set_verb] in Hv, Hty. split; congruence. }
    table_cases Hlook;
      match type of Hparse with
      | context [dict_get _parameters ?v] =>
          let ps := eval vm_compute in (dict_get _parameters v) in
          change (dict_get _parameters v) with ps in Hparse
      end;
      cbv beta iota in Hparse;
      match type of Hparse with
      | (if negb (truthy_str ?v) then _ else _) = _ =>
          change (truthy_str v) with true in Hparse
      end;
      cbn [negb] in Hparse;
      (apply Hkeep in Hparse;
       [ | repeat constructor; unfold parsedParameters; cbn [In]; tauto ]);
      destruct Hparse as [Hv Hty];
      eexists _, _, _, _;
      (split; [exact Hv|]); (split; [exact Hty|]);
      (split; [vm_compute; reflexivity|]);
      intros self; eexists; (split; [reflexivity|]);
      unfold PubSubService._onPubSubRequest, fromElement;
      rewrite Hparse', Hv; reflexivity.
  - rewrite Hv0 in Hparse. done.
Qed.

Lemma parsed_request_dispatches_witness :
  exists verb_ stanzaType_ childURI childName,
    Some "publish" = Some verb_
    /\ Some "set" = Some stanzaType_
    /\ dict_get _verbRequestMap verb_ = Some (stanzaType_, childURI, childName)
    /\ forall self, exists handler,
         PubSubService._on_ (J:=Examples.textJabber) (D:=Examples.xData)
           self (Some verb_) = Ok handler
         /\ PubSubService._onPubSubRequest (D:=Examples.xData) self
              MoreExamples.publishRequest
            = handler
                (mkRequest (J:=Examples.textJabber) (Some "set")
                   (Some "user@example/home")
                   (Some "pubsub.example") (Some "publish") None
                   (Some [Item (Some "1") None]) None None (Some "news")
                   None None None None None).
Proof.
  apply (parsed_request_dispatches (J:=Examples.textJabber)
           (D:=Examples.xData) MoreExamples.publishRequest
           (mkRequest (J:=Examples.textJabber) (Some "set")
              (Some "user@example/home")
              (Some "pubsub.example") (Some "publish") None
              (Some [Item (Some "1") None]) None None (Some "news")
              None None None None None)).
  vm_compute; reflexivity.
Defined.

(** ** Item identifiers *)

Lemma collectItemIdentifiers_identifiersOf `{J : Jabber}
    (l : list Element) (acc : list string) :
  collectItemIdentifiers l acc
  = match identifiersOf l with
    | Some ids => Ok (acc ++ ids)%list
    | None => Raise (BadRequest None None)
    end.
Proof.
  revert acc. induction l as [|e l IH]; intros acc;
    cbn [collectItemIdentifiers identifiersOf].
  - by rewrite app_nil_r.
  - destruct (isPubSubItem e); [|apply IH].
    unfold getitem, getAttribute.
    destruct (attributes e !! "id") as [i|]; [|reflexivity].
    rewrite IH. destruct (identifiersOf l); cbn; [|reflexivity].
    by rewrite <- app_assoc.
Qed.

Lemma identifiersOf_None (l : list Element) :
  Exists (fun e => isPubSubItem e = true /\ getAttribute e "id" = None) l ->
  identifiersOf l = None.
Proof.
  induction 1 as [e l [He Hid] | e l _ IH]; cbn [identifiersOf].
  - by rewrite He, Hid.
  - rewrite IH. destruct (isPubSubItem e); [|done].
    by destruct (getAttribute e "id").
Qed.

Lemma identifiersOf_Some (l : list Element) :
  Forall (fun e => isPubSubItem e = true -> is_Some (getAttribute e "id")) l ->
  identifiersOf l
  = Some (omap (fun e => getAttribute e "id") (List.filter isPubSubItem l)).
Proof.
  induction 1 as [|e l He _ IH]; [done|]. cbn [identifiersOf List.filter].
  destruct (isPubSubItem e) eqn:Hitem; [|exact IH].
  destruct (He eq_refl) as [i Hi]. rewrite Hi, IH. cbn. by rewrite Hi.
Qed.

(** X4.  [_parse_itemIdentifiers] looks only at the children that are
    pubsub [item] elements.  If one of them has no [id] attribute the
    parse fails with a [BadRequest] that has neither a pubsub condition
    nor a text; otherwise the request gets their identifiers, in the
    order of the children. *)
Theorem item_identifiers_parsed `{J : Jabber}
    (verbElement : Element) (self : PubSubRequest) :
  (Exists (fun e => isPubSubItem e = true /\ getAttribute e "id" = None)
          (elements verbElement)
   -> _parse_itemIdentifiers verbElement self = Raise (BadRequest None None))
  /\ (Forall (fun e => isPubSubItem e = true -> is_Some (getAttribute e "id"))
             (elements verbElement)
      -> _parse_itemIdentifiers verbElement self
         = Ok (set_itemIdentifiers
                 (Some (omap (fun e => getAttribute e "id")
                             (List.filter isPubSubItem
                                          (elements verbElement))))
                 self)).
Proof.
  unfold _parse_itemIdentifiers. rewrite collectItemIdentifiers_identifiersOf.
  split; intros Hl.
  - by rewrite (identifiersOf_None _ Hl).
  - by rewrite (identifiersOf_Some _ Hl).
Qed.

Lemma item_identifiers_parsed_witness :
  _parse_itemIdentifiers (J:=Examples.textJabber)
    (mkElement (Some NS_PUBSUB) "retract" {[ "node" := "news" ]}
       [ Child (Item (Some "1") None);
         Child (newElement (Some NS_PUBSUB_OWNER) "item");
         Text "between";
         Child (Item (Some "2") None) ])
    (PubSubRequest_init None)
  = Ok (set_itemIdentifiers (Some ["1"; "2"]) (PubSubRequest_init None))
  /\ _parse_itemIdentifiers (J:=Examples.textJabber)
       (mkElement (Some NS_PUBSUB) "retract" {[ "node" := "news" ]}
          [ Child (Item (Some "1") None); Child (Item None None) ])
       (PubSubRequest_init None)
     = Raise (BadRequest None None).
Proof.
  split.
  - refine (eq_trans
              (proj2 (item_identifiers_parsed (J:=Examples.textJabber) _ _) _)
              _).
    + repeat constructor; intros Hitem; try discriminate Hitem;
        eexists; vm_compute; reflexivity.
    + vm_compute; reflexivity.
  - apply (proj1 (item_identifiers_parsed (J:=Examples.textJabber) _ _)).
    right. left. split; vm_compute; reflexivity.
Defined.

(** ** Forms *)


(** The form types as the error text shows them. *)
Example form_types_printed :
  repr (Some "result") = "u'result'"
  /\ repr (Some "it's") = String "u" (String dquote ("it's" +:+ String dquote ""))
  /\ repr (Some "é") = String "u" (String squote (String backslash "xe9'"))
  /\ repr (Some "٣") = String "u" (String squote (String backslash "u0663'"))
  /\ repr None = "None".
Proof. repeat split; vm_compute; reflexivity. Qed.

(** [_parse_default] never fails: the node type is the value of the
    field [pubsub#node_type] of the last child that reads as a Data
    Form, when that form is a submitted one and has the field, and
    ['leaf'] in every other case. *)
Lemma _parse_default_last `{J : Jabber} `{D : DataForms}
    (verbElement : Element) (self : PubSubRequest) :
  _parse_default verbElement self
  = Ok (set_nodeType
          (Some (match last (omap Form_fromElement (elements verbElement)) with
                 | Some form =>
                     if bool_decide (formType form = Some "submit")
                     then default (Scalar "leaf")
                                  (getValues form !! "pubsub#node_type")
                     else Scalar "leaf"
                 | None => Scalar "leaf"
                 end))
          self).
Proof.
  unfold _parse_default. rewrite _findForm_last.
  destruct (last _) as [form|]; [|reflexivity].
  by destruct (bool_decide _).
Qed.

(** ** max_items *)

(** X6.  What [_render_maxItems] writes, [_parse_maxItems] reads back:
    an integer other than zero, negative ones included, comes back as
    the same integer; for zero or no [maxItems] nothing is written and
    the parsed request keeps the [maxItems] it had. *)
Theorem max_items_round_trip `{J : Jabber} (r self : PubSubRequest)
    (u : option string) (n : string) (a : gmap string string)
    (c : list Node) :
  a !! "max_items" = None ->
  exists verbElement,
    _render_maxItems r (mkElement u n a c) = Ok verbElement
    /\ _parse_maxItems verbElement self
       = Ok (match maxItems r with
             | Some m => if (m =? 0)%Z then self
                         else set_maxItems (Some m) self
             | None => self
             end).
Proof.
  intros Ha. unfold _render_maxItems.
  destruct (maxItems r) as [m|].
  - destruct (m =? 0)%Z; cbn [negb]; eexists; (split; [reflexivity|]).
    + unfold _parse_maxItems, getAttribute. cbn [attributes]. by rewrite Ha.
    + unfold _parse_maxItems, getAttribute. cbn [setAttribute attributes].
      rewrite lookup_insert_eq, (truthy_str_true _ (unicode_nonempty m)).
      by rewrite int_unicode.
  - eexists; split; [reflexivity|].
    unfold _parse_maxItems, getAttribute. cbn [attributes]. by rewrite Ha.
Qed.

Lemma max_items_round_trip_witness :
  exists verbElement,
    _render_maxItems (J:=Examples.textJabber)
      (set_maxItems (Some (-3)%Z) (PubSubRequest_init (Some "items")))
      (mkElement (Some NS_PUBSUB) "items" {[ "node" := "news" ]} [])
    = Ok verbElement
    /\ _parse_maxItems (J:=Examples.textJabber) verbElement
         (PubSubRequest_init None)
       = Ok (set_maxItems (Some (-3)%Z) (PubSubRequest_init None)).
Proof.
  apply (max_items_round_trip (J:=Examples.textJabber)
           (set_maxItems (Some (-3)%Z) (PubSubRequest_init (Some "items")))
           (PubSubRequest_init None) (Some NS_PUBSUB) "items"
           {[ "node" := "news" ]} []).
  vm_compute; reflexivity.
Defined.

(** ** The service with the backend of the base class *)

Lemma checkValues_no_options `{J : Jabber} `{D : DataForms}
    (l : list (string * FieldValue)) (acc : gmap string FieldValue) :
  PubSubService.checkValues ∅ l acc = Ok acc.
Proof.
  induction l as [|[k v] l IH]; [done|]. cbn [PubSubService.checkValues].
  by rewrite lookup_empty.
Qed.

(** X7.  With the backend methods of [PubSubService] itself, the handler
    of every verb fails with the [Unsupported] error that names the
    feature of [refusedFeature] (unsubscribe names [subscribe]): the
    condition is [feature-not-implemented] and the application
    condition is [<unsupported feature=.../>] in the pubsub-errors
    namespace.  The two handlers that can answer before they reach the
    backend are taken where they do reach it: [default] with a node
    type of leaf or collection, [configureSet] with options that are
    not empty. *)
Theorem default_backend_refuses `{J : Jabber} `{D : DataForms}
    (self : PubSubService.t) (request : PubSubRequest)
    (verb_ feature : string) (handler : PubSubRequest -> PubSubService.Handled) :
  PubSubService.backend self = Backend.default ->
  dict_get refusedFeature verb_ = Some feature ->
  PubSubService._on_ self (Some verb_) = Ok handler ->
  (verb_ = "default" ->
   nodeType request = Some (Scalar "leaf")
   \/ nodeType request = Some (Scalar "collection")) ->
  (verb_ = "configureSet" ->
   exists o, options request = Some o /\ o <> ∅) ->
  snd (handler request) = Raise (Unsupported feature)
  /\ Unsupported feature
     = StanzaError ClsUnsupported "feature-not-implemented" None
         (Some (mkElement (Some NS_PUBSUB_ERRORS) "unsupported"
                  {[ "feature" := feature ]} [])).
Proof.
  intros Hb Hf Hh Hdefault Hconfigure.
  table_cases Hf; cbn in Hh; injection Hh as <-;
    (split; [|reflexivity]).
  all: try (unfold PubSubService._on_publish, PubSubService._on_subscribe,
              PubSubService._on_unsubscribe, PubSubService._on_optionsGet,
              PubSubService._on_optionsSet, PubSubService._on_subscriptions,
              PubSubService._on_affiliations, PubSubService._on_create,
              PubSubService._on_configureGet, PubSubService._on_items,
              PubSubService._on_retract, PubSubService._on_purge,
              PubSubService._on_delete, PubSubService._on_affiliationsGet,
              PubSubService._on_affiliationsSet,
              PubSubService._on_subscriptionsGet,
              PubSubService._on_subscriptionsSet;
            rewrite ?Hb; reflexivity).
  - unfold PubSubService._on_default.
    destruct (Hdefault eq_refl) as [-> | ->]; rewrite Hb; reflexivity.
  - unfold PubSubService._on_configureSet.
    destruct (Hconfigure eq_refl) as (o & -> & Ho).
    rewrite (bool_decide_eq_false_2 _ Ho).
    unfold PubSubService._checkConfiguration. rewrite Hb.
    cbn [Backend.getConfigurationOptions Backend.default].
    rewrite checkValues_no_options. reflexivity.
Qed.

Lemma default_backend_refuses_witness :
  snd (PubSubService._on_unsubscribe (J:=Examples.textJabber)
         (PubSubService.init Backend.default)
         (PubSubRequest_init (Some "unsubscribe")))
  = Raise (Unsupported "subscribe").
Proof.
  apply (default_backend_refuses (J:=Examples.textJabber) (D:=Examples.xData)
           (PubSubService.init Backend.default)
           (PubSubRequest_init (Some "unsubscribe")) "unsubscribe" "subscribe"
           (PubSubService._on_unsubscribe
              (PubSubService.init Backend.default))).
  - reflexivity.
  - vm_compute; reflexivity.
  - reflexivity.
  - discriminate.
  - discriminate.
Defined.

(** ** Node types *)

(** X8.  An inbound request for the default configuration whose
    submitted form asks for a node type other than leaf or collection
    is answered with the stanza error [not-acceptable], and no backend
    operation is called, whatever the backend. *)
Theorem default_node_type_checked `{J : Jabber} `{D : DataForms}
    (self : PubSubService.t) (iq pubsub child : Element) (form : Form)
    (nodeType_ : FieldValue) :
  wellAddressed iq ->
  childNamed iq "pubsub" = Some pubsub ->
  resolveVerb (getAttribute iq "type") (elements pubsub)
  = Some ("default", child) ->
  last (omap Form_fromElement (elements child)) = Some form ->
  formType form = Some "submit" ->
  getValues form !! "pubsub#node_type" = Some nodeType_ ->
  nodeType_ <> Scalar "leaf" ->
  nodeType_ <> Scalar "collection" ->
  PubSubService._onPubSubRequest self iq
  = ([], Raise (StanzaError ClsStanzaError "not-acceptable" None None)).
Proof.
  intros Hw Hp Hv Hlast Htype Hnt Hleaf Hcoll.
  unfold PubSubService._onPubSubRequest, fromElement, parseElement.
  destruct (Stanza_parseElement_ok iq (PubSubRequest_init None) Hw)
    as (r & -> & Ht & _).
  cbn [mbind Result_bind]. rewrite Hp, Ht, Hv.
  cbn [verb set_verb truthy_ostr].
  change (truthy_str "default") with true. cbn [negb].
  change (dict_get _parameters "default") with (Some ["default"]).
  cbn [parseParameters _parse_ mbind Result_bind].
  rewrite _parse_default_last, Hlast, Htype, Hnt.
  rewrite (bool_decide_eq_true_2 (Some "submit" = Some "submit")) by done.
  cbn [mbind Result_bind default verb set_nodeType set_verb].
  cbn [PubSubService._on_]. unfold PubSubService._on_default.
  cbn [nodeType set_nodeType].
  unfold id. rewrite !bool_decide_eq_false_2 by congruence. reflexivity.
Qed.

Lemma default_node_type_checked_witness :
  PubSubService._onPubSubRequest (J:=Examples.textJabber) (D:=Examples.xData)
    (PubSubService.init Examples.quietBackend)
    (MoreExamples.defaultRequest "bogus")
  = ([], Raise (StanzaError ClsStanzaError "not-acceptable" None None)).
Proof.
  eapply (default_node_type_checked (J:=Examples.textJabber)
            (D:=Examples.xData) _ (MoreExamples.defaultRequest "bogus")
            _ _ _ (Scalar "bogus")).
  - vm_compute; eauto.
  - reflexivity.
  - vm_compute; reflexivity.
  - vm_compute; reflexivity.
  - reflexivity.
  - vm_compute; reflexivity.
  - discriminate.
  - discriminate.
Defined.

(** ** Checking a configuration *)

Lemma checkValues_names `{J : Jabber} `{D : DataForms}
    (options_ : gmap string (gmap string FieldValue))
    (l : list (string * FieldValue)) (acc processed : gmap string FieldValue) :
  PubSubService.checkValues options_ l acc = Ok processed ->
  forall key,
    is_Some (processed !! key)
    <-> is_Some (acc !! key)
        \/ (key ∈ l.*1 /\ is_Some (options_ !! key)).
Proof.
  revert acc. induction l as [|[k v] l IH]; intros acc.
  - intros [= <-] key. cbn. rewrite elem_of_nil. tauto.
  - cbn [PubSubService.checkValues]. intros Hc key.
    rewrite fmap_cons, elem_of_cons. cbn [fst].
    destruct (options_ !! k) as [o|] eqn:Ho.
    + destruct (Field_typeCheck _) as [field|e]; [|done].
      cbn [mbind Result_bind] in Hc. rewrite (IH _ Hc key).
      destruct (decide (key = k)) as [-> | Hne].
      * rewrite lookup_insert_eq, Ho. split; [|by left]. intros _.
        right. split; [by left | done].
      * rewrite lookup_insert_ne by done. split.
        { intros [? | [? ?]]; [by left | right; split; [by right | done]]. }
        { intros [? | [[? | ?] ?]]; [by left | done | right; done]. }
    + rewrite (IH _ Hc key). split.
      * intros [? | [? ?]]; [by left | right; split; [by right | done]].
      * intros [? | [[-> | ?] Hsome]]; [by left | | right; done].
        rewrite Ho in Hsome. by destruct Hsome.
Qed.

(** X9.  When [_checkConfiguration] succeeds, the names in the mapping
    it returns are exactly the submitted names that the backend's
    option schema knows: a name the schema does not have is dropped
    without an error. *)
Theorem checked_configuration_names `{J : Jabber} `{D : DataForms}
    (self : PubSubService.t) (values processed : gmap string FieldValue)
    (ops : list BackendOp) :
  PubSubService._checkConfiguration self values = (ops, Ok processed) ->
  forall key,
    is_Some (processed !! key)
    <-> is_Some (values !! key)
        /\ is_Some
             (Backend.getConfigurationOptions (PubSubService.backend self)
                !! key).
Proof.
  unfold PubSubService._checkConfiguration. intros [= _ Hc] key.
  rewrite (checkValues_names _ _ _ _ Hc key), lookup_empty.
  assert (Hkeys : key ∈ (map_to_list values).*1 <-> is_Some (values !! key)).
  { rewrite list_elem_of_fmap. split.
    - intros ([k v] & -> & Hin). apply elem_of_map_to_list in Hin. by eexists.
    - intros [v Hv]. exists (key, v). split; [done|].
      by apply elem_of_map_to_list. }
  rewrite Hkeys. split.
  - intros [Hn | ?]; [by destruct Hn | done].
  - intros ?. by right.
Qed.

Lemma checked_configuration_names_witness :
  is_Some (({[ "pubsub#title" := Scalar "News" ]} : gmap string FieldValue)
             !! "x-unknown")
  <-> is_Some (({[ "pubsub#title" := Scalar "News";
                  "x-unknown" := Scalar "1" ]} : gmap string FieldValue)
                 !! "x-unknown")
      /\ is_Some
           (Backend.getConfigurationOptions
              (PubSubService.backend MoreExamples.titledService)
              !! "x-unknown").
Proof.
  refine (checked_configuration_names (J:=Examples.textJabber)
            (D:=Examples.xData) MoreExamples.titledService
            {[ "pubsub#title" := Scalar "News"; "x-unknown" := Scalar "1" ]}
            {[ "pubsub#title" := Scalar "News" ]}
            [OpGetConfigurationOptions] _ "x-unknown").
  vm_compute; reflexivity.
Defined.

(** ** Notifications on the wire *)

(** The messages of [notifyDelete], one per subscriber. *)
Lemma notifyDelete_messages `{J : Jabber} (service : JID)
    (nodeIdentifier_ : string) (subscribers : list JID)
    (redirectURI : option string) (xs : XmlStream) :
  PubSubService.notifyDelete service nodeIdentifier_ subscribers redirectURI xs
  = (xs ++ ((fun subscriber_ =>
               deleteMessage service nodeIdentifier_ subscriber_ redirectURI)
            <$> subscribers))%list.
Proof.
  revert xs. induction subscribers as [|subscriber_ r IH]; intros xs.
  - cbn. by rewrite app_nil_r.
  - cbn [PubSubService.notifyDelete]. rewrite IH, <- app_assoc.
    f_equal. cbn [fmap list_fmap app]. f_equal.
    unfold deleteMessage. destruct redirectURI as [u|]; [|reflexivity].
    cbn [truthy_ostr default]. destruct (truthy_str u); reflexivity.
Qed.

(** The messages of [notifyPublish], one per notification. *)
Lemma notifyPublish_messages `{J : Jabber} (service : JID)
    (nodeIdentifier_ : string)
    (notifications :
       list (JID * option (list (Subscription.t JID)) * list Element))
    (xs : XmlStream) :
  PubSubService.notifyPublish service nodeIdentifier_ notifications xs
  = (xs ++ (publishMessage service nodeIdentifier_ <$> notifications))%list.
Proof.
  revert xs.
  induction notifications as [|[[subscriber_ subscriptions_] items_] r IH];
    intros xs.
  - cbn. by rewrite app_nil_r.
  - cbn [PubSubService.notifyPublish]. rewrite IH, <- app_assoc.
    f_equal. cbn [fmap list_fmap app]. f_equal.
    unfold publishMessage, PubSubService._createNotification.
    cbn [fst snd].
    destruct (PubSubService.collectionHeaders nodeIdentifier_ subscriptions_);
      reflexivity.
Qed.

(** X10.  [notifyDelete] ships, after what the stream already holds, one
    message per subscriber and in their order: from the service to the
    subscriber, with [<event><delete node=.../></event>] in the event
    namespace and no SHIM headers.  The [<delete>] holds a
    [<redirect uri=.../>] exactly when a redirect URI is given and not
    empty. *)
Theorem delete_notifications `{J : Jabber} (service : JID)
    (nodeIdentifier_ : string) (subscribers : list JID)
    (redirectURI : option string) (xs : XmlStream) :
  PubSubService.notifyDelete service nodeIdentifier_ subscribers redirectURI xs
  = (xs ++ ((fun subscriber_ =>
               deleteMessage service nodeIdentifier_ subscriber_ redirectURI)
            <$> subscribers))%list.
Proof. apply notifyDelete_messages. Qed.

(** X11.  [notifyPublish] ships one message per notification and in
    their order: from the service to the subscriber, with
    [<event><items node=...>] holding exactly the items of the
    notification, in their order, followed by the SHIM headers element
    when there are collection headers. *)
Theorem publish_notifications `{J : Jabber} (service : JID)
    (nodeIdentifier_ : string)
    (notifications :
       list (JID * option (list (Subscription.t JID)) * list Element))
    (xs : XmlStream) :
  PubSubService.notifyPublish service nodeIdentifier_ notifications xs
  = (xs ++ (publishMessage service nodeIdentifier_ <$> notifications))%list.
Proof. apply notifyPublish_messages. Qed.

(** ** Events at the client *)

Lemma findAction_last (l : list Element) :
  PubSubClientEvents.findAction l
  = last (List.filter
            (fun e => bool_decide (uri e = Some NS_PUBSUB_EVENT)) l).
Proof.
  unfold PubSubClientEvents.findAction.
  assert (Hgen : forall acc,
            fold_left
              (fun actionElement element =>
                 if bool_decide (uri element = Some NS_PUBSUB_EVENT)
                 then Some element else actionElement) l acc
            = match last (List.filter
                            (fun e => bool_decide
                                        (uri e = Some NS_PUBSUB_EVENT)) l) with
              | Some e => Some e
              | None => acc
              end).
  { induction l as [|e l IH]; intros acc; cbn [fold_left List.filter]; [done|].
    rewrite IH. destruct (bool_decide _); [|done].
    rewrite last_cons. by destruct (last _). }
  rewrite Hgen. by destruct (last _).
Qed.

(** X12.  A message without a [from], or with a [from] that is an
    address but without a [to], is dropped: no handler runs and the
    message is not marked handled.  So is a message whose [<event>] has
    no child in the event namespace. *)
Theorem event_dropped `{J : Jabber} `{S : Shim} (message : Element) :
  (getAttribute message "from" = None
   \/ (exists a, getAttribute message "from" = Some a
                 /\ is_Some (internJID a))
      /\ getAttribute message "to" = None
   \/ (exists event,
         childNamed message "event" = Some event
         /\ Forall (fun e => uri e <> Some NS_PUBSUB_EVENT) (elements event))
      /\ (exists a, getAttribute message "from" = Some a
                    /\ is_Some (internJID a))
      /\ (exists a, getAttribute message "to" = Some a
                    /\ is_Some (internJID a))) ->
  PubSubClientEvents._onEvent message = Ok None.
Proof.
  unfold PubSubClientEvents._onEvent, PubSubClientEvents.addressOf, getitem,
    getAttribute.
  intros [Hfrom | [[(a & Hfrom & [j Hj]) Hto]
                  | ((event & Hev & Hnone) & (a & Hfrom & [j Hj])
                     & (b & Hto & [k Hk]))]].
  - by rewrite Hfrom.
  - rewrite Hfrom, Hto. cbn [mbind Result_bind]. by rewrite Hj.
  - rewrite Hfrom, Hto. cbn [mbind Result_bind]. rewrite Hj, Hk.
    cbn [mbind Result_bind]. rewrite Hev, findAction_last.
    assert (Hfilter : List.filter
                        (fun e => bool_decide (uri e = Some NS_PUBSUB_EVENT))
                        (elements event) = []).
    { induction Hnone as [|e l He _ IH]; [done|]. cbn [List.filter].
      by rewrite (bool_decide_eq_false_2 _ He). }
    by rewrite Hfilter.
Qed.

Lemma event_dropped_witness :
  PubSubClientEvents._onEvent (J:=Examples.textJabber)
    (S:=MoreExamples.noHeaders)
    (mkElement None "message" {[ "from" := "pubsub.example" ]}
       [Child (mkElement (Some NS_PUBSUB_EVENT) "event" ∅ [])])
  = Ok None.
Proof.
  apply (event_dropped (J:=Examples.textJabber) (S:=MoreExamples.noHeaders)).
  right. left. split.
  - exists "pubsub.example". split; [vm_compute; reflexivity|].
    eexists; reflexivity.
  - vm_compute; reflexivity.
Defined.

(** The event a published notification is decoded into. *)
Lemma publishMessage_event `{J : Jabber} `{S : Shim} (service : JID)
    (nodeIdentifier_ : string)
    (notification : JID * option (list (Subscription.t JID)) * list Element) :
  (forall j, internJID (full j) = Some j) ->
  PubSubClientEvents._onEvent (publishMessage service nodeIdentifier_ notification)
  = Ok (Some (PubSubEvent.ItemsEvent service (fst (fst notification))
                nodeIdentifier_
                (List.filter PubSubClientEvents.isItemOrRetract
                             (snd notification))
                (extractHeaders
                   (publishMessage service nodeIdentifier_ notification)))).
Proof.
  intros Hjid.
  unfold PubSubClientEvents._onEvent, PubSubClientEvents.addressOf, getitem.
  set (message := publishMessage service nodeIdentifier_ notification).
  assert (Hfrom : attributes message !! "from" = Some (full service)).
  { unfold message, publishMessage. cbn [attributes].
    rewrite lookup_insert_ne by done. apply lookup_insert_eq. }
  assert (Hto : attributes message !! "to"
                = Some (full (fst (fst notification)))).
  { unfold message, publishMessage. cbn [attributes]. apply lookup_insert_eq. }
  rewrite Hfrom, Hto. cbn [mbind Result_bind]. rewrite !Hjid.
  cbn [mbind Result_bind].
  assert (Hevent : childNamed message "event"
                   = Some (mkElement (Some NS_PUBSUB_EVENT) "event" ∅
                             [ Child (mkElement (Some NS_PUBSUB_EVENT) "items"
                                        (<[ "node" := nodeIdentifier_ ]> ∅)
                                        (Child <$> snd notification)) ]))
    by reflexivity.
  rewrite Hevent.
  unfold elements at 1. cbn [children elementsOf].
  unfold PubSubClientEvents.findAction. cbn [fold_left uri].
  rewrite (bool_decide_eq_true_2 (Some NS_PUBSUB_EVENT = Some NS_PUBSUB_EVENT))
    by done.
  cbn [name PubSubClientEvents._onEvent_].
  unfold PubSubClientEvents._onEvent_items, getitem. cbn [attributes].
  rewrite lookup_insert_eq. cbn [mbind Result_bind].
  unfold elements. cbn [children]. by rewrite elementsOf_Child.
Qed.

(** X13.  What the service publishes, the client receives: provided a
    printed address interns to itself, each message [notifyPublish]
    ships is decoded by [_onEvent] into an [ItemsEvent] from the service
    to the subscriber for the same node, whose items are those of the
    notification that are named [item] or [retract], in order. *)
Theorem published_items_received `{J : Jabber} `{S : Shim} (service : JID)
    (nodeIdentifier_ : string)
    (notifications :
       list (JID * option (list (Subscription.t JID)) * list Element))
    (xs : XmlStream) :
  (forall j, internJID (full j) = Some j) ->
  exists messages,
    PubSubService.notifyPublish service nodeIdentifier_ notifications xs
    = (xs ++ messages)%list
    /\ Forall2
         (fun notification message =>
            PubSubClientEvents._onEvent message
            = Ok (Some (PubSubEvent.ItemsEvent service (fst (fst notification))
                          nodeIdentifier_
                          (List.filter PubSubClientEvents.isItemOrRetract
                                       (snd notification))
                          (extractHeaders message))))
         notifications messages.
Proof.
  intros Hjid. eexists. split; [apply notifyPublish_messages|].
  induction notifications as [|n r IH]; constructor; [|exact IH].
  by apply publishMessage_event.
Qed.

Lemma published_items_received_witness :
  exists messages,
    PubSubService.notifyPublish (J:=Examples.textJabber) "pubsub.example"
      "news" MoreExamples.aliceNotified []
    = ([] ++ messages)%list
    /\ Forall2
         (fun notification message =>
            PubSubClientEvents._onEvent (J:=Examples.textJabber)
              (S:=MoreExamples.noHeaders) message
            = Ok (Some (PubSubEvent.ItemsEvent "pubsub.example"
                          (fst (fst notification)) "news"
                          (List.filter PubSubClientEvents.isItemOrRetract
                                       (snd notification))
                          (extractHeaders (Shim:=MoreExamples.noHeaders)
                                          message))))
         MoreExamples.aliceNotified messages.
Proof.
  apply (published_items_received (J:=Examples.textJabber)
           (S:=MoreExamples.noHeaders)).
  intros j; reflexivity.
Defined.

(** X14.  What the service announces as deleted, the client receives:
    provided a printed address interns to itself, each message
    [notifyDelete] ships is decoded by [_onEvent] into a [DeleteEvent]
    for the same node, whose [redirectURI] is the redirect URI given to
    [notifyDelete] when that is not empty, and [None] otherwise. *)
Theorem deleted_node_received `{J : Jabber} `{S : Shim} (service : JID)
    (nodeIdentifier_ : string) (subscribers : list JID)
    (redirectURI : option string) (xs : XmlStream) :
  (forall j, internJID (full j) = Some j) ->
  exists messages,
    PubSubService.notifyDelete service nodeIdentifier_ subscribers
      redirectURI xs
    = (xs ++ messages)%list
    /\ Forall2
         (fun subscriber_ message =>
            PubSubClientEvents._onEvent message
            = Ok (Some (PubSubEvent.DeleteEvent service subscriber_
                          nodeIdentifier_ (extractHeaders message)
                          (if truthy_ostr redirectURI then redirectURI
                           else None))))
         subscribers messages.
Proof.
  intros Hjid. eexists. split; [apply notifyDelete_messages|].
  induction subscribers as [|subscriber_ r IH]; constructor; [|exact IH].
  unfold PubSubClientEvents._onEvent, PubSubClientEvents.addressOf, getitem.
  set (message := deleteMessage service nodeIdentifier_ subscriber_ redirectURI).
  assert (Hfrom : attributes message !! "from" = Some (full service)).
  { unfold message, deleteMessage. cbn [attributes].
    rewrite lookup_insert_ne by done. apply lookup_insert_eq. }
  assert (Hto : attributes message !! "to" = Some (full subscriber_)).
  { unfold message, deleteMessage. cbn [attributes]. apply lookup_insert_eq. }
  rewrite Hfrom, Hto. cbn [mbind Result_bind]. rewrite !Hjid.
  cbn [mbind Result_bind].
  unfold message at 1, deleteMessage, childNamed, elements.
  cbn [children elementsOf List.find name].
  rewrite (bool_decide_eq_true_2 ("event" = "event")) by done.
  cbn [children elementsOf]. unfold PubSubClientEvents.findAction.
  cbn [fold_left uri].
  rewrite (bool_decide_eq_true_2 (Some NS_PUBSUB_EVENT = Some NS_PUBSUB_EVENT))
    by done.
  cbn [name PubSubClientEvents._onEvent_].
  unfold PubSubClientEvents._onEvent_delete, getitem. cbn [attributes].
  rewrite lookup_insert_eq. cbn [mbind Result_bind].
  unfold childNamed, elements, getAttribute. cbn [children].
  destruct redirectURI as [u|]; cbn [truthy_ostr default]; [|reflexivity].
  destruct (truthy_str u); cbn [elementsOf List.find name]; [|reflexivity].
  rewrite (bool_decide_eq_true_2 ("redirect" = "redirect")) by done.
  cbn [attributes]. by rewrite lookup_insert_eq.
Qed.

Lemma deleted_node_received_witness :
  exists messages,
    PubSubService.notifyDelete (J:=Examples.textJabber) "pubsub.example"
      "news" ["alice@example"] (Some "xmpp:node@host") []
    = ([] ++ messages)%list
    /\ Forall2
         (fun subscriber_ message =>
            PubSubClientEvents._onEvent (J:=Examples.textJabber)
              (S:=MoreExamples.noHeaders) message
            = Ok (Some (PubSubEvent.DeleteEvent "pubsub.example" subscriber_
                          "news"
                          (extractHeaders (Shim:=MoreExamples.noHeaders)
                                          message)
                          (if truthy_ostr (Some "xmpp:node@host")
                           then Some "xmpp:node@host" else None))))
         ["alice@example"] messages.
Proof.
  apply (deleted_node_received (J:=Examples.textJabber)
           (S:=MoreExamples.noHeaders)).
  intros j; reflexivity.
Defined.

(** ** Client and service together *)

Lemma childNamed_payload (iq payload : Element) (key : string) :
  elements iq = [payload] ->
  name payload = key ->
  childNamed iq key = Some payload.
Proof.
  intros Hel Hname. unfold childNamed. rewrite Hel. cbn [List.find].
  by rewrite (bool_decide_eq_true_2 _ Hname).
Qed.

(** X15.  The client learns the name the backend assigned: whenever the
    backend's create yields [assigned], the callback of [createNode],
    given a response that carries what [_on_create] answered (the
    payload as its only child element, or none), returns [assigned],
    whether the service sent the [<create>] element or the bare
    result. *)
Theorem created_node_reported `{J : Jabber} `{D : DataForms}
    (self : PubSubService.t) (request : PubSubRequest) (assigned : string) :
  Backend.create (PubSubService.backend self) (sender request)
    (recipient request) (nodeIdentifier request) = Ok assigned ->
  exists payload,
    PubSubService._on_create self request = ([OpCreate], Ok payload)
    /\ forall iq,
         elements iq = payloadChildren payload ->
         PubSubClientEvents.createNode_cb (nodeIdentifier request) iq
         = Ok (Some assigned).
Proof.
  intros Hcreate. unfold PubSubService._on_create. rewrite Hcreate.
  cbn [mbind Result_bind]. eexists. split; [reflexivity|]. intros iq.
  unfold PubSubService.create_toResponse.
  destruct (negb (truthy_ostr (nodeIdentifier request))
            || negb (bool_decide (nodeIdentifier request = Some assigned)))
    eqn:Hcond; cbn [payloadChildren]; intros Hel.
  - unfold PubSubClientEvents.createNode_cb.
    rewrite (childNamed_payload iq _ "pubsub" Hel eq_refl).
    cbn [newElement uri setAttribute addChild app].
    unfold childNamed, elements. cbn [children elementsOf List.find name].
    rewrite (bool_decide_eq_true_2 ("create" = "create")) by done.
    unfold getitem. cbn [attributes]. by rewrite lookup_insert_eq.
  - apply orb_false_iff in Hcond as [_ Heq].
    apply negb_false_iff, bool_decide_eq_true in Heq.
    unfold PubSubClientEvents.createNode_cb, childNamed. rewrite Hel.
    cbn [List.find]. by rewrite Heq.
Qed.

Lemma created_node_reported_witness :
  exists payload,
    PubSubService._on_create (J:=Examples.textJabber)
      MoreExamples.titledService (PubSubRequest_init (Some "create"))
    = ([OpCreate], Ok payload)
    /\ forall iq,
         elements iq = payloadChildren payload ->
         PubSubClientEvents.createNode_cb
           (nodeIdentifier (J:=Examples.textJabber)
              (PubSubRequest_init (Some "create"))) iq
         = Ok (Some "auto-42").
Proof.
  apply (created_node_reported (J:=Examples.textJabber) (D:=Examples.xData)
           MoreExamples.titledService (PubSubRequest_init (Some "create"))
           "auto-42").
  reflexivity.
Defined.

(** X16.  The client learns the state of its subscription: whenever the
    backend's subscribe yields a subscription, [_on_subscribe] answers
    with a payload, and the callback of the client's [subscribe], given
    a response with that payload as its only child element, fails with
    [SubscriptionPending] or [SubscriptionUnconfigured] when that is the
    state of the subscription and succeeds otherwise. *)
Theorem subscription_state_reported `{J : Jabber} `{D : DataForms}
    (self : PubSubService.t) (request : PubSubRequest)
    (result : Subscription.t JID) :
  Backend.subscribe (PubSubService.backend self) (sender request)
    (recipient request) (nodeIdentifier request) (subscriber request)
  = Ok result ->
  exists payload,
    PubSubService._on_subscribe self request
    = ([OpSubscribe], Ok (Some payload))
    /\ forall iq,
         elements iq = [payload] ->
         PubSubClient.subscribe_cb iq
         = subscribeOutcome (Subscription.state result).
Proof.
  intros Hsub. unfold PubSubService._on_subscribe. rewrite Hsub.
  cbn [mbind Result_bind]. eexists. split; [reflexivity|]. intros iq Hel.
  unfold PubSubClient.subscribe_cb.
  rewrite (childNamed_payload iq _ "pubsub" Hel eq_refl).
  cbn [newElement uri addChild app].
  unfold childNamed, elements. cbn [children elementsOf List.find].
  assert (Hname : forall e k v, name (setAttribute e k v) = name e)
    by (by intros []).
  rewrite !Hname.
  assert (Hsubname :
    name (match Subscription.nodeIdentifier result with
          | Some n =>
              if truthy_str n
              then setAttribute
                     (mkElement (Some NS_PUBSUB) "subscription" ∅ []) "node" n
              else mkElement (Some NS_PUBSUB) "subscription" ∅ []
          | None => mkElement (Some NS_PUBSUB) "subscription" ∅ []
          end) = "subscription").
  { destruct (Subscription.nodeIdentifier result) as [n|]; [|done].
    by destruct (truthy_str n). }
  rewrite (bool_decide_eq_true_2 _ Hsubname).
  unfold getitem.
  assert (Hattr : forall e k v, attributes (setAttribute e k v) !! k = Some v).
  { intros [] k v. cbn. apply lookup_insert_eq. }
  rewrite Hattr. reflexivity.
Qed.

Lemma subscription_state_reported_witness :
  exists payload,
    PubSubService._on_subscribe (J:=Examples.textJabber)
      MoreExamples.titledService MoreExamples.subscribeNews
    = ([OpSubscribe], Ok (Some payload))
    /\ forall iq,
         elements iq = [payload] ->
         PubSubClient.subscribe_cb iq
         = subscribeOutcome
             (Subscription.state MoreExamples.pendingSubscription).
Proof.
  apply (subscription_state_reported (J:=Examples.textJabber)
           (D:=Examples.xData) MoreExamples.titledService
           MoreExamples.subscribeNews MoreExamples.pendingSubscription).
  reflexivity.
Defined.

(** X17.  The client gets the items the backend returned: for an items
    request with a node identifier, whenever the backend's items yields
    a list, [_on_items] answers with a payload, and the callback of the
    client's [items], given a response with that payload as its only
    child element, returns those elements of the list that are pubsub
    [item] elements, in the backend's order. *)
Theorem retrieved_items_returned `{J : Jabber} `{D : DataForms}
    (self : PubSubService.t) (request : PubSubRequest) (node : string)
    (result : list Element) :
  nodeIdentifier request = Some node ->
  Backend.items (PubSubService.backend self) (sender request)
    (recipient request) (nodeIdentifier request) (maxItems request)
    (itemIdentifiers request) = Ok result ->
  exists payload,
    PubSubService._on_items self request = ([OpItems], Ok (Some payload))
    /\ forall iq,
         elements iq = [payload] ->
         PubSubClientEvents.items_cb iq
         = Ok (List.filter isPubSubItem result).
Proof.
  intros Hnode Hitems. unfold PubSubService._on_items. rewrite Hitems.
  cbn [mbind Result_bind]. rewrite Hnode.
  unfold PubSubService.setAttributeO. cbn [mbind Result_bind].
  cbn [newElement uri setAttribute]. rewrite fold_addChild.
  cbn [addChild app].
  eexists. split; [reflexivity|]. intros iq Hel.
  unfold PubSubClientEvents.items_cb.
  rewrite (childNamed_payload iq _ "pubsub" Hel eq_refl).
  unfold childNamed, elements.
  cbn [addChild newElement app children elementsOf List.find name].
  rewrite (bool_decide_eq_true_2 ("items" = "items")) by done.
  cbn [children]. by rewrite elementsOf_Child.
Qed.

Lemma retrieved_items_returned_witness :
  exists payload,
    PubSubService._on_items (J:=Examples.textJabber)
      MoreExamples.titledService
      (set_nodeIdentifier (Some "news") (PubSubRequest_init (Some "items")))
    = ([OpItems], Ok (Some payload))
    /\ forall iq,
         elements iq = [payload] ->
         PubSubClientEvents.items_cb iq
         = Ok (List.filter isPubSubItem
                 [Item (Some "1") None; Item (Some "2") None]).
Proof.
  apply (retrieved_items_returned (J:=Examples.textJabber)
           (D:=Examples.xData) MoreExamples.titledService
           (set_nodeIdentifier (Some "news")
              (PubSubRequest_init (Some "items")))
           "news" [Item (Some "1") None; Item (Some "2") None]).
  - reflexivity.
  - reflexivity.
Defined.

(** ** The tables *)

(** X18.  The table from verbs to wire triples is the inverse of the
    table from wire triples to verbs, so no verb and no triple is lost
    by inverting the dict; and a verb has a parameter list exactly when
    it has a wire triple. *)
Theorem verb_tables_agree `{J : Jabber} :
  (forall key verb_,
     dict_get _requestVerbMap key = Some verb_
     <-> dict_get _verbRequestMap verb_ = Some key)
  /\ (forall verb_,
        is_Some (dict_get _parameters verb_)
        <-> is_Some (dict_get _verbRequestMap verb_)).
Proof.
  split.
  - intros key verb_. split; intros Hk.
    + table_cases Hk; vm_compute; reflexivity.
    + table_cases Hk; vm_compute; reflexivity.
  - intros verb_. split; intros [x Hx].
    + table_cases Hx; vm_compute; eexists; reflexivity.
    + table_cases Hx; vm_compute; eexists; reflexivity.
Qed.

(** ** When send ships a stanza *)

Lemma hasParameter_cons (names : list string) (p : string) (ps : list string) :
  hasParameter names (p :: ps)
  = existsb (String.eqb p) names || hasParameter names ps.
Proof. reflexivity. Qed.

(** Evaluate the membership tests on literal parameter names. *)
Ltac eval_membership :=
  repeat match goal with
         | |- context [existsb (String.eqb ?p) ?names] =>
             let b := eval vm_compute in (existsb (String.eqb p) names) in
             change (existsb (String.eqb p) names) with b
         end;
  cbn [orb].

(** The renderers run through a parameter list exactly when the list
    has no parameter without a renderer and the request has what
    [node] and [jid] ask for. *)
Lemma renderParameters_succeeds `{J : Jabber} (parameters : list string)
    (r : PubSubRequest) (verbElement : Element) :
  Forall (fun p => In p parsedParameters) parameters ->
  (exists rendered, renderParameters parameters r verbElement = Ok rendered)
  <-> hasParameter ["default"; "configure"; "options"] parameters = false
      /\ (hasParameter ["node"] parameters = true
          -> truthy_ostr (nodeIdentifier r) = true)
      /\ (hasParameter ["jid"] parameters = true -> is_Some (subscriber r)).
Proof.
  intros Hall. revert verbElement.
  induction Hall as [|p ps Hp _ IH]; intros verbElement.
  - cbn. split; [|by eexists]. intros _. repeat split; discriminate.
  - rewrite !hasParameter_cons. unfold parsedParameters in Hp. cbn [In] in Hp.
    repeat (destruct Hp as [<- | Hp]); try contradiction;
      cbn [renderParameters _render_ mbind Result_bind]; eval_membership.
    + (* node *)
      unfold _render_node.
      destruct (nodeIdentifier r) as [n|] eqn:Hn; cbn [truthy_ostr] in IH |- *.
      * destruct (truthy_str n); cbn [negb mbind Result_bind].
        { rewrite IH. tauto. }
        { split; [by intros [? ?] | by intros (_ & Hf & _); specialize (Hf eq_refl)]. }
      * split; [by intros [? ?] | by intros (_ & Hf & _); specialize (Hf eq_refl)].
    + (* nodeOrEmpty *)
      unfold _render_nodeOrEmpty.
      destruct (nodeIdentifier r) as [n|]; [destruct (truthy_str n)|];
        cbn [mbind Result_bind]; apply IH.
    + (* nodeOrNone *)
      unfold _render_nodeOrNone.
      destruct (nodeIdentifier r) as [n|]; [destruct (truthy_str n)|];
        cbn [mbind Result_bind]; apply IH.
    + (* items *)
      unfold _render_items. destruct (items r); cbn [mbind Result_bind];
        apply IH.
    + (* jid *)
      unfold _render_jid. destruct (subscriber r) as [j|];
        cbn [mbind Result_bind].
      * rewrite IH. split; [|by intuition].
        intros (? & ? & ?). repeat split; try done.
      * split; [by intros [? ?]|]. intros (_ & _ & Hf).
        by destruct (Hf eq_refl).
    + (* default *) split; [by intros [? ?] | by intros [? _]].
    + (* configure *) split; [by intros [? ?] | by intros [? _]].
    + (* itemIdentifiers *)
      unfold _render_itemIdentifiers. destruct (itemIdentifiers r);
        cbn [mbind Result_bind]; apply IH.
    + (* maxItems *)
      unfold _render_maxItems.
      destruct (maxItems r) as [m|]; [destruct (negb (m =? 0)%Z)|];
        cbn [mbind Result_bind]; apply IH.
    + (* options *) split; [by intros [? ?] | by intros [? _]].
Qed.

Lemma render_sendable `{J : Jabber} (r : PubSubRequest) :
  (exists out, render r = Ok out) <-> sendable r.
Proof.
  unfold sendable, render.
  destruct (verb r) as [verb_|] eqn:Hverb; cbn [mbind option_bind].
  2: { split; [by intros [? ?] | by intros (? & ? & ? & _)]. }
  destruct (dict_get _verbRequestMap verb_) as [[[t u] n]|] eqn:Hkey.
  - assert (Hps : is_Some (dict_get _parameters verb_)).
    { pose proof Hkey as Hkey'.
      table_cases Hkey'; vm_compute; eexists; reflexivity. }
    destruct Hps as [ps Hps]. cbn [verb set_stanzaType]. rewrite Hverb.
    cbn [mbind option_bind]. rewrite Hps.
    pose proof (renderParameters_succeeds ps (set_stanzaType (Some t) r)
                  (newElement (uri (newElement (Some u) "pubsub")) n)
                  (table_parameters_parsed _ _ Hps)) as Hrender.
    cbn [nodeIdentifier subscriber set_stanzaType] in Hrender.
    split.
    + intros [out Hout].
      exists verb_, ps. split; [done|]. split; [done|]. apply Hrender.
      destruct (renderParameters ps _ _) as [rendered|e];
        [by eexists | discriminate Hout].
    + intros (v & ps' & [= <-] & Hps' & Hcond).
      rewrite Hps in Hps'. injection Hps' as <-.
      apply Hrender in Hcond as [rendered ->]. cbn [mbind Result_bind].
      by eexists.
  - split; [by intros [? ?]|]. intros (v & ps & [= <-] & Hps & _).
    table_cases Hps; vm_compute in Hkey; discriminate Hkey.
Qed.

(** X19.  [send] ships a stanza, after what the stream already holds,
    exactly for the requests that are [sendable]: the verb is one of
    the table and has none of the parameters [default], [configure] and
    [options], the node identifier is not empty if the verb has the
    [node] parameter, and there is a subscriber if it has the [jid]
    parameter.  For every other request it raises and leaves the stream
    as it was. *)
Theorem send_ships_iff_sendable `{J : Jabber} (r : PubSubRequest)
    (xs : XmlStream) :
  ((exists r' iq, send r xs = ((xs ++ [iq])%list, Ok (r', iq))) <-> sendable r)
  /\ (~ sendable r -> exists e, send r xs = (xs, Raise e)).
Proof.
  unfold send. split; [split|].
  - intros (r' & iq & Hsend). apply render_sendable.
    destruct (render r) as [[r1 iq1]|e]; [by eexists | discriminate Hsend].
  - intros Hs. apply render_sendable in Hs as [[r' iq] ->].
    by exists r', iq.
  - intros Hno. destruct (render r) as [out|e] eqn:Hr.
    + destruct Hno. apply render_sendable. by exists out.
    + by exists e.
Qed.

Lemma send_ships_iff_sendable_witness :
  exists r' iq,
    send (J:=Examples.textJabber) MoreExamples.subscribeNews []
    = (([] ++ [iq])%list, Ok (r', iq)).
Proof.
  apply (proj2 (proj1 (send_ships_iff_sendable (J:=Examples.textJabber)
                         MoreExamples.subscribeNews []))).
  exists "subscribe", ["nodeOrEmpty"; "jid"].
  split; [reflexivity|]. split; [reflexivity|]. split; [reflexivity|].
  split; [discriminate|]. intros _. by eexists.
Defined.

(** ** Configuring a node *)

(** X20.  An inbound request to configure a node whose form is a
    cancelled one, or a submitted one without values, is answered with
    the bare result and no backend operation is called: neither the
    option schema is read nor [setConfiguration] reached, whatever the
    backend. *)
Theorem empty_configuration_untouched `{J : Jabber} `{D : DataForms}
    (self : PubSubService.t) (iq pubsub child : Element) (form : Form) :
  wellAddressed iq ->
  childNamed iq "pubsub" = Some pubsub ->
  resolveVerb (getAttribute iq "type") (elements pubsub)
  = Some ("configureSet", child) ->
  last (omap Form_fromElement (elements child)) = Some form ->
  formType form = Some "cancel"
  \/ (formType form = Some "submit" /\ getValues form = ∅) ->
  PubSubService._onPubSubRequest self iq = ([], Ok None).
Proof.
  intros Hw Hp Hv Hlast Hform.
  unfold PubSubService._onPubSubRequest, fromElement, parseElement.
  destruct (Stanza_parseElement_ok iq (PubSubRequest_init None) Hw)
    as (r & -> & Ht & _).
  cbn [mbind Result_bind]. rewrite Hp, Ht, Hv.
  cbn [verb set_verb truthy_ostr].
  change (truthy_str "configureSet") with true. cbn [negb].
  change (dict_get _parameters "configureSet")
    with (Some ["nodeOrEmpty"; "configure"]).
  cbn [parseParameters _parse_ mbind Result_bind].
  unfold _parse_nodeOrEmpty. cbn [mbind Result_bind].
  unfold _parse_configure. rewrite _findForm_last, Hlast.
  destruct Hform as [Hc | [Hs He]].
  - rewrite Hc.
    rewrite (bool_decide_eq_false_2 (Some "cancel" = Some "submit")) by done.
    rewrite (bool_decide_eq_true_2 (Some "cancel" = Some "cancel")) by done.
    cbn [mbind Result_bind verb set_options set_nodeIdentifier set_verb].
    cbn [PubSubService._on_]. unfold PubSubService._on_configureSet.
    cbn [options set_options].
    by rewrite (bool_decide_eq_true_2 (∅ = ∅)).
  - rewrite Hs, He.
    rewrite (bool_decide_eq_true_2 (Some "submit" = Some "submit")) by done.
    cbn [mbind Result_bind verb set_options set_nodeIdentifier set_verb].
    cbn [PubSubService._on_]. unfold PubSubService._on_configureSet.
    cbn [options set_options].
    by rewrite (bool_decide_eq_true_2 (∅ = ∅)).
Qed.

Lemma empty_configuration_untouched_witness :
  PubSubService._onPubSubRequest (J:=Examples.textJabber) (D:=Examples.xData)
    MoreExamples.titledService (MoreExamples.configureRequest "cancel")
  = ([], Ok None).
Proof.
  eapply (empty_configuration_untouched (J:=Examples.textJabber)
            (D:=Examples.xData) _ (MoreExamples.configureRequest "cancel")).
  - vm_compute; eauto.
  - reflexivity.
  - vm_compute; reflexivity.
  - vm_compute; reflexivity.
  - left; reflexivity.
Defined.
